(** * FullStack-Bench: a shallow embedding of the agent tool chain

    The development follows the Python sources module by module:
    - [PyStr]        the [str] methods the sources call
                     ([replace], [count], [in], [startswith], [lower], ...);
    - [ConvertPath]  [src/utils/convert_path.py];

    Python [str] values are modelled as [string]; Python [int] as [Z] or
    [nat] (where the source only counts); dictionaries as [gmap]. *)

From Stdlib Require Import ZArith QArith List String Ascii Bool Lia DecimalString.
From Stdlib Require Import Floats.SpecFloat.
From stdpp Require Import base option list strings gmap.

Set Warnings "-register-all".
Local Open Scope string_scope.
Local Open Scope list_scope.

(** ** Python [str] primitives *)

Module PyStr.

(** [s.startswith(p)] *)
Fixpoint startswith (p s : string) : bool :=
  match p, s with
  | EmptyString, _ => true
  | String a p', String b s' => if Ascii.eqb a b then startswith p' s' else false
  | String _ _, EmptyString => false
  end.

(** [s[n:]] for a non-negative [n] *)
Fixpoint drop (n : nat) (s : string) : string :=
  match n, s with
  | O, _ => s
  | S _, EmptyString => EmptyString
  | S n', String _ s' => drop n' s'
  end.

(** [s[:n]] for a non-negative [n] *)
Fixpoint take (n : nat) (s : string) : string :=
  match n, s with
  | O, _ => EmptyString
  | S _, EmptyString => EmptyString
  | S n', String c s' => String c (take n' s')
  end.

(** [s.replace(old, new)] for a non-empty [old]: occurrences are found
    from the left and do not overlap.  [skip] counts the characters of
    the occurrence just replaced that are still to be passed over. *)
Fixpoint replace_from (old new : string) (skip : nat) (s : string) : string :=
  match s with
  | EmptyString => EmptyString
  | String c s' =>
      match skip with
      | S k => replace_from old new k s'
      | O =>
          if startswith old s
          then new +:+ replace_from old new (String.length old - 1) s'
          else String c (replace_from old new 0 s')
      end
  end.

(** [s.replace(old, new)]; with an empty [old] Python inserts [new]
    before every character and at the end. *)
Fixpoint intersperse (new s : string) : string :=
  match s with
  | EmptyString => new
  | String c s' => new +:+ String c (intersperse new s')
  end.

Definition replace (s old new : string) : string :=
  match old with
  | EmptyString => intersperse new s
  | String _ _ => replace_from old new 0 s
  end.

(** [s.count(sub)]: the number of non-overlapping occurrences. *)
Fixpoint count_from (sub : string) (skip : nat) (s : string) : nat :=
  match s with
  | EmptyString => 0
  | String c s' =>
      match skip with
      | S k => count_from sub k s'
      | O =>
          if startswith sub s
          then S (count_from sub (String.length sub - 1) s')
          else count_from sub 0 s'
      end
  end.

Definition count (s sub : string) : nat :=
  match sub with
  | EmptyString => S (String.length s)
  | String _ _ => count_from sub 0 s
  end.

(** [sub in s] *)
Fixpoint contains (sub s : string) : bool :=
  startswith sub s
  || match s with
     | EmptyString => false
     | String _ s' => contains sub s'
     end.

Definition is_upper (c : ascii) : bool :=
  let n := nat_of_ascii c in (65 <=? n)%nat && (n <=? 90)%nat.

Definition is_lower (c : ascii) : bool :=
  let n := nat_of_ascii c in (97 <=? n)%nat && (n <=? 122)%nat.

Definition is_digit (c : ascii) : bool :=
  let n := nat_of_ascii c in (48 <=? n)%nat && (n <=? 57)%nat.

(** the class [[a-zA-Z]] *)
Definition is_letter (c : ascii) : bool := is_upper c || is_lower c.

(** [c.lower()] on one character *)
Definition lower_char (c : ascii) : ascii :=
  if is_upper c then ascii_of_nat (nat_of_ascii c + 32) else c.

(** [s.lower()] *)
Fixpoint lower (s : string) : string :=
  match s with
  | EmptyString => EmptyString
  | String c s' => String (lower_char c) (lower s')
  end.

Fixpoint map_chars (f : ascii -> ascii) (s : string) : string :=
  match s with
  | EmptyString => EmptyString
  | String c s' => String (f c) (map_chars f s')
  end.

(** [str(n)] for an integer *)
Definition str_of_Z (n : Z) : string := NilZero.string_of_int (Z.to_int n).

Definition str_of_nat (n : nat) : string := str_of_Z (Z.of_nat n).

(** [int(s)] on an optional sign followed by decimal digits; [None] stands
    for [ValueError] *)
Fixpoint digits_value (acc : Z) (s : string) : option Z :=
  match s with
  | EmptyString => Some acc
  | String c s' =>
      if is_digit c
      then digits_value (10 * acc + Z.of_nat (nat_of_ascii c - 48)) s'
      else None
  end.

Definition int_of_str (s : string) : option Z :=
  match s with
  | EmptyString => None
  | String c s' =>
      if Ascii.eqb c (ascii_of_nat 45) then
        match s' with
        | EmptyString => None
        | _ => option_map Z.opp (digits_value 0 s')
        end
      else if Ascii.eqb c (ascii_of_nat 43) then
        match s' with
        | EmptyString => None
        | _ => digits_value 0 s'
        end
      else digits_value 0 s
  end.

(** the whitespace of [str.strip] below 128: the characters 9 to 13 and
    28 to 32 *)
Definition is_space (c : ascii) : bool :=
  let n := nat_of_ascii c in
  ((9 <=? n)%nat && (n <=? 13)%nat) || ((28 <=? n)%nat && (n <=? 32)%nat).

(** the other whitespace of [str.strip], in UTF-8: U+0085 and U+00A0 take
    two bytes; U+1680, U+2000 to U+200A, U+2028, U+2029, U+202F, U+205F and
    U+3000 take three *)
Definition is_space2 (c1 c2 : ascii) : bool :=
  let n2 := nat_of_ascii c2 in
  (nat_of_ascii c1 =? 194)%nat && ((n2 =? 133)%nat || (n2 =? 160)%nat).

Definition is_space3 (c1 c2 c3 : ascii) : bool :=
  let n1 := nat_of_ascii c1 in
  let n2 := nat_of_ascii c2 in
  let n3 := nat_of_ascii c3 in
  ((n1 =? 225)%nat && (n2 =? 154)%nat && (n3 =? 128)%nat)
  || ((n1 =? 226)%nat && (n2 =? 128)%nat
      && (((128 <=? n3)%nat && (n3 <=? 138)%nat)
          || (n3 =? 168)%nat || (n3 =? 169)%nat || (n3 =? 175)%nat))
  || ((n1 =? 226)%nat && (n2 =? 129)%nat && (n3 =? 159)%nat)
  || ((n1 =? 227)%nat && (n2 =? 128)%nat && (n3 =? 128)%nat).

(** [s.lstrip()], [s.rstrip()], [s.strip()] *)
Fixpoint lstrip (s : string) : string :=
  match s with
  | String c1 s1 =>
      if is_space c1 then lstrip s1
      else
        match s1 with
        | String c2 s2 =>
            if is_space2 c1 c2 then lstrip s2
            else
              match s2 with
              | String c3 s3 => if is_space3 c1 c2 c3 then lstrip s3 else s
              | EmptyString => s
              end
        | EmptyString => s
        end
  | EmptyString => s
  end.

(** [s] is made of whitespace *)
Fixpoint all_space (s : string) : bool :=
  match s with
  | String c1 s1 =>
      if is_space c1 then all_space s1
      else
        match s1 with
        | String c2 s2 =>
            if is_space2 c1 c2 then all_space s2
            else
              match s2 with
              | String c3 s3 => is_space3 c1 c2 c3 && all_space s3
              | EmptyString => false
              end
        | EmptyString => false
        end
  | EmptyString => true
  end.

Fixpoint rstrip (s : string) : string :=
  match s with
  | EmptyString => EmptyString
  | String c s' => if all_space s then EmptyString else String c (rstrip s')
  end.

Definition strip (s : string) : string := rstrip (lstrip s).

(** [len(s)]: the bytes that start a character are counted *)
Definition starts_char (c : ascii) : bool :=
  let n := nat_of_ascii c in (n <? 128)%nat || (192 <=? n)%nat.

Fixpoint len (s : string) : nat :=
  match s with
  | EmptyString => 0
  | String c s' => (if starts_char c then 1 else 0) + len s'
  end.

(** [s[:n]] on characters: [started] tells whether a character has been
    taken whose later bytes are still to come *)
Fixpoint take_chars (n : nat) (started : bool) (s : string) : string :=
  match s with
  | EmptyString => EmptyString
  | String c s' =>
      if starts_char c then
        match n with
        | O => EmptyString
        | S n' => String c (take_chars n' true s')
        end
      else if started then String c (take_chars n true s')
      else EmptyString
  end.

(** The code points of [s], read from its UTF-8 encoding. *)
Definition low6 (c : ascii) : Z := (Z.of_nat (nat_of_ascii c) mod 64)%Z.

Fixpoint points (s : string) : list Z :=
  match s with
  | EmptyString => []
  | String c1 s1 =>
      let n := Z.of_nat (nat_of_ascii c1) in
      if (n <? 192)%Z then n :: points s1
      else
        match s1 with
        | EmptyString => [n]
        | String c2 s2 =>
            if (n <? 224)%Z then ((n mod 32) * 64 + low6 c2)%Z :: points s2
            else
              match s2 with
              | EmptyString => [n]
              | String c3 s3 =>
                  if (n <? 240)%Z
                  then ((n mod 16) * 4096 + low6 c2 * 64 + low6 c3)%Z :: points s3
                  else
                    match s3 with
                    | EmptyString => [n]
                    | String c4 s4 =>
                        ((n mod 8) * 262144 + low6 c2 * 4096 + low6 c3 * 64 + low6 c4)%Z
                        :: points s4
                    end
              end
        end
  end.

(** The code points [c] with [chr(c).isdigit()] (Unicode 14.0): the decimal
    digits of the scripts, and the superscript, subscript and circled
    digits. *)
Definition digit_ranges : list (Z * Z) :=
  [ (48, 57); (178, 179); (185, 185); (1632, 1641); (1776, 1785); (1984, 1993);
    (2406, 2415); (2534, 2543); (2662, 2671); (2790, 2799); (2918, 2927);
    (3046, 3055); (3174, 3183); (3302, 3311); (3430, 3439); (3558, 3567);
    (3664, 3673); (3792, 3801); (3872, 3881); (4160, 4169); (4240, 4249);
    (4969, 4977); (6112, 6121); (6160, 6169); (6470, 6479); (6608, 6618);
    (6784, 6793); (6800, 6809); (6992, 7001); (7088, 7097); (7232, 7241);
    (7248, 7257); (8304, 8304); (8308, 8313); (8320, 8329); (9312, 9320);
    (9332, 9340); (9352, 9360); (9450, 9450); (9461, 9469); (9471, 9471);
    (10102, 10110); (10112, 10120); (10122, 10130); (42528, 42537);
    (43216, 43225); (43264, 43273); (43472, 43481); (43504, 43513);
    (43600, 43609); (44016, 44025); (65296, 65305); (66720, 66729);
    (68160, 68163); (68912, 68921); (69216, 69224); (69714, 69722);
    (69734, 69743); (69872, 69881); (69942, 69951); (70096, 70105);
    (70384, 70393); (70736, 70745); (70864, 70873); (71248, 71257);
    (71360, 71369); (71472, 71481); (71904, 71913); (72016, 72025);
    (72784, 72793); (73040, 73049); (73120, 73129); (92768, 92777);
    (92864, 92873); (93008, 93017); (120782, 120831); (123200, 123209);
    (123632, 123641); (125264, 125273); (127232, 127242); (130032, 130041) ]%Z.

Definition is_digit_point (c : Z) : bool :=
  existsb (fun r => (fst r <=? c)%Z && (c <=? snd r)%Z) digit_ranges.

(** [s.isdigit()]: not empty, and digits only *)
Definition isdigit (s : list Z) : bool :=
  match s with
  | [] => false
  | _ => forallb is_digit_point s
  end.

(** [s.endswith(suffix)] *)
Definition endswith (suffix s : string) : bool :=
  (String.length suffix <=? String.length s)%nat
  && String.eqb (drop (String.length s - String.length suffix) s) suffix.

(** every character of [s] satisfies [p] *)
Fixpoint all_chars (p : ascii -> bool) (s : string) : bool :=
  match s with
  | EmptyString => true
  | String c s' => p c && all_chars p s'
  end.

End PyStr.

(** ** [src/utils/convert_path.py] *)

Module ConvertPath.
Import PyStr.

Definition backslash : ascii := ascii_of_nat 92.
Definition slash : ascii := ascii_of_nat 47.
Definition colon : ascii := ascii_of_nat 58.

(** [re.compile(r'^[a-zA-Z]:\\').match(path)] *)
Definition windows_path_pattern (path : string) : bool :=
  match path with
  | String d (String c (String b _)) =>
      is_letter d && Ascii.eqb c colon && Ascii.eqb b backslash
  | _ => false
  end.

Definition convert_windows_path_to_linux (path : string) : string :=
  if windows_path_pattern path then
    let linux_path := replace path (String backslash "") (String slash "") in
    let drive_letter := lower (take 1 linux_path) in
    String slash (drive_letter +:+ drop 2 linux_path)
  else path.

Definition to_slash (c : ascii) : ascii :=
  if Ascii.eqb c backslash then slash else c.

End ConvertPath.

(** ** [hashlib.sha256(...).hexdigest()] (FIPS 180-4), on bytes as [Z] *)

Module Sha256.
Local Open Scope Z_scope.

Definition mask32 : Z := 4294967295.

(** addition modulo [2^32] *)
Definition add32 (x y : Z) : Z := Z.land (x + y) mask32.

Definition rotr (n x : Z) : Z :=
  Z.lor (Z.shiftr x n) (Z.land (Z.shiftl x (32 - n)) mask32).

Definition Ch (x y z : Z) : Z :=
  Z.lxor (Z.land x y) (Z.land (Z.lxor x mask32) z).

Definition Maj (x y z : Z) : Z :=
  Z.lxor (Z.lxor (Z.land x y) (Z.land x z)) (Z.land y z).

Definition Sigma0 (x : Z) : Z := Z.lxor (Z.lxor (rotr 2 x) (rotr 13 x)) (rotr 22 x).
Definition Sigma1 (x : Z) : Z := Z.lxor (Z.lxor (rotr 6 x) (rotr 11 x)) (rotr 25 x).
Definition sigma0 (x : Z) : Z := Z.lxor (Z.lxor (rotr 7 x) (rotr 18 x)) (Z.shiftr x 3).
Definition sigma1 (x : Z) : Z := Z.lxor (Z.lxor (rotr 17 x) (rotr 19 x)) (Z.shiftr x 10).

Definition K : list Z :=
  [ 1116352408; 1899447441; 3049323471; 3921009573; 961987163; 1508970993;
    2453635748; 2870763221; 3624381080; 310598401; 607225278; 1426881987;
    1925078388; 2162078206; 2614888103; 3248222580; 3835390401; 4022224774;
    264347078; 604807628; 770255983; 1249150122; 1555081692; 1996064986;
    2554220882; 2821834349; 2952996808; 3210313671; 3336571891; 3584528711;
    113926993; 338241895; 666307205; 773529912; 1294757372; 1396182291;
    1695183700; 1986661051; 2177026350; 2456956037; 2730485921; 2820302411;
    3259730800; 3345764771; 3516065817; 3600352804; 4094571909; 275423344;
    430227734; 506948616; 659060556; 883997877; 958139571; 1322822218;
    1537002063; 1747873779; 1955562222; 2024104815; 2227730452; 2361852424;
    2428436474; 2756734187; 3204031479; 3329325298 ].

Definition H0 : list Z :=
  [ 1779033703; 3144134277; 1013904242; 2773480762;
    1359893119; 2600822924; 528734635; 1541459225 ].

(** [name.encode("utf-8")]: the model's strings are byte strings already. *)
Definition bytes_of_string (s : string) : list Z :=
  List.map (fun c => Z.of_nat (nat_of_ascii c)) (list_ascii_of_string s).

(** the [n] low bytes of [x], most significant first *)
Fixpoint be_bytes (n : nat) (x : Z) : list Z :=
  match n with
  | O => []
  | S n' => Z.land (Z.shiftr x (8 * Z.of_nat n')) 255 :: be_bytes n' x
  end.

Definition pad (msg : list Z) : list Z :=
  let l := length msg in
  msg ++ [128] ++ repeat 0 ((119 - l mod 64) mod 64)%nat
      ++ be_bytes 8 (8 * Z.of_nat l).

Fixpoint be_word (bs : list Z) : Z :=
  match bs with
  | [] => 0
  | b :: bs' => Z.lor (Z.shiftl b (8 * Z.of_nat (length bs'))) (be_word bs')
  end.

(** cut a list into consecutive pieces of [n] elements; [fuel] bounds the
    number of pieces *)
Fixpoint chunks {A} (fuel n : nat) (l : list A) : list (list A) :=
  match fuel, l with
  | O, _ => []
  | _, [] => []
  | S fuel', _ => firstn n l :: chunks fuel' n (skipn n l)
  end.

(** the message schedule: [w] holds the words computed so far *)
Fixpoint schedule (n : nat) (w : list Z) : list Z :=
  match n with
  | O => w
  | S n' =>
      let t := length w in
      let at_ (i : nat) := nth (t - i) w 0 in
      schedule n'
        (w ++ [add32 (add32 (add32 (sigma1 (at_ 2%nat)) (at_ 7%nat))
                            (sigma0 (at_ 15%nat)))
                     (at_ 16%nat)])
  end.

Record regs := Regs { ra : Z; rb : Z; rc : Z; rd : Z; re : Z; rf : Z; rg : Z; rh : Z }.

Definition round (r : regs) (kw : Z * Z) : regs :=
  let t1 := add32 (add32 (add32 (add32 (rh r) (Sigma1 (re r)))
                                (Ch (re r) (rf r) (rg r)))
                         (fst kw))
                  (snd kw) in
  let t2 := add32 (Sigma0 (ra r)) (Maj (ra r) (rb r) (rc r)) in
  Regs (add32 t1 t2) (ra r) (rb r) (rc r) (add32 (rd r) t1) (re r) (rf r) (rg r).

Definition regs_of_list (h : list Z) : regs :=
  Regs (nth 0 h 0) (nth 1 h 0) (nth 2 h 0) (nth 3 h 0)
       (nth 4 h 0) (nth 5 h 0) (nth 6 h 0) (nth 7 h 0).

Definition list_of_regs (r : regs) : list Z :=
  [ra r; rb r; rc r; rd r; re r; rf r; rg r; rh r].

Definition compress (h : list Z) (block : list Z) : list Z :=
  let w := schedule 48 (List.map be_word (chunks 16 4 block)) in
  let r := fold_left round (combine K w) (regs_of_list h) in
  List.map (fun p => add32 (fst p) (snd p)) (combine h (list_of_regs r)).

Definition digest_words (msg : list Z) : list Z :=
  let p := pad msg in
  fold_left compress (chunks (length p) 64 p) H0.

Definition hex_digit (d : Z) : ascii :=
  if d <? 10 then ascii_of_nat (48 + Z.to_nat d)
  else ascii_of_nat (87 + Z.to_nat d).

(** [n] lowercase hexadecimal digits of [x], most significant first *)
Fixpoint hex (n : nat) (x : Z) : string :=
  match n with
  | O => EmptyString
  | S n' => String (hex_digit (Z.land (Z.shiftr x (4 * Z.of_nat n')) 15)) (hex n' x)
  end.

Definition hexdigest (s : string) : string :=
  fold_right (fun w acc => hex 8 w +:+ acc) EmptyString
             (digest_words (bytes_of_string s)).

End Sha256.

(** ** [os.path] (POSIX flavour) *)

Module PosixPath.
Import PyStr.

Definition sep : ascii := ascii_of_nat 47.

(** split at the last [/]: the head keeps the separator *)
Fixpoint rsplit_sep (p : string) : option (string * string) :=
  match p with
  | EmptyString => None
  | String c p' =>
      match rsplit_sep p' with
      | Some (h, t) => Some (String c h, t)
      | None => if Ascii.eqb c sep then Some (String sep EmptyString, p') else None
      end
  end.

(** [head.rstrip('/')] *)
Fixpoint rstrip_sep (s : string) : string :=
  match s with
  | EmptyString => EmptyString
  | String c s' =>
      match rstrip_sep s' with
      | EmptyString => if Ascii.eqb c sep then EmptyString else String c EmptyString
      | r => String c r
      end
  end.

(** [posixpath.split]: a head made of separators only is kept as it is *)
Definition split (p : string) : string * string :=
  match rsplit_sep p with
  | None => (EmptyString, p)
  | Some (h, t) =>
      (if all_chars (fun c => Ascii.eqb c sep) h then h else rstrip_sep h, t)
  end.

Definition dirname (p : string) : string := fst (split p).
Definition basename (p : string) : string := snd (split p).

(** [os.path.isabs] *)
Definition isabs (p : string) : bool :=
  match p with
  | String c _ => Ascii.eqb c sep
  | EmptyString => false
  end.

(** [os.path.join(a, b)] *)
Definition join (a b : string) : string :=
  if isabs b then b
  else if String.eqb a "" || endswith "/" a then a +:+ b
  else a +:+ "/" +:+ b.

(** [p.split('/')]: [cur] holds the component being read, reversed *)
Fixpoint split_sep (cur : string) (p : string) : list string :=
  match p with
  | EmptyString => [cur]
  | String c p' =>
      if Ascii.eqb c sep then cur :: split_sep EmptyString p'
      else split_sep (cur +:+ String c EmptyString) p'
  end.

(** The components of [normpath(abspath(p))]: empty components and [.]
    are dropped, [..] drops the component before it (none at the root).
    [stack] holds the components kept so far, last first. *)
Fixpoint norm_parts (stack : list string) (comps : list string) : list string :=
  match comps with
  | [] => rev stack
  | c :: rest =>
      if String.eqb c "" || String.eqb c "." then norm_parts stack rest
      else if String.eqb c ".." then norm_parts (tl stack) rest
      else norm_parts (c :: stack) rest
  end.

Definition abs_parts (cwd p : string) : list string :=
  norm_parts [] (split_sep "" (if isabs p then p else cwd +:+ "/" +:+ p)).

Fixpoint common_prefix (a b : list string) : nat :=
  match a, b with
  | x :: a', y :: b' => if String.eqb x y then S (common_prefix a' b') else 0
  | _, _ => 0
  end.

(** ['/'.join(parts)] *)
Fixpoint join_sep (parts : list string) : string :=
  match parts with
  | [] => EmptyString
  | [x] => x
  | x :: rest => x +:+ "/" +:+ join_sep rest
  end.

(** [os.path.relpath(path, start)], in a process whose working directory
    is [cwd] *)
Definition relpath (cwd path start : string) : string :=
  let start_list := abs_parts cwd start in
  let path_list := abs_parts cwd path in
  let i := common_prefix start_list path_list in
  match (repeat ".." (length start_list - i) ++ skipn i path_list)%list with
  | [] => "."
  | rel_list => join_sep rel_list
  end.

End PosixPath.

(** ** The compose document handed to [yaml.dump(..., sort_keys=False)] *)

Module Yaml.

Inductive yaml : Type :=
| YStr (s : string)
| YInt (n : Z)
| YBool (b : bool)
| YSeq (items : list yaml)
| YMap (entries : list (string * yaml)).

(** [d[k]] on a mapping node *)
Fixpoint assoc (k : string) (entries : list (string * yaml)) : option yaml :=
  match entries with
  | [] => None
  | (k', v) :: rest => if String.eqb k k' then Some v else assoc k rest
  end.

Definition get (k : string) (y : yaml) : option yaml :=
  match y with
  | YMap entries => assoc k entries
  | _ => None
  end.

Definition keys (y : yaml) : list string :=
  match y with
  | YMap entries => List.map fst entries
  | _ => []
  end.

End Yaml.

(** ** The three [create_docker_compose_file] of the tree

    [project_root] stands for the directory computed from [__file__].  Each
    function is modelled by the document it dumps at [compose_path]. *)

Module Sandbox.
Import PyStr PosixPath Yaml ConvertPath.

(** [_hash_name(name, length=12)] *)
Definition _hash_name (name : string) (length : nat) : string :=
  take length (Sha256.hexdigest name).

Definition environment (db_port : Z) : yaml :=
  YMap [ ("DB_HOST", YStr "localhost"); ("DB_PORT", YInt db_port);
         ("DB_USERNAME", YStr "myappuser"); ("DB_PASSWORD", YStr "myapppassword");
         ("DB_NAME", YStr "myapp") ].

Definition local_bind (device : string) : yaml :=
  YMap [ ("driver", YStr "local");
         ("driver_opts",
          YMap [ ("type", YStr "none"); ("o", YStr "bind"); ("device", YStr device) ]) ].

Definition bridge : yaml :=
  YMap [ ("driver", YStr "bridge"); ("external", YBool false) ].

Definition pg_main : string := ":/var/lib/postgresql/14/main".

End Sandbox.

(** [src/utils/sandbox.py] *)
Module UtilsSandbox.
Import PyStr PosixPath Yaml ConvertPath Sandbox.

Definition create_docker_compose_file
  (project_root working_dir log_dir output_dir compose_path db_dir : string) : yaml :=
  let linux_project_root := convert_windows_path_to_linux project_root in
  let linux_log_dir := convert_windows_path_to_linux log_dir in
  let linux_working_dir := convert_windows_path_to_linux working_dir in
  let linux_output_dir := convert_windows_path_to_linux output_dir in
  let sample_id := basename log_dir in
  let readable_name := basename (dirname compose_path) in
  let name_hash := _hash_name readable_name 12 in
  let container_name := "container_" +:+ name_hash in
  let volume_prefix := "postgres_data_" +:+ name_hash in
  let network_name := "webgen_network_" +:+ name_hash in
  YMap [
    ("services", YMap [
      ("workspace", YMap [
        ("container_name", YStr container_name);
        ("image", YStr "webgen-agent-postgres:latest");
        ("tty", YBool true);
        ("stdin_open", YBool true);
        ("command", YSeq [YStr "sleep"; YStr "infinity"]);
        ("volumes", YSeq [
           YStr (working_dir +:+ ":" +:+ linux_working_dir);
           YStr (log_dir +:+ ":" +:+ linux_log_dir);
           YStr (output_dir +:+ ":" +:+ linux_output_dir);
           YStr ("postgres_data_" +:+ container_name +:+ pg_main);
           YStr (project_root +:+ ":" +:+ linux_project_root +:+ ":ro") ]);
        ("environment", environment 5432);
        ("networks", YSeq [YStr ("webgen_network_" +:+ container_name)]) ]) ]);
    ("volumes", YMap [ ("postgres_data_" +:+ container_name, local_bind db_dir) ]);
    ("networks", YMap [ ("webgen_network_" +:+ container_name, bridge) ]) ].

End UtilsSandbox.

(** [src/agents/agent_utils/sandbox.py] *)
Module AgentSandbox.
Import PyStr PosixPath Yaml ConvertPath Sandbox.

Definition create_docker_compose_file
  (project_root working_dir log_dir compose_path : string) : yaml :=
  let linux_project_root := convert_windows_path_to_linux project_root in
  let linux_log_dir := convert_windows_path_to_linux log_dir in
  let linux_working_dir := convert_windows_path_to_linux working_dir in
  let readable_name := basename (dirname compose_path) in
  let name_hash := _hash_name readable_name 12 in
  let container_name := "container_" +:+ name_hash in
  let volume_prefix := "postgres_data_" +:+ name_hash in
  let network_name := "webgen_network_" +:+ name_hash in
  let db_dir := join log_dir "db" in
  YMap [
    ("services", YMap [
      ("workspace", YMap [
        ("container_name", YStr container_name);
        ("image", YStr "webgen-agent-postgres:latest");
        ("tty", YBool true);
        ("stdin_open", YBool true);
        ("command", YSeq [YStr "sleep"; YStr "infinity"]);
        ("volumes", YSeq [
           YStr (working_dir +:+ ":" +:+ linux_working_dir);
           YStr (log_dir +:+ ":" +:+ linux_log_dir);
           YStr (volume_prefix +:+ pg_main);
           YStr (project_root +:+ ":" +:+ linux_project_root +:+ ":ro") ]);
        ("environment", environment 5432);
        ("networks", YSeq [YStr network_name]) ]) ]);
    ("volumes", YMap [ (volume_prefix, local_bind db_dir) ]);
    ("networks", YMap [ (network_name, bridge) ]) ].

End AgentSandbox.

(** [baselines/webgen-agent/src_fullstack/sandbox.py] *)
Module BaselineSandbox.
Import PyStr PosixPath Yaml ConvertPath Sandbox.

Definition create_docker_compose_file
  (working_dir log_dir compose_path db_dir : string) (db_port : Z) : yaml :=
  let linux_working_dir := convert_windows_path_to_linux working_dir in
  let linux_log_dir := convert_windows_path_to_linux log_dir in
  let linux_db_dir := convert_windows_path_to_linux db_dir in
  let sample_id := basename log_dir in
  let host_conf_path := join (dirname compose_path) "logging.conf" in
  let linux_host_conf_path := convert_windows_path_to_linux host_conf_path in
  YMap [
    ("services", YMap [
      ("workspace", YMap [
        ("image", YStr "webgen-agent-postgres:latest");
        ("tty", YBool true);
        ("stdin_open", YBool true);
        ("command", YSeq [YStr "sleep"; YStr "infinity"]);
        ("volumes", YSeq [
           YStr ("postgres_data_" +:+ sample_id +:+ pg_main);
           YStr (linux_host_conf_path
                 +:+ ":/etc/postgresql/14/main/conf.d/90-logging.conf:ro") ]);
        ("environment", environment db_port);
        ("ports", YSeq [YStr (str_of_Z db_port +:+ ":5432")]) ]) ]);
    ("volumes", YMap [ ("postgres_data_" +:+ sample_id, local_bind linux_db_dir) ]) ].

End BaselineSandbox.

(** What a compose document names. *)
Module ComposeNames.
Import Yaml.

Definition container_name (doc : yaml) : option yaml :=
  match get "services" doc with
  | Some services =>
      match get "workspace" services with
      | Some workspace => get "container_name" workspace
      | None => None
      end
  | None => None
  end.

Definition volume_names (doc : yaml) : list string :=
  match get "volumes" doc with
  | Some v => keys v
  | None => []
  end.

Definition network_names (doc : yaml) : list string :=
  match get "networks" doc with
  | Some v => keys v
  | None => []
  end.

End ComposeNames.

(** ** Exceptions and outcomes of the modelled Python functions *)

Module Py.

Inductive exn : Type :=
| ValueError (msg : string)
| NameError (name : string)
| TypeError
| IndexError
| KeyError (key : string)
| ZeroDivisionError
| DockerException
| OverflowError.

Inductive outcome (A : Type) : Type :=
| Returned (a : A)
| Raised (e : exn).
Arguments Returned {A} a.
Arguments Raised {A} e.

(** Sequencing: the first exception raised ends the computation. *)
Definition bind {A B} (x : outcome A) (f : A -> outcome B) : outcome B :=
  match x with
  | Returned a => f a
  | Raised e => Raised e
  end.

Notation "'let*' x ':=' e 'in' k" := (bind e (fun x => k))
  (at level 10, x pattern, e at level 200, k at level 200).

(** The names of the [builtins] module, the last scope of a name lookup. *)
Definition builtins : list string :=
  [ "ArithmeticError"; "AssertionError"; "AttributeError"; "BaseException";
    "BaseExceptionGroup"; "BlockingIOError"; "BrokenPipeError"; "BufferError";
    "BytesWarning"; "ChildProcessError"; "ConnectionAbortedError";
    "ConnectionError"; "ConnectionRefusedError"; "ConnectionResetError";
    "DeprecationWarning"; "EOFError"; "Ellipsis"; "EncodingWarning";
    "EnvironmentError"; "Exception"; "ExceptionGroup"; "False";
    "FileExistsError"; "FileNotFoundError"; "FloatingPointError";
    "FutureWarning"; "GeneratorExit"; "IOError"; "ImportError"; "ImportWarning";
    "IndentationError"; "IndexError"; "InterruptedError"; "IsADirectoryError";
    "KeyError"; "KeyboardInterrupt"; "LookupError"; "MemoryError";
    "ModuleNotFoundError"; "NameError"; "None"; "NotADirectoryError";
    "NotImplemented"; "NotImplementedError"; "OSError"; "OverflowError";
    "PendingDeprecationWarning"; "PermissionError"; "ProcessLookupError";
    "RecursionError"; "ReferenceError"; "ResourceWarning"; "RuntimeError";
    "RuntimeWarning"; "StopAsyncIteration"; "StopIteration"; "SyntaxError";
    "SyntaxWarning"; "SystemError"; "SystemExit"; "TabError"; "TimeoutError";
    "True"; "TypeError"; "UnboundLocalError"; "UnicodeDecodeError";
    "UnicodeEncodeError"; "UnicodeError"; "UnicodeTranslateError";
    "UnicodeWarning"; "UserWarning"; "ValueError"; "Warning";
    "ZeroDivisionError"; "__build_class__"; "__debug__"; "__doc__"; "__import__";
    "__loader__"; "__name__"; "__package__"; "__spec__"; "abs"; "aiter"; "all";
    "anext"; "any"; "ascii"; "bin"; "bool"; "breakpoint"; "bytearray"; "bytes";
    "callable"; "chr"; "classmethod"; "compile"; "complex"; "copyright";
    "credits"; "delattr"; "dict"; "dir"; "divmod"; "enumerate"; "eval"; "exec";
    "exit"; "filter"; "float"; "format"; "frozenset"; "getattr"; "globals";
    "hasattr"; "hash"; "help"; "hex"; "id"; "input"; "int"; "isinstance";
    "issubclass"; "iter"; "len"; "license"; "list"; "locals"; "map"; "max";
    "memoryview"; "min"; "next"; "object"; "oct"; "open"; "ord"; "pow"; "print";
    "property"; "quit"; "range"; "repr"; "reversed"; "round"; "set"; "setattr";
    "slice"; "sorted"; "staticmethod"; "str"; "sum"; "super"; "tuple"; "type";
    "vars"; "zip" ].

(** A global name of a function body resolves in the module's namespace,
    then in [builtins]; otherwise evaluating it raises [NameError]. *)
Definition resolves (module_globals : gset string) (name : string) : bool :=
  bool_decide (name ∈ module_globals) || existsb (String.eqb name) builtins.

End Py.

(** ** Python numbers: [int], and [float] as IEEE 754 binary64

    The operations on floats are the ones of the Standard Library's
    specification of IEEE 754 arithmetic ([SpecFloat]) at 53 bits of
    precision: every result is the exact one rounded to the nearest float,
    ties to even. *)

Module PyFloat.
Import PyStr Py.
Local Open Scope Z_scope.

Definition prec : Z := 53.
Definition emax : Z := 1024.

(** An [int] or a [float]. *)
Inductive num : Type :=
| Int (n : Z)
| Float (f : spec_float).

(** The literal [0.5]. *)
Definition half : spec_float := S754_finite false 4503599627370496 (-53).

(** [float(n)]: the nearest float; an int beyond the range of the floats
    raises. *)
Definition of_int (n : Z) : spec_float := binary_normalize prec emax n 0 false.

Definition to_float (n : Z) : outcome spec_float :=
  match of_int n with
  | S754_infinity _ => Raised OverflowError
  | f => Returned f
  end.

Definition as_float (x : num) : outcome spec_float :=
  match x with
  | Int n => to_float n
  | Float f => Returned f
  end.

(** [x + y] and [x * y]: exact on two ints, else on the floats of both *)
Definition add (x y : num) : outcome num :=
  match x, y with
  | Int a, Int b => Returned (Int (a + b))
  | _, _ =>
      bind (as_float x) (fun a =>
      bind (as_float y) (fun b => Returned (Float (SFadd prec emax a b))))
  end.

Definition mul (x y : num) : outcome num :=
  match x, y with
  | Int a, Int b => Returned (Int (a * b))
  | _, _ =>
      bind (as_float x) (fun a =>
      bind (as_float y) (fun b => Returned (Float (SFmul prec emax a b))))
  end.

Definition is_zero (x : num) : bool :=
  match x with
  | Int n => n =? 0
  | Float (S754_zero _) => true
  | Float _ => false
  end.

(** An int as it is, as the operand of an exact quotient. *)
Definition exact (n : Z) : spec_float :=
  match n with
  | Z0 => S754_zero false
  | Zpos p => S754_finite false p 0
  | Zneg p => S754_finite true p 0
  end.

(** [x / y], always a float.  Two ints below [2 ** 53] are divided as
    floats; the quotient of larger ints is rounded once, and raises when it
    is beyond the range of the floats. *)
Definition truediv (x y : num) : outcome spec_float :=
  if is_zero y then Raised ZeroDivisionError
  else
    match x, y with
    | Int a, Int b =>
        if (Z.abs a <? 2 ^ 53) && (Z.abs b <? 2 ^ 53)
        then Returned (SFdiv prec emax (of_int a) (of_int b))
        else
          match SFdiv prec emax (exact a) (exact b) with
          | S754_infinity _ => Raised OverflowError
          | q => Returned q
          end
    | _, _ =>
        bind (as_float x) (fun a =>
        bind (as_float y) (fun b => Returned (SFdiv prec emax a b)))
    end.

(** [int(x)]: a float loses its fraction *)
Definition to_int (x : num) : outcome Z :=
  match x with
  | Int n => Returned n
  | Float (S754_zero _) => Returned 0
  | Float (S754_finite s m e) =>
      let a :=
        match e with
        | Zneg p => Z.shiftr (Zpos m) (Zpos p)
        | _ => Z.shiftl (Zpos m) e
        end in
      Returned (if s then - a else a)
  | Float (S754_infinity _) => Raised OverflowError
  | Float S754_nan => Raised (ValueError "cannot convert float NaN to integer")
  end.

(** [num / den] rounded to the nearest integer, ties to even, for a
    positive [den] *)
Definition round_half_even (num den : Z) : Z :=
  let q := num / den in
  match 2 * (num mod den) ?= den with
  | Lt => q
  | Gt => q + 1
  | Eq => if Z.even q then q else q + 1
  end.

(** [f"{x:.1f}"] for a float: the decimal with one digit after the point
    that is nearest to the exact value of [x], ties to even *)
Definition format_1f (f : spec_float) : string :=
  match f with
  | S754_nan => "nan"
  | S754_infinity s => if s then "-inf" else "inf"
  | S754_zero s => if s then "-0.0" else "0.0"
  | S754_finite s m e =>
      let tenths :=
        match e with
        | Zneg p => round_half_even (10 * Zpos m) (2 ^ Zpos p)
        | _ => 10 * Zpos m * 2 ^ e
        end in
      (if s then "-" else "") +:+ str_of_Z (tenths / 10) +:+ "."
      +:+ str_of_Z (tenths mod 10)
  end.

(** [f"{x:.1f}"] for an int or a float *)
Definition format_num_1f (x : num) : outcome string :=
  bind (as_float x) (fun f => Returned (format_1f f)).

(** The rational number a finite float stands for. *)
Definition value (f : spec_float) : Q :=
  match f with
  | S754_finite s m e =>
      let n := if s then Zneg m else Zpos m in
      match e with
      | Zneg p => Qmake n (2 ^ p)
      | _ => inject_Z (n * 2 ^ e)
      end
  | _ => 0%Q
  end.

End PyFloat.

(** ** [free_docker_port] *)

Module FreePort.
Import Py.
Local Open Scope Z_scope.

(** The names bound at the top level of [src/utils/sandbox.py]: its
    [import]s and its [def]s. *)
Definition utils_sandbox_globals : gset string :=
  list_to_set
    [ "annotations"; "re"; "sys"; "List"; "os"; "subprocess"; "time"; "yaml";
      "hashlib"; "convert_windows_path_to_linux"; "_hash_name";
      "free_docker_port"; "write_logging_conf"; "create_docker_compose_file";
      "start_docker_containers"; "stop_docker_containers" ].

(** The names bound at the top level of
    [baselines/webgen-agent/src_fullstack/sandbox.py], which has
    [import docker]. *)
Definition baseline_sandbox_globals : gset string :=
  list_to_set
    [ "annotations"; "os"; "subprocess"; "time"; "yaml"; "re"; "sys"; "List";
      "docker"; "APIError"; "DockerException"; "convert_windows_path_to_linux";
      "free_docker_port"; "write_logging_conf"; "create_docker_compose_file";
      "start_docker_containers"; "stop_docker_containers" ].

Record binding := Binding { HostIp : string; HostPort : string }.

(** A container as [client.containers.list(all=True)] reports it;
    [Ports] is [attrs["NetworkSettings"]["Ports"]], [None] when absent. *)
Record container := Container {
  cid : string;
  cname : string;
  status : string;
  Ports : option (list (string * option (list binding)))
}.

(** The calls made on the engine. *)
Inductive op : Type :=
| Stop (id : string) (timeout : Z)
| Remove (id : string).

Definition removed (id : string) (trace : list op) : bool :=
  existsb (fun o => match o with Remove id' => String.eqb id id' | _ => false end) trace.

(** [for bind in bindings: if int(bind["HostPort"]) == port: ... break] *)
Fixpoint publishes (port : Z) (bindings : list binding) : outcome bool :=
  match bindings with
  | [] => Returned false
  | b :: rest =>
      match PyStr.int_of_str (HostPort b) with
      | None => Raised (ValueError "invalid literal for int()")
      | Some p => if p =? port then Returned true else publishes port rest
      end
  end.

(** the body run for a matching binding: record the id, stop a running
    container, remove it when asked; a call on a container that was
    removed already fails *)
Definition release (c : container) (remove : bool) (stop_timeout : Z)
  (st : list string * list op) : outcome (list string * list op) :=
  let '(affected, trace) := st in
  let affected := affected ++ [cid c] in
  let running := String.eqb (status c) "running" in
  if removed (cid c) trace && (running || remove) then Raised DockerException
  else
    let trace := if running then trace ++ [Stop (cid c) stop_timeout] else trace in
    let trace := if remove then trace ++ [Remove (cid c)] else trace in
    Returned (affected, trace).

(** [for _container_port, bindings in ports.items(): ...] *)
Fixpoint scan_ports (c : container) (port : Z) (remove : bool) (stop_timeout : Z)
  (ports : list (string * option (list binding)))
  (st : list string * list op) : outcome (list string * list op) * list op :=
  match ports with
  | [] => (Returned st, snd st)
  | (_, None) :: rest => scan_ports c port remove stop_timeout rest st
  | (_, Some bindings) :: rest =>
      match publishes port bindings with
      | Raised e => (Raised e, snd st)
      | Returned false => scan_ports c port remove stop_timeout rest st
      | Returned true =>
          match release c remove stop_timeout st with
          | Raised e => (Raised e, snd st)
          | Returned st' => scan_ports c port remove stop_timeout rest st'
          end
      end
  end.

(** [for container in client.containers.list(all=True): ...] *)
Fixpoint scan_containers (port : Z) (remove : bool) (stop_timeout : Z)
  (cs : list container)
  (st : list string * list op) : outcome (list string * list op) * list op :=
  match cs with
  | [] => (Returned st, snd st)
  | c :: rest =>
      match scan_ports c port remove stop_timeout
              (match Ports c with Some p => p | None => [] end) st with
      | (Raised e, trace) => (Raised e, trace)
      | (Returned st', _) => scan_containers port remove stop_timeout rest st'
      end
  end.

(** [free_docker_port(port, *, remove=True, stop_timeout=5)], run in a
    module whose top-level names are [module_globals], against an engine
    holding [engine]: the outcome and the calls made on the engine. *)
Definition free_docker_port (module_globals : gset string) (engine : list container)
  (port : Z) (remove : bool) (stop_timeout : Z) : outcome (list string) * list op :=
  if negb ((1 <=? port) && (port <=? 65535)) then
    (Raised (ValueError "port must be an integer between 1 and 65535"), [])
  else if negb (resolves module_globals "docker") then
    (Raised (NameError "docker"), [])
  else
    match scan_containers port remove stop_timeout engine ([], []) with
    | (Raised e, trace) => (Raised e, trace)
    | (Returned (affected, _), trace) => (Returned affected, trace)
    end.

End FreePort.

(** ** [src/agents/core/agent.py]: the conversation history *)

Module History.
Import PyStr Py PyFloat.

(** One entry of [tool_calls]. *)
Record tool_call := ToolCall {
  call_id : string;
  call_name : string;
  call_arguments : string
}.

(** A chat message, a Python dict: [role] is [m.get("role")]; [tool_calls]
    is [None] when the key is absent (or null); [tool_call_id] is set on
    tool responses. *)
Record message := Message {
  role : option string;
  content : string;
  tool_calls : option (list tool_call);
  tool_call_id : option string
}.

Definition role_is (r : string) (m : message) : bool :=
  match role m with
  | Some r' => String.eqb r' r
  | None => false
  end.

(** [m.get("role") == "assistant" and "tool_calls" in m and m["tool_calls"]] *)
Definition opens_group (m : message) : bool :=
  role_is "assistant" m
  && match tool_calls m with
     | Some (_ :: _) => true
     | _ => false
     end.

(** [m.get("role") == "tool"] *)
Definition is_tool (m : message) : bool := role_is "tool" m.

(** The inner [while]: the tool responses that follow, and the rest. *)
Fixpoint collect_tools (l : list message) : list message * list message :=
  match l with
  | m :: l' =>
      if is_tool m
      then let '(ts, rest) := collect_tools l' in (m :: ts, rest)
      else ([], l)
  | [] => ([], [])
  end.

(** The outer [while i < len(self.history)], on the messages from index
    [i] on; every round consumes a message, so [fuel] may be their number. *)
Fixpoint group_loop (fuel : nat) (l : list message) : list (list message) :=
  match fuel, l with
  | S fuel', m :: l' =>
      if opens_group m
      then let '(ts, rest) := collect_tools l' in
           (m :: ts) :: group_loop fuel' rest
      else [m] :: group_loop fuel' l'
  | _, _ => []
  end.

(** [grouped_history], built from index 3 on *)
Definition group_history (history : list message) : list (list message) :=
  group_loop (length history) (skipn 3 history).

(** [l[k:]] and [l[:k]] for a Python list and any integer [k] *)
Definition slice_from {A} (l : list A) (k : Z) : list A :=
  if (0 <=? k)%Z then skipn (Z.to_nat k) l
  else skipn (length l - Z.to_nat (- k)) l.

Definition slice_to {A} (l : list A) (k : Z) : list A :=
  if (0 <=? k)%Z then firstn (Z.to_nat k) l
  else firstn (length l - Z.to_nat (- k)) l.

(** [int(n * compression_ratio)]: with a float ratio the product is the
    binary64 one, and [int] cuts its fraction off; a ratio that is not a
    number, or not finite, raises. *)
Definition int_of_scaled (n : nat) (ratio : num) : outcome Z :=
  bind (mul (Int (Z.of_nat n)) ratio) to_int.

Definition compressed_history_message (compressed_content : string) : message :=
  Message (Some "system")
          ("<COMPRESSED_HISTORY>" +:+ compressed_content +:+ "</COMPRESSED_HISTORY>")
          None None.

(** [_compress_history(force, compression_ratio)] as a function from
    [self.history] to its new value; when the call raises, [self.history]
    has not been assigned.  [llm_generation] answers the compression
    request for the messages to compress with the summary's content, or
    [None] when the request raises. *)
Definition _compress_history
  (llm_generation : list message -> option string)
  (max_history_length : nat) (force : bool) (compression_ratio : num)
  (history : list message) : outcome (list message) :=
  if (max_history_length <? length history)%nat || force then
    let grouped_history := group_history history in
    if (length grouped_history <=? max_history_length)%nat && negb force
    then Returned history
    else
      bind (int_of_scaled (length grouped_history) compression_ratio)
        (fun compression_threshold =>
      let '(compressed_groups, remaining_groups) :=
        if (0 <? compression_threshold)%Z
        then (slice_to grouped_history (- compression_threshold),
              slice_from grouped_history (- compression_threshold))
        else (grouped_history, []) in
      let compressed_history := concat compressed_groups in
      let remaining_history := concat remaining_groups in
      match compressed_history with
      | [] => Returned (firstn 3 history ++ remaining_history)
      | _ :: _ =>
          match llm_generation compressed_history with
          | Some compressed_content =>
              Returned (firstn 3 history
                        ++ [compressed_history_message compressed_content]
                        ++ remaining_history)
          | None =>
              Returned (firstn 3 history
                        ++ concat (slice_from grouped_history (- compression_threshold)))
          end
      end)
  else Returned history.

(** [self.history] after a call. *)
Definition history_after (history : list message) (call : outcome (list message))
  : list message :=
  match call with
  | Returned history' => history'
  | Raised _ => history
  end.

(** *** The adjacency the API asks for *)

(** [l] starts with one tool response per call, in the order of the calls *)
Fixpoint responds (calls : list tool_call) (l : list message) : bool :=
  match calls, l with
  | [], _ => true
  | c :: calls', m :: l' =>
      is_tool m
      && match tool_call_id m with
         | Some id => String.eqb id (call_id c)
         | None => false
         end
      && responds calls' l'
  | _ :: _, [] => false
  end.

Definition calls_of (m : message) : list tool_call :=
  match tool_calls m with
  | Some cs => cs
  | None => []
  end.

(** every assistant message carrying tool calls is followed at once by
    its tool responses *)
Fixpoint answered (l : list message) : bool :=
  match l with
  | [] => true
  | m :: l' => (if opens_group m then responds (calls_of m) l' else true) && answered l'
  end.

Definition starts_with_tool (l : list message) : bool :=
  match l with
  | m :: _ => is_tool m
  | [] => false
  end.

(** Reading a history from the left: is the last message read inside the
    group of an assistant message with tool calls? *)
Definition open_after (inside : bool) (m : message) : bool :=
  if opens_group m then true else if is_tool m then inside else false.

Definition ends_open (inside : bool) (l : list message) : bool :=
  fold_left open_after l inside.

End History.

(** ** Files as the tools see them *)

Module World.
Import PyStr.

Definition CR : ascii := ascii_of_nat 13.
Definition LF : ascii := ascii_of_nat 10.
Definition NUL : ascii := ascii_of_nat 0.

(** What [open(path, "r")] hands to the reader: with the default
    [newline=None] the sequences CR LF and CR are read as LF. *)
Fixpoint universal_newlines (raw : string) : string :=
  match raw with
  | EmptyString => EmptyString
  | String c rest =>
      if Ascii.eqb c CR then
        match rest with
        | String c' rest' =>
            if Ascii.eqb c' LF then String LF (universal_newlines rest')
            else String LF (universal_newlines rest)
        | EmptyString => String LF EmptyString
        end
      else String c (universal_newlines rest)
  end.

(** [f.readlines()] on translated text: every line keeps its LF; [cur]
    is the line being read *)
Fixpoint lines_from (cur : string) (text : string) : list string :=
  match text with
  | EmptyString => match cur with EmptyString => [] | _ => [cur] end
  | String c rest =>
      if Ascii.eqb c LF then (cur +:+ String LF EmptyString) :: lines_from EmptyString rest
      else lines_from (cur +:+ String c EmptyString) rest
  end.

Definition readlines (raw : string) : list string :=
  lines_from EmptyString (universal_newlines raw).

(** [bytes.decode("utf-8", errors)] for the error handlers that do not
    raise.  A text is kept in its UTF-8 encoding, so a well-formed sequence
    is copied; the bytes of an ill-formed one (a byte that starts no
    sequence; a sequence cut short by a byte that does not continue it, or
    by the end of the data) are replaced by [repl], which is empty for
    [errors="ignore"] and U+FFFD for [errors="replace"]. *)
Definition is_continuation (b : ascii) : bool :=
  let n := nat_of_ascii b in (128 <=? n)%nat && (n <? 192)%nat.

(** the second byte that may follow the first byte [n] of a sequence *)
Definition second_byte_ok (n : nat) (b : ascii) : bool :=
  let n2 := nat_of_ascii b in
  is_continuation b
  && negb ((n =? 224)%nat && (n2 <? 160)%nat)
  && negb ((n =? 237)%nat && (160 <=? n2)%nat)
  && negb ((n =? 240)%nat && (n2 <? 144)%nat)
  && negb ((n =? 244)%nat && (144 <=? n2)%nat).

Fixpoint decode_utf8 (repl : string) (raw : string) : string :=
  match raw with
  | EmptyString => EmptyString
  | String b1 rest1 =>
      let n := nat_of_ascii b1 in
      if (n <? 128)%nat then String b1 (decode_utf8 repl rest1)
      else if (n <? 194)%nat || (245 <=? n)%nat then repl +:+ decode_utf8 repl rest1
      else
        match rest1 with
        | EmptyString => repl
        | String b2 rest2 =>
            if negb (second_byte_ok n b2) then repl +:+ decode_utf8 repl rest1
            else if (n <? 224)%nat then String b1 (String b2 (decode_utf8 repl rest2))
            else
              match rest2 with
              | EmptyString => repl
              | String b3 rest3 =>
                  if negb (is_continuation b3) then repl +:+ decode_utf8 repl rest2
                  else if (n <? 240)%nat
                  then String b1 (String b2 (String b3 (decode_utf8 repl rest3)))
                  else
                    match rest3 with
                    | EmptyString => repl
                    | String b4 rest4 =>
                        if negb (is_continuation b4) then repl +:+ decode_utf8 repl rest3
                        else String b1 (String b2 (String b3 (String b4
                               (decode_utf8 repl rest4))))
                    end
              end
        end
  end.

Definition decode_ignore (raw : string) : string := decode_utf8 "" raw.

(** [errors="replace"]: U+FFFD for every ill-formed sequence *)
Definition decode_replace (raw : string) : string :=
  decode_utf8 (String (ascii_of_nat 239) (String (ascii_of_nat 191)
                 (String (ascii_of_nat 189) EmptyString))) raw.

(** The ways a file operation fails. *)
Inductive io_error : Type :=
| PermissionError
| OSError (errno : Z)
| OtherError.

(** The file system and the faults the operating system may answer with:
    [files] maps a path to the text stored there, [dirs] holds the
    directories, and the three oracles tell which operation on which path
    fails. *)
Record world := {
  files : gmap string string;
  dirs : gset string;
  read_fault : string -> option io_error;
  mkdir_fault : string -> option io_error;
  write_fault : string -> option io_error
}.

(** [os.path.exists], [os.path.isdir], [os.path.isfile] *)
Definition isdir (w : world) (p : string) : bool := bool_decide (p ∈ dirs w).

Definition isfile (w : world) (p : string) : bool :=
  match files w !! p with
  | Some _ => negb (isdir w p)
  | None => false
  end.

Definition exists_ (w : world) (p : string) : bool := isdir w p || isfile w p.

(** [open(p).read()]: the raw text, or the error raised *)
Definition read (w : world) (p : string) : io_error + string :=
  match read_fault w p with
  | Some e => inl e
  | None =>
      if isdir w p then inl (OSError 21)
      else match files w !! p with
           | Some raw => inr raw
           | None => inl (OSError 2)
           end
  end.

(** [open(p, "w", newline="\n").write(text)] *)
Definition write (w : world) (p : string) (text : string) : io_error + world :=
  match write_fault w p with
  | Some e => inl e
  | None =>
      if isdir w p then inl (OSError 21)
      else inr {| files := <[p := text]> (files w); dirs := dirs w;
                  read_fault := read_fault w; mkdir_fault := mkdir_fault w;
                  write_fault := write_fault w |}
  end.

(** [os.makedirs(d, exist_ok=True)]: fails on an existing file; of the
    directories created only [d] itself is recorded *)
Definition makedirs (w : world) (d : string) : io_error + world :=
  match mkdir_fault w d with
  | Some e => inl e
  | None =>
      if isfile w d then inl (OSError 17)
      else inr {| files := files w; dirs := {[ d ]} ∪ dirs w;
                  read_fault := read_fault w; mkdir_fault := mkdir_fault w;
                  write_fault := write_fault w |}
  end.

End World.

(** ** [src/agents/tools/base_tool.py] and the tool results *)

Module Tool.

(** The dict a tool returns: [llmContent], and the [type] of [error] when
    the key is present.  ([returnDisplay] and the error's [message] repeat
    [llmContent] in other words and are left out.) *)
Record result := Result {
  llmContent : string;
  error_type : option string
}.

(** [params.get(key, d)] *)
Definition get_or {A} (d : A) (o : option A) : A :=
  match o with
  | Some a => a
  | None => d
  end.

(** [BaseTool.validate_params]: the first required parameter that is
    missing *)
Fixpoint missing_required (required : list (string * bool)) : option string :=
  match required with
  | [] => None
  | (name, present) :: rest =>
      if present then missing_required rest
      else Some ("Missing required parameter: " +:+ name)
  end.

End Tool.

(** ** [src/agents/tools/edit_tool.py] *)

Module EditTool.
Import PyStr PosixPath World Tool.

(** The parameters of a call; [None] is an absent key.
    [expected_replacements] is an integer ([number] in the schema). *)
Record params := Params {
  path : option string;
  old_string : option string;
  new_string : option string;
  expected_replacements : option Z;
  modified_by_user : bool
}.

Definition apply_replacement (current_content old_string new_string : string) : string :=
  if String.eqb old_string "" then new_string
  else replace current_content old_string new_string.

Definition present {A} (o : option A) : bool :=
  match o with Some _ => true | None => false end.

(** [EditTool.validate_params] for a tool rooted at [working_dir] *)
Definition validate_params (cwd working_dir : string) (p : params) : option string :=
  match missing_required [ ("path", present (path p));
                           ("old_string", present (old_string p));
                           ("new_string", present (new_string p)) ] with
  | Some error => Some error
  | None =>
      let file_path := get_or "" (path p) in
      if negb (isabs file_path)
      then Some ("File path must be absolute: " +:+ file_path)
      else if startswith ".." (relpath cwd file_path working_dir)
      then Some ("File path must be within the working directory ("
                 +:+ working_dir +:+ "): " +:+ file_path)
      else None
  end.

Definition fail (w : world) (content type : string) : result * world :=
  (Result content (Some type), w).

(** [EditTool.execute]: the result and the file system afterwards *)
Definition execute (cwd working_dir : string) (w : world) (p : params)
  : result * world :=
  match validate_params cwd working_dir p with
  | Some error =>
      fail w ("Error: Invalid parameters provided. Reason: " +:+ error)
             "invalid_tool_params"
  | None =>
  let file_path := get_or "" (path p) in
  let old_string := get_or "" (old_string p) in
  let new_string := get_or "" (new_string p) in
  let expected_replacements := get_or 1%Z (expected_replacements p) in
  let file_exists := exists_ w file_path in
  (* the part after the current content is known *)
  let continue (current_content : string) : result * world :=
    let is_new_file := String.eqb old_string "" && negb file_exists in
    (* creating the directories and writing *)
    let finish (new_content : string) (occurrences : Z) : result * world :=
      match makedirs w (dirname file_path) with
      | inl PermissionError =>
          fail w ("Error: Permission denied creating directory for file: " +:+ file_path)
                 "permission_denied"
      | inl _ => fail w "Error executing edit" "edit_preparation_failure"
      | inr w1 =>
          match write w1 file_path new_content with
          | inl PermissionError =>
              fail w1 ("Error: Permission denied writing to file: "
                       +:+ file_path +:+ " (EACCES)") "permission_denied"
          | inl (OSError 28) =>
              fail w1 ("Error: No space left on device: " +:+ file_path +:+ " (ENOSPC)")
                      "no_space_left"
          | inl (OSError 21) =>
              fail w1 ("Error: Target is a directory, not a file: "
                       +:+ file_path +:+ " (EISDIR)") "target_is_directory"
          | inl (OSError _) =>
              fail w1 ("Error: Failed to write file '" +:+ file_path +:+ "'")
                      "file_write_failure"
          | inl OtherError => fail w1 "Error executing edit" "edit_preparation_failure"
          | inr w2 =>
              let parts :=
                (if is_new_file
                 then "Created new file: " +:+ file_path +:+ " with provided content."
                 else "Successfully modified file: " +:+ file_path +:+ " ("
                      +:+ str_of_Z occurrences +:+ " replacements).")
                +:+ (if modified_by_user p
                     then " User modified the `new_string` content to be: "
                          +:+ new_string +:+ "."
                     else "") in
              (Result parts None, w2)
          end
      end in
    if is_new_file then finish new_string 1%Z
    else if String.eqb old_string "" && file_exists then
      fail w "Failed to edit. Attempted to create a file that already exists."
             "attempt_to_create_existing_file"
    else
      let occurrences := Z.of_nat (count current_content old_string) in
      if (occurrences =? 0)%Z then
        fail w "Failed to edit, could not find the string to replace."
               "edit_no_occurrence_found"
      else if negb (occurrences =? expected_replacements)%Z then
        fail w ("Failed to edit, expected " +:+ str_of_Z expected_replacements
                +:+ (if (expected_replacements =? 1)%Z then " occurrence" else " occurrences")
                +:+ " but found " +:+ str_of_Z occurrences +:+ ".")
               "edit_expected_occurrence_mismatch"
      else if String.eqb old_string new_string then
        fail w "No changes to apply. The old_string and new_string are identical."
               "edit_no_change"
      else finish (apply_replacement current_content old_string new_string) occurrences in
  if file_exists then
    match read w file_path with
    | inl PermissionError =>
        fail w ("Error: Permission denied reading file: " +:+ file_path)
               "permission_denied"
    | inl _ =>
        fail w ("Error: Failed to read existing file: " +:+ file_path)
               "read_content_failure"
    | inr raw =>
        continue (replace (universal_newlines raw)
                          (String CR (String LF "")) (String LF ""))
    end
  else if negb (String.eqb old_string "") then
    fail w "Could not read file because no file was found at the specified path."
           "file_not_found"
  else continue ""
  end.

(** The text of a file as [execute] reads it: line ends normalised to LF. *)
Definition normalized (raw : string) : string :=
  replace (universal_newlines raw) (String CR (String LF "")) (String LF "").

End EditTool.

(** ** [json.loads] *)

Module Json.
Import PyStr.

Inductive json : Type :=
| JNull
| JBool (b : bool)
| JNum (literal : string)
| JStr (s : string)
| JArr (items : list json)
| JObj (members : list (string * json)).

Definition quote : ascii := ascii_of_nat 34.
Definition backslash : ascii := ascii_of_nat 92.

(** the whitespace of the grammar: space, tab, LF, CR *)
Definition is_ws (c : ascii) : bool :=
  let n := nat_of_ascii c in
  (n =? 32)%nat || (n =? 9)%nat || (n =? 10)%nat || (n =? 13)%nat.

Fixpoint skip_ws (s : string) : string :=
  match s with
  | String c s' => if is_ws c then skip_ws s' else s
  | EmptyString => s
  end.

Definition hex_value (c : ascii) : option nat :=
  let n := nat_of_ascii c in
  if is_digit c then Some (n - 48)
  else if (97 <=? n)%nat && (n <=? 102)%nat then Some (n - 87)
  else if (65 <=? n)%nat && (n <=? 70)%nat then Some (n - 55)
  else None.

(** the UTF-8 bytes of a code point below [2^16] *)
Definition utf8 (cp : nat) : string :=
  if (cp <? 128)%nat then String (ascii_of_nat cp) EmptyString
  else if (cp <? 2048)%nat then
    String (ascii_of_nat (192 + cp / 64))
      (String (ascii_of_nat (128 + cp mod 64)) EmptyString)
  else
    String (ascii_of_nat (224 + cp / 4096))
      (String (ascii_of_nat (128 + (cp / 64) mod 64))
         (String (ascii_of_nat (128 + cp mod 64)) EmptyString)).

(** The body of a string, after the opening quote: the text and what
    follows the closing quote.  Control characters are refused, as
    [strict=True] has it. *)
Fixpoint scan_string (acc : string) (s : string) : option (string * string) :=
  match s with
  | EmptyString => None
  | String c s' =>
      if Ascii.eqb c quote then Some (acc, s')
      else if (nat_of_ascii c <? 32)%nat then None
      else if Ascii.eqb c backslash then
        match s' with
        | String e s'' =>
            let simple (x : nat) := scan_string (acc +:+ String (ascii_of_nat x) "") s'' in
            match nat_of_ascii e with
            | 34 => simple 34 | 92 => simple 92 | 47 => simple 47
            | 98 => simple 8 | 102 => simple 12 | 110 => simple 10
            | 114 => simple 13 | 116 => simple 9
            | 117 =>
                match s'' with
                | String h1 (String h2 (String h3 (String h4 s3))) =>
                    match hex_value h1, hex_value h2, hex_value h3, hex_value h4 with
                    | Some a, Some b, Some c', Some d =>
                        scan_string (acc +:+ utf8 (((a * 16 + b) * 16 + c') * 16 + d)) s3
                    | _, _, _, _ => None
                    end
                | _ => None
                end
            | _ => None
            end
        | EmptyString => None
        end
      else scan_string (acc +:+ String c "") s'
  end.

Fixpoint take_digits (s : string) : string * string :=
  match s with
  | String c s' =>
      if is_digit c then let '(d, r) := take_digits s' in (String c d, r) else ("", s)
  | EmptyString => ("", s)
  end.

(** The number at the head of [s]: an optional minus, [0] or a digit from
    1 to 9 with digits after it, then a fraction (a dot and digits) and an
    exponent ([e] or [E], an optional sign, digits) when they are complete. *)
Definition scan_number (s : string) : option (string * string) :=
  let '(sign, s1) :=
    match s with
    | String c s' => if Ascii.eqb c (ascii_of_nat 45) then ("-", s') else ("", s)
    | EmptyString => ("", s)
    end in
  match s1 with
  | String c s2 =>
      if is_digit c then
        let '(int_part, s3) :=
          if Ascii.eqb c (ascii_of_nat 48) then (String c "", s2)
          else let '(d, r) := take_digits s2 in (String c d, r) in
        let '(frac, s4) :=
          match s3 with
          | String dot s3' =>
              if Ascii.eqb dot (ascii_of_nat 46) then
                match take_digits s3' with
                | (EmptyString, _) => ("", s3)
                | (d, r) => (String dot d, r)
                end
              else ("", s3)
          | EmptyString => ("", s3)
          end in
        let '(exp, s5) :=
          match s4 with
          | String e s4' =>
              if Ascii.eqb e (ascii_of_nat 101) || Ascii.eqb e (ascii_of_nat 69) then
                let '(esign, s4'') :=
                  match s4' with
                  | String g r =>
                      if Ascii.eqb g (ascii_of_nat 43) || Ascii.eqb g (ascii_of_nat 45)
                      then (String g "", r) else ("", s4')
                  | EmptyString => ("", s4')
                  end in
                match take_digits s4'' with
                | (EmptyString, _) => ("", s4)
                | (d, r) => (String e (esign +:+ d), r)
                end
              else ("", s4)
          | EmptyString => ("", s4)
          end in
        Some (sign +:+ int_part +:+ frac +:+ exp, s5)
      else None
  | EmptyString => None
  end.

(** a keyword at the head of [s] *)
Definition keyword (k : string) (v : json) (s : string) : option (json * string) :=
  if startswith k s then Some (v, drop (String.length k) s) else None.

(** [scan_once]: one value at the head of [s] and the text after it.
    Every value read consumes a character, so [fuel] may be the length
    of the text plus one. *)
Fixpoint scan_value (fuel : nat) (s : string) : option (json * string) :=
  match fuel with
  | O => None
  | S fuel' =>
      match s with
      | EmptyString => None
      | String c s' =>
          match nat_of_ascii c with
          | 34 =>
              match scan_string "" s' with
              | Some (text, rest) => Some (JStr text, rest)
              | None => None
              end
          | 123 =>
              match skip_ws s' with
              | String c1 s1 =>
                  if Ascii.eqb c1 (ascii_of_nat 125) then Some (JObj [], s1)
                  else
                    match scan_members fuel' (skip_ws s') with
                    | Some (members, rest) => Some (JObj members, rest)
                    | None => None
                    end
              | EmptyString => None
              end
          | 91 =>
              match skip_ws s' with
              | String c1 s1 =>
                  if Ascii.eqb c1 (ascii_of_nat 93) then Some (JArr [], s1)
                  else
                    match scan_items fuel' (skip_ws s') with
                    | Some (items, rest) => Some (JArr items, rest)
                    | None => None
                    end
              | EmptyString => None
              end
          | _ =>
              match keyword "null" JNull s, keyword "true" (JBool true) s,
                    keyword "false" (JBool false) s with
              | Some r, _, _ | _, Some r, _ | _, _, Some r => Some r
              | None, None, None =>
                  match scan_number s with
                  | Some (literal, rest) => Some (JNum literal, rest)
                  | None =>
                      match keyword "NaN" (JNum "NaN") s,
                            keyword "Infinity" (JNum "Infinity") s,
                            keyword "-Infinity" (JNum "-Infinity") s with
                      | Some r, _, _ | _, Some r, _ | _, _, Some r => Some r
                      | None, None, None => None
                      end
                  end
              end
          end
      end
  end

(** the items of an array, up to the closing bracket *)
with scan_items (fuel : nat) (s : string) : option (list json * string) :=
  match fuel with
  | O => None
  | S fuel' =>
      match scan_value fuel' s with
      | Some (v, rest) =>
          match skip_ws rest with
          | String c rest' =>
              if Ascii.eqb c (ascii_of_nat 93) then Some ([v], rest')
              else if Ascii.eqb c (ascii_of_nat 44) then
                match scan_items fuel' (skip_ws rest') with
                | Some (vs, rest'') => Some (v :: vs, rest'')
                | None => None
                end
              else None
          | EmptyString => None
          end
      | None => None
      end
  end

(** the members of an object, up to the closing brace *)
with scan_members (fuel : nat) (s : string) : option (list (string * json) * string) :=
  match fuel with
  | O => None
  | S fuel' =>
      match s with
      | String q s' =>
          if Ascii.eqb q quote then
            match scan_string "" s' with
            | Some (key, rest) =>
                match skip_ws rest with
                | String colon rest1 =>
                    if Ascii.eqb colon (ascii_of_nat 58) then
                      match scan_value fuel' (skip_ws rest1) with
                      | Some (v, rest2) =>
                          match skip_ws rest2 with
                          | String c rest3 =>
                              if Ascii.eqb c (ascii_of_nat 125) then Some ([(key, v)], rest3)
                              else if Ascii.eqb c (ascii_of_nat 44) then
                                match scan_members fuel' (skip_ws rest3) with
                                | Some (ms, rest4) => Some ((key, v) :: ms, rest4)
                                | None => None
                                end
                              else None
                          | EmptyString => None
                          end
                      | None => None
                      end
                    else None
                | EmptyString => None
                end
            | None => None
            end
          else None
      | EmptyString => None
      end
  end.

(** [json.loads(s)]; [None] stands for [JSONDecodeError] *)
Definition loads (s : string) : option json :=
  match scan_value (S (String.length s)) (skip_ws s) with
  | Some (v, rest) =>
      match skip_ws rest with
      | EmptyString => Some v
      | String _ _ => None
      end
  | None => None
  end.

End Json.

(** ** [src/agents/tools/backend_test_tool.py]: [_prepare_payload] *)

Module BackendTest.
Import PyStr Json.

(** The keyword arguments handed to [requests.request]: [{}],
    [{"json": obj}] or [{"data": raw}]. *)
Inductive payload : Type :=
| NoBody
| JsonBody (obj : json)
| DataBody (raw : json).

(** ["content-type" in {k.lower() for k in headers.keys()}] *)
Definition has_content_type (headers : gmap string string) : bool :=
  bool_decide (Exists (fun k => lower k = "content-type") (map_to_list headers).*1).

(** [_prepare_payload(raw, headers)].  [raw] is the [data] argument of the
    call, a value decoded from the tool call's JSON: [JNull] is [None],
    [JObj] a dict, [JArr] a list, [JStr] a str. *)
Definition _prepare_payload (raw : json) (headers : gmap string string)
  : payload * gmap string string :=
  let as_data :=
    (DataBody raw,
     if negb (has_content_type headers)
     then <["Content-Type" := "application/json"]> headers
     else headers) in
  match raw with
  | JNull => (NoBody, headers)
  | JObj _ | JArr _ => (JsonBody raw, headers)
  | JStr text =>
      match loads text with
      | Some obj => (JsonBody obj, headers)
      | None => as_data
      end
  | _ => as_data
  end.

End BackendTest.

(** ** [src/eval_tddev/compute_acc.py] *)

Module ComputeAcc.
Import PyStr Py PyFloat PosixPath World.
Local Open Scope Z_scope.

Definition PRIMARY_CATEGORIES : list string :=
  [ "Content Presentation"; "User Interaction"; "Data Management" ].

Definition INST_PRIMARY_CATEGORIES : list string :=
  [ "Functional Testing"; "Data Display Testing"; "Design Validation Testing" ].

(** One record of the test file: [data["Category"]["primary_category"]]
    and, for every entry of [data["ui_instruct"]], its
    [task_category.primary_category]. *)
Record test_data := TestData {
  primary_category : string;
  ui_instruct : list string
}.

(** One directory of [results/]: its name; what the lookups of the name in
    the test file evaluate to ([cat] and [task_cat], or the exception that
    [int], the indexing or a missing key raises); [interact_messages.json]
    when it exists, a list of (role, content); and the [judgement] of
    [db_interaction_result.json] when that file exists. *)
Record task := Task {
  task_name : string;
  task_categories : outcome (string * string);
  interact_messages : option (list (string * string));
  db_judgement : option string
}.

(** [for message in data[-1::-1]: if message["role"] == "assistant": ...] *)
Definition last_assistant_text (data : list (string * string)) : string :=
  match List.find (fun m => String.eqb (fst m) "assistant") (rev data) with
  | Some m => snd m
  | None => ""
  end.

Inductive verdict : Type := YES | PARTIAL | NO.

(** [if "YES" in text: ... elif "PARTIAL" in text: ... else: ...] *)
Definition verdict_of (text : string) : verdict :=
  if contains "YES" text then YES
  else if contains "PARTIAL" text then PARTIAL
  else NO.

(** The counters of one category; [start_failed_num] and [accuracy] are
    set after the loop. *)
Record category := Category {
  c_yes_num : Z;
  c_partial_num : Z;
  c_no_num : Z;
  c_score : num;
  c_total : Z
}.

Definition category0 : category := Category 0 0 0 (Int 0) 0.

Definition all_categories : list string :=
  PRIMARY_CATEGORIES ++ INST_PRIMARY_CATEGORIES.

(** [categories] and [db_categories] as the first two loops build them *)
Definition categories0 : gmap string category :=
  list_to_map (List.map (fun cat => (cat, category0)) all_categories).

(** An update of [d[cat]]; a key that is not there raises. *)
Definition at_key (cat : string) (f : category -> outcome category)
  (d : gmap string category) : outcome (gmap string category) :=
  match d !! cat with
  | Some c => let* c' := f c in Returned (<[cat := c']> d)
  | None => Raised (KeyError cat)
  end.

Fixpoint foldM {S A} (f : S -> A -> outcome S) (l : list A) (s : S) : outcome S :=
  match l with
  | [] => Returned s
  | a :: l' => let* s' := f s a in foldM f l' s'
  end.

Definition add_total (n : Z) (c : category) : outcome category :=
  Returned (Category (c_yes_num c) (c_partial_num c) (c_no_num c) (c_score c)
                     (c_total c + n)).

(** [d[cat]["yes_num"] += n; d[cat]["score"] += n] *)
Definition add_yes (n : Z) (c : category) : outcome category :=
  let* s := add (c_score c) (Int n) in
  Returned (Category (c_yes_num c + n) (c_partial_num c) (c_no_num c) s (c_total c)).

(** [d[cat]["partial_num"] += n; d[cat]["score"] += n * 0.5]; for the plain
    categories the source writes [1] and [0.5] *)
Definition add_partial (n : Z) (points : outcome num) (c : category)
  : outcome category :=
  let* p := points in
  let* s := add (c_score c) p in
  Returned (Category (c_yes_num c) (c_partial_num c + n) (c_no_num c) s (c_total c)).

Definition add_no (c : category) : outcome category :=
  Returned (Category (c_yes_num c) (c_partial_num c) (c_no_num c + 1) (c_score c)
                     (c_total c)).

(** The state of the function: [total], the counters of the loop over the
    result directories, the two dicts of categories, and what has been
    printed. *)
Record state := State {
  total : Z;
  score : num;
  yes_num : Z;
  partial_num : Z;
  no_num : Z;
  db_score : num;
  db_yes_num : Z;
  db_partial_num : Z;
  categories : gmap string category;
  db_categories : gmap string category;
  printed : list string
}.

Definition state0 : state :=
  State 0 (Int 0) 0 0 0 (Int 0) 0 0 categories0 categories0 [].

(** One round of [for data in test_datas] *)
Definition count_data (st : state) (data : test_data) : outcome state :=
  let n := Z.of_nat (length (ui_instruct data)) in
  let cat := primary_category data in
  let* cats := at_key cat (add_total n) (categories st) in
  let* db := at_key cat (add_total n) (db_categories st) in
  let* (cats, db) := foldM (fun '(cats, db) task_cat =>
                          let* cats := at_key task_cat (add_total 1) cats in
                          let* db := at_key task_cat (add_total 1) db in
                          Returned (cats, db))
                       (ui_instruct data) (cats, db) in
  Returned (State (total st + n) (score st) (yes_num st) (partial_num st) (no_num st)
                  (db_score st) (db_yes_num st) (db_partial_num st) cats db
                  (printed st)).

(** One round of [for task in tqdm(tasks)] *)
Definition count_task (st : state) (x : task) : outcome state :=
  match interact_messages x with
  | None =>
      Returned (State (total st) (score st) (yes_num st) (partial_num st) (no_num st)
                      (db_score st) (db_yes_num st) (db_partial_num st)
                      (categories st) (db_categories st)
                      (printed st ++ [ "interact_messages.json not found in "
                                       +:+ task_name x +:+ ", skipping..." ]))
  | Some data =>
      let* (cat, task_cat) := task_categories x in
      let text := last_assistant_text data in
      let db_weight : Z :=
        match db_judgement x with
        | Some j => if String.eqb j "YES" then 1 else 0
        | None => 0
        end in
      match verdict_of text with
      | YES =>
          let* s := add (score st) (Int 1) in
          let* dbs := add (db_score st) (Int db_weight) in
          let* cats := at_key cat (add_yes 1) (categories st) in
          let* cats := at_key task_cat (add_yes 1) cats in
          let* db := at_key cat (add_yes db_weight) (db_categories st) in
          let* db := at_key task_cat (add_yes db_weight) db in
          Returned (State (total st) s (yes_num st + 1) (partial_num st) (no_num st)
                          dbs (db_yes_num st + db_weight) (db_partial_num st)
                          cats db (printed st))
      | PARTIAL =>
          let* s := add (score st) (Float half) in
          let* p := mul (Int db_weight) (Float half) in
          let* dbs := add (db_score st) p in
          let* cats := at_key cat (add_partial 1 (Returned (Float half))) (categories st) in
          let* cats := at_key task_cat (add_partial 1 (Returned (Float half))) cats in
          let* db := at_key cat (add_partial db_weight (mul (Int db_weight) (Float half)))
                  (db_categories st) in
          let* db := at_key task_cat (add_partial db_weight (mul (Int db_weight) (Float half)))
                  db in
          Returned (State (total st) s (yes_num st) (partial_num st + 1) (no_num st)
                          dbs (db_yes_num st) (db_partial_num st + db_weight)
                          cats db (printed st))
      | NO =>
          let* cats := at_key cat add_no (categories st) in
          let* cats := at_key task_cat add_no cats in
          Returned (State (total st) (score st) (yes_num st) (partial_num st)
                          (no_num st + 1) (db_score st) (db_yes_num st)
                          (db_partial_num st) cats (db_categories st) (printed st))
      end
  end.

(** [x / total * 100] *)
Definition rate (x : num) (total : Z) : outcome num :=
  let* q := truediv x (Int total) in mul (Float q) (Int 100).

(** [d[cat]["score"] / d[cat]["total"] * 100 if d[cat]["total"] > 0 else 0],
    as the table shows it *)
Definition accuracy_cell (d : gmap string category) (cat : string) : outcome string :=
  match d !! cat with
  | Some c =>
      let* a := (if 0 <? c_total c then rate (c_score c) (c_total c) else Returned (Int 0)) in
      format_num_1f a
  | None => Raised (KeyError cat)
  end.

Fixpoint mapM {A B} (f : A -> outcome B) (l : list A) : outcome (list B) :=
  match l with
  | [] => Returned []
  | a :: l' => let* b := f a in let* bs := mapM f l' in Returned (b :: bs)
  end.

(** [sep.join(l)] *)
Fixpoint join_with (sep : string) (l : list string) : string :=
  match l with
  | [] => ""
  | [x] => x
  | x :: rest => x +:+ sep +:+ join_with sep rest
  end.

Definition table_header : string :=
  "| test_name | yes_num | partial_num | no_num | start_failed_num | total | yes_rate | partial_rate | no_rate | start_failed_rate | accuracy |"
  +:+ join_with " | " all_categories +:+ " |" +:+ String LF "".

Definition table_rule : string :=
  "|------|------|------|------|------|------|------|------|------|------|------|"
  +:+ fold_right String.append "" (List.map (fun _ => "------|") all_categories)
  +:+ String LF "".

(** The first bar of a row, then [" | ".join(...)], then the last bar. *)
Definition table_row (name : string) (yes partial no start_failed total : Z)
  (yes_rate partial_rate no_rate start_failed_rate accuracy : string)
  (cells : list string) : string :=
  "| " +:+ name +:+ " | " +:+ str_of_Z yes +:+ " | " +:+ str_of_Z partial
  +:+ " | " +:+ str_of_Z no +:+ "  | " +:+ str_of_Z start_failed
  +:+ " | " +:+ str_of_Z total +:+ " | " +:+ yes_rate +:+ " | " +:+ partial_rate
  +:+ " | " +:+ no_rate +:+ " | " +:+ start_failed_rate +:+ " | " +:+ accuracy
  +:+ " |" +:+ join_with " | " cells +:+ " |" +:+ String LF "".

(** [f"{x / total * 100:.1f}"] *)
Definition percent (x : num) (total : Z) : outcome string :=
  let* r := rate x total in format_num_1f r.

(** What a call that returns has done: the lines printed, and the text
    written to [table.md]. *)
Record effects := Effects {
  stdout : list string;
  table_md : string
}.

(** [compute_acc(in_dir)], which returns [None]: [test_datas] is the test
    file and [tasks] are the directories of [results/]. *)
Definition compute_acc (in_dir : string) (test_datas : list test_data)
  (tasks : list task) : outcome effects :=
  let* st := foldM count_data test_datas state0 in
  let* st := foldM count_task tasks st in
  let* cells := mapM (fun cat =>
                        let* a := accuracy_cell (categories st) cat in
                        let* b := accuracy_cell (db_categories st) cat in
                        Returned (a, b)) all_categories in
  let start_failed_num := total st - yes_num st - partial_num st - no_num st in
  let test_name := basename in_dir in
  let* yes_rate := percent (Int (yes_num st)) (total st) in
  let* partial_rate := percent (Int (partial_num st)) (total st) in
  let* no_rate := percent (Int (no_num st)) (total st) in
  let* start_failed_rate := percent (Int start_failed_num) (total st) in
  let* accuracy := percent (score st) (total st) in
  let db_start_failed_num := start_failed_num in
  let* db_yes_rate := percent (Int (db_yes_num st)) (total st) in
  let* db_partial_rate := percent (Int (db_partial_num st)) (total st) in
  let db_no_num := total st - db_yes_num st - db_partial_num st - db_start_failed_num in
  let* db_no_rate := percent (Int db_no_num) (total st) in
  let* db_start_failed_rate := percent (Int db_start_failed_num) (total st) in
  let* db_accuracy := percent (db_score st) (total st) in
  let table :=
    table_header +:+ table_rule
    +:+ table_row test_name (yes_num st) (partial_num st) (no_num st)
          start_failed_num (total st) yes_rate partial_rate no_rate
          start_failed_rate accuracy (List.map fst cells)
    +:+ table_row (test_name +:+ " (db)") (db_yes_num st) (db_partial_num st)
          db_no_num db_start_failed_num (total st) db_yes_rate db_partial_rate
          db_no_rate db_start_failed_rate db_accuracy (List.map snd cells) in
  Returned
    (Effects (printed st
              ++ [ "start_failed: " +:+ str_of_Z start_failed_num;
                   "Saving detailed results to " +:+ join in_dir "table.md" +:+ "...";
                   table ])
             table).

(** The verdicts of the directories that hold [interact_messages.json]. *)
Definition verdicts (tasks : list task) : list verdict :=
  flat_map (fun x => match interact_messages x with
                     | Some data => [verdict_of (last_assistant_text data)]
                     | None => []
                     end) tasks.

Definition is_yes (v : verdict) : bool := match v with YES => true | _ => false end.
Definition is_partial (v : verdict) : bool := match v with PARTIAL => true | _ => false end.
Definition is_no (v : verdict) : bool := match v with NO => true | _ => false end.

Definition number (p : verdict -> bool) (tasks : list task) : Z :=
  Z.of_nat (length (List.filter p (verdicts tasks))).

(** The notices printed for the directories without
    [interact_messages.json]. *)
Definition skipped (tasks : list task) : list string :=
  flat_map (fun x => match interact_messages x with
                     | Some _ => []
                     | None => [ "interact_messages.json not found in "
                                 +:+ task_name x +:+ ", skipping..." ]
                     end) tasks.

(** The categories are among the six of the module. *)
Definition known (cat : string) : bool := existsb (String.eqb cat) all_categories.

Definition known_data (data : test_data) : bool :=
  known (primary_category data) && forallb known (ui_instruct data).

Definition known_task (x : task) : bool :=
  match interact_messages x, task_categories x with
  | None, _ => true
  | Some _, Returned (cat, task_cat) => known cat && known task_cat
  | Some _, Raised _ => false
  end.

End ComputeAcc.

(** ** [src/agents/tools/file_tools.py]: [ReadFileTool] *)

Module ReadFileTool.
Import PyStr PosixPath World Tool.

Record params := Params {
  path : option string;
  offset : option Z;
  limit : option Z
}.

Definition DEFAULT_MAX_LINES : nat := 2000.

(** [ReadFileTool.validate_params] *)
Definition validate_params (cwd working_dir : string) (w : world) (p : params)
  : option string :=
  match missing_required [ ("path", match path p with Some _ => true | None => false end) ] with
  | Some error => Some error
  | None =>
      let file_path := get_or "" (path p) in
      if negb (isabs file_path) then
        Some ("File path must be absolute, but was relative: " +:+ file_path
              +:+ ". You must provide an absolute path.")
      else if startswith ".." (relpath cwd file_path working_dir) then
        Some ("File path must be within the working directory ("
              +:+ working_dir +:+ "): " +:+ file_path)
      else if negb (exists_ w file_path) then
        Some "Could not read file because no file was found at the specified path."
      else if isdir w file_path then
        Some "Could not read file because the provided path is a directory, not a file."
      else if match offset p with Some o => (o <? 0)%Z | None => false end then
        Some "Offset must be a non-negative number"
      else if match limit p with Some l => (l <=? 0)%Z | None => false end then
        Some "Limit must be a positive number"
      else
        match files w !! file_path with
        | Some raw =>
            if (10 * 1024 * 1024 <? Z.of_nat (String.length raw))%Z then
              Some ("Could not read file. File size exceeds 10MB limit: "
                    +:+ str_of_nat (String.length raw) +:+ " bytes")
            else None
        | None => None
        end
  end.

(** The pagination of [_read_text_file_with_pagination] on the lines read,
    for a non-negative [offset]; a [limit] of [None] is the default:
    (content, is_truncated, start_line, end_line, total_lines). *)
Definition paginate (lines : list string) (offset : nat) (limit : option nat)
  : string * bool * Z * Z * Z :=
  let limit := match limit with Some l => l | None => DEFAULT_MAX_LINES end in
  let total_lines := Z.of_nat (length lines) in
  let paginated_lines :=
    if (limit =? 0)%nat then skipn offset lines
    else firstn limit (skipn offset lines) in
  let content := fold_right String.append "" paginated_lines in
  let start_line := (Z.of_nat offset + 1)%Z in
  let end_line := Z.min (Z.of_nat offset + Z.of_nat (length paginated_lines)) total_lines in
  let is_truncated :=
    (length paginated_lines <? length (skipn offset lines))%nat
    || (negb (limit =? 0)%nat && (limit <? length lines)%nat) in
  (content, is_truncated, start_line, end_line, total_lines).

(** The text a file is read as: [open(file_path, "r", encoding="utf-8",
    errors="ignore")] drops the bytes that are not UTF-8. *)
Definition _read_text_file_with_pagination
  (w : world) (file_path : string) (offset : nat) (limit : option nat)
  : io_error + (string * bool * Z * Z * Z) :=
  match read w file_path with
  | inl e => inl e
  | inr raw => inr (paginate (readlines (decode_ignore raw)) offset limit)
  end.

Fixpoint count_char (c : ascii) (s : string) : nat :=
  match s with
  | EmptyString => 0
  | String c' s' => (if Ascii.eqb c c' then 1 else 0) + count_char c s'
  end.

(** [b'\x00' in sample or sample.count(b'\n') < sample.count(b'\x00') * 0.3]
    on the first 1024 bytes *)
Definition is_binary (raw : string) : bool :=
  let sample := take 1024 raw in
  (0 <? count_char NUL sample)%nat
  || (10 * count_char LF sample <? 3 * count_char NUL sample)%nat.

(** The dict [execute] returns: a text with [llmContent] and
    [returnDisplay]; a binary file, whose [llmContent] is the data URL of
    the bytes and is not modelled further; or an error with [llmContent],
    [returnDisplay], and the [message] and [type] of [error]. *)
Inductive output : Type :=
| TextOutput (llmContent returnDisplay : string)
| BinaryOutput (returnDisplay : string)
| ErrorOutput (llmContent returnDisplay message type : string).

Section Execute.

(** [str(e)] for the exception of a failed read *)
Variable strerror : io_error -> string.

(** [ReadFileTool.execute] *)
Definition execute (cwd working_dir : string) (w : world) (p : params) : output :=
  match validate_params cwd working_dir w p with
  | Some error =>
      let e := lower error in
      ErrorOutput error error error
        (if contains "no file was found" e then "file_not_found"
         else if contains "directory" e then "invalid_tool_params"
         else if contains "size exceeds" e then "file_too_large"
         else "read_content_failure")
  | None =>
      let file_path := get_or "" (path p) in
      let offset := Z.to_nat (get_or 0%Z (offset p)) in
      let limit := option_map Z.to_nat (limit p) in
      let failed (msg : string) :=
        ErrorOutput ("Could not read file. " +:+ msg) ("Error reading file: " +:+ msg)
                    msg "read_content_failure" in
      match read w file_path with
      | inl e => failed (strerror e)
      | inr raw =>
          if is_binary raw then BinaryOutput ("Read binary file: " +:+ basename file_path)
          else
            match _read_text_file_with_pagination w file_path offset limit with
            | inl e => failed ("Error reading text file: " +:+ strerror e)
            | inr (content, is_truncated, start_line, end_line, total_lines) =>
                if is_truncated then
                  let next_offset := (Z.of_nat offset + (end_line - start_line + 1))%Z in
                  TextOutput
                    (String LF "IMPORTANT: The file content has been truncated."
                     +:+ String LF "Status: Showing lines " +:+ str_of_Z start_line
                     +:+ "-" +:+ str_of_Z end_line +:+ " of " +:+ str_of_Z total_lines
                     +:+ " total lines."
                     +:+ String LF "Action: To read more of the file, you can use the 'offset' and 'limit' parameters in a subsequent 'read_file' call. For example, to read the next section of the file, use offset: "
                     +:+ str_of_Z next_offset +:+ "."
                     +:+ String LF (String LF "--- FILE CONTENT (truncated) ---")
                     +:+ String LF content)
                    content
                else TextOutput content content
            end
      end
  end.

End Execute.

End ReadFileTool.

(** ** [src/agents/tools/grep_tool.py] *)

Module GrepTool.
Import PyStr PosixPath World Tool.

(** A JSON value given for [maxResults], as [isinstance(_, int)] sees it:
    an int, a bool (an int too), null, or anything else, of which only the
    text [f"{max_results}"] matters. *)
Inductive pyval : Type :=
| VInt (n : Z)
| VBool (b : bool)
| VNone
| VOther (shown : string).

(** [f"{v}"] *)
Definition show_pyval (v : pyval) : string :=
  match v with
  | VInt n => str_of_Z n
  | VBool b => if b then "True" else "False"
  | VNone => "None"
  | VOther shown => shown
  end.

Record params := Params {
  pattern : option string;
  path : option string;
  include : option string;
  maxResults : option pyval
}.

(** The directories and files below a directory, in the order [os.walk]
    lists them. *)
Inductive dir_tree : Type :=
| DirTree (subdirs : list (string * dir_tree)) (file_names : list string).

(** One reported line. *)
Record hit := Hit {
  hit_file : string;
  hit_line : nat;
  hit_content : string
}.

(** What [execute] returns. *)
Record output := Output {
  llmContent : string;
  returnDisplay : string
}.

(** [fnmatch.fnmatch(name, pat)] for the patterns of this module: a
    leading [*] followed by plain text, or plain text. *)
Definition fnmatch (name pat : string) : bool :=
  match pat with
  | String c suffix =>
      if Ascii.eqb c (ascii_of_nat 42) then endswith suffix name
      else String.eqb name pat
  | EmptyString => String.eqb name pat
  end.

Definition exclude_dirs : list string :=
  [ ".git"; "node_modules"; "bower_components"; "__pycache__";
    ".next"; ".nuxt"; "dist"; "build"; "target"; "coverage";
    ".vscode"; ".idea"; ".pytest_cache"; ".mypy_cache";
    ".DS_Store"; "Thumbs.db" ].

Definition ignored_files : list string :=
  [ "*.pyc"; "*.pyo"; "*.class"; "*.jar"; "*.log";
    "*.tmp"; "*.temp"; ".DS_Store"; "Thumbs.db" ].

Definition default_excludes : list string :=
  [ "**/node_modules/**"; "**/.git/**"; "**/.next/**"; "**/.nuxt/**";
    "**/.vscode/**"; "**/.idea/**"; "**/dist/**"; "**/build/**";
    "**/target/**"; "**/coverage/**"; "**/__pycache__/**";
    "**/.pytest_cache/**"; "**/.mypy_cache/**";
    "**/*.pyc"; "**/*.pyo"; "**/*.class"; "**/*.jar"; "**/*.log";
    "**/*.tmp"; "**/*.temp"; "**/.DS_Store"; "**/Thumbs.db" ].

(** [for root, dirs, files in os.walk(search_path)] with the excluded
    directories pruned and the ignored files skipped *)
Fixpoint walk (root : string) (t : dir_tree) : list string :=
  match t with
  | DirTree subdirs file_names =>
      List.map (join root)
        (List.filter (fun f => negb (existsb (fnmatch f) ignored_files)) file_names)
      ++ (fix walk_dirs (ds : list (string * dir_tree)) : list string :=
            match ds with
            | [] => []
            | (d, sub) :: ds' =>
                (if existsb (String.eqb d) exclude_dirs then []
                 else walk (join root d) sub)
                ++ walk_dirs ds'
            end) subdirs
  end.

(** [line.rstrip()] of the lines a pattern is found in, numbered from 1 *)
Fixpoint find_in_lines (search : string -> bool) (file_path : string)
  (line_num : nat) (lines : list string) : list hit :=
  match lines with
  | [] => []
  | line :: rest =>
      (if search line then [Hit file_path line_num (rstrip line)] else [])
      ++ find_in_lines search file_path (S line_num) rest
  end.

(** The state of the search loop. *)
Record scan := Scan {
  matches : list hit;
  files_searched : nat;
  total_matches_found : nat;
  search_truncated : bool
}.

Definition scan0 : scan := Scan [] 0 0 false.

(** [matches_by_file]: a dict, in insertion order *)
Fixpoint add_by_file (m : hit) (groups : list (string * list hit))
  : list (string * list hit) :=
  match groups with
  | [] => [(hit_file m, [m])]
  | (k, ms) :: rest =>
      if String.eqb k (hit_file m) then (k, ms ++ [m]) :: rest
      else (k, ms) :: add_by_file m rest
  end.

(** [file_matches.sort(key=lambda x: x["line"])], a stable sort *)
Fixpoint insert_by_line (m : hit) (sorted : list hit) : list hit :=
  match sorted with
  | [] => [m]
  | x :: rest =>
      if (hit_line m <? hit_line x)%nat then m :: sorted
      else x :: insert_by_line m rest
  end.

Definition sort_by_line (ms : list hit) : list hit :=
  fold_left (fun acc m => insert_by_line m acc) ms [].

Definition quoted (s : string) : string :=
  String (ascii_of_nat 34) (s +:+ String (ascii_of_nat 34) "").

Definition MAX_LINE_LENGTH : nat := 1000.

Section Search.

(** [re.compile(pattern, flags)]: [None] when the pattern is not a regular
    expression, else what [regex.search] answers on a line; the flag says
    whether [re.IGNORECASE] is given.  [compile_error] is the text of the
    [re.error] raised for a pattern. *)
Variable compile : string -> bool -> option (string -> bool).
Variable compile_error : string -> string.

(** [glob.glob(pattern, recursive=True)] *)
Variable glob : string -> list string.

(** the tree [os.walk] finds at a path *)
Variable tree_at : string -> dir_tree.

Variable cwd working_dir : string.
Variable w : world.

(** [GrepTool.validate_params] *)
Definition validate_params (p : params) : option string :=
  match missing_required
          [ ("pattern", match pattern p with Some _ => true | None => false end) ] with
  | Some error => Some error
  | None =>
      let pat := get_or "" (pattern p) in
      if String.eqb pat "" || String.eqb (strip pat) "" then
        Some "The 'pattern' parameter cannot be empty."
      else
        match compile pat false with
        | None => Some ("Invalid regular expression pattern provided: " +:+ pat
                        +:+ ". Error: " +:+ compile_error pat)
        | Some _ =>
            let path_error :=
              match path p with
              | Some search_path =>
                  if String.eqb search_path "" then None
                  else if negb (isabs search_path) then Some "Path must be absolute."
                  else if startswith ".." (relpath cwd search_path working_dir) then
                    Some ("Path validation failed: Attempted path "
                          +:+ quoted search_path
                          +:+ " resolves outside the allowed working directory: "
                          +:+ working_dir)
                  else if negb (exists_ w search_path) then Some "Path does not exist."
                  else if negb (isdir w search_path) then Some "Path is not a directory."
                  else None
              | None => None
              end in
            match path_error with
            | Some error => Some error
            | None =>
                let out_of_range (v : pyval) :=
                  Some ("maxResults must be an integer between 1 and 100, got: "
                        +:+ show_pyval v) in
                match maxResults p with
                | None | Some VNone => None
                | Some (VInt n) =>
                    if (n <? 1)%Z || (100 <? n)%Z then out_of_range (VInt n) else None
                | Some (VBool b) => if b then None else out_of_range (VBool b)
                | Some (VOther shown) => out_of_range (VOther shown)
                end
            end
        end
  end.

(** the files searched: the glob of [include], or the walk; then the
    default exclusions on the path relative to the working directory *)
Definition files_to_search (search_path : string) (include_pattern : option string)
  : list string :=
  match include_pattern with
  | Some inc =>
      if String.eqb inc "" then walk search_path (tree_at search_path)
      else List.filter (isfile w) (glob (join search_path inc))
  | None => walk search_path (tree_at search_path)
  end.

Definition keep_file (file_path : string) : bool :=
  let relative_path :=
    replace (relpath cwd file_path working_dir) (String (ascii_of_nat 92) "") "/" in
  negb (startswith "../" relative_path)
  && negb (existsb
             (fun exclude_pattern =>
                fnmatch relative_path
                  (replace (replace exclude_pattern "**/" "") "/**" ""))
             default_excludes).

(** [for file_path in filtered_files: ...] for a regex and a cap *)
Fixpoint search_files (search : string -> bool) (max_results : Z)
  (filtered_files : list string) (st : scan) : scan :=
  match filtered_files with
  | [] => st
  | file_path :: rest =>
      if (max_results <=? Z.of_nat (length (matches st)))%Z then
        Scan (matches st) (files_searched st) (total_matches_found st) true
      else
        let searched := S (files_searched st) in
        match read w file_path with
        | inl _ =>
            search_files search max_results rest
              (Scan (matches st) searched (total_matches_found st) (search_truncated st))
        | inr raw =>
            let lines := readlines (decode_ignore raw) in
            let file_matches := find_in_lines search file_path 1 lines in
            let total := total_matches_found st + length file_matches in
            let remaining_slots := (max_results - Z.of_nat (length (matches st)))%Z in
            if (remaining_slots <=? 0)%Z then
              Scan (matches st) searched total true
            else if (remaining_slots <? Z.of_nat (length file_matches))%Z then
              Scan (matches st ++ firstn (Z.to_nat remaining_slots) file_matches)
                   searched total true
            else
              search_files search max_results rest
                (Scan (matches st ++ file_matches) searched total (search_truncated st))
        end
  end.

(** [os.path.relpath] raises [ValueError] on an empty path, which is then
    shown as it is *)
Definition location (search_path : string) : string :=
  if String.eqb search_path working_dir then "in the workspace directory"
  else if String.eqb search_path "" then "in path " +:+ quoted search_path
  else "in path " +:+ quoted (relpath cwd search_path working_dir).

Definition filter_description (include_pattern : option string) : string :=
  match include_pattern with
  | Some inc => if String.eqb inc "" then "" else " (filter: " +:+ quoted inc +:+ ")"
  | None => ""
  end.

(** the banner added to the header of a truncated search *)
Definition banner (st : scan) : string :=
  " (showing first " +:+ str_of_nat (length (matches st)) +:+ " of "
  +:+ str_of_nat (total_matches_found st) +:+ "+ total matches)".

Definition header_text (pat search_path : string) (include_pattern : option string)
  (st : scan) : string :=
  "Found " +:+ str_of_nat (length (matches st))
  +:+ (if (length (matches st) =? 1)%nat then " match" else " matches")
  +:+ " for pattern " +:+ quoted pat +:+ " " +:+ location search_path
  +:+ filter_description include_pattern
  +:+ (if search_truncated st then banner st else "").

Definition show_line (m : hit) : string :=
  let trimmed_line := strip (hit_content m) in
  "L" +:+ str_of_nat (hit_line m) +:+ ": "
  +:+ (if (MAX_LINE_LENGTH <? len trimmed_line)%nat
       then take_chars MAX_LINE_LENGTH false trimmed_line +:+ " ... (truncated, line was "
            +:+ str_of_nat (len trimmed_line) +:+ " characters)"
       else trimmed_line)
  +:+ String LF "".

Definition show_file (group : string * list hit) : string :=
  "File: " +:+ relpath cwd (fst group) working_dir +:+ String LF ""
  +:+ fold_right String.append "" (List.map show_line (sort_by_line (snd group)))
  +:+ "---" +:+ String LF "".

Definition warning (max_results : string) : string :=
  String LF "WARNING: Results truncated to prevent context overflow. To see more results:"
  +:+ String LF "- Use a more specific pattern to reduce matches"
  +:+ String LF "- Add file filters with the 'include' parameter (e.g., "
  +:+ quoted "*.js" +:+ ", " +:+ quoted "src/**" +:+ ")"
  +:+ String LF "- Specify a narrower 'path' to search in a subdirectory"
  +:+ String LF "- Increase 'maxResults' parameter if you need more matches (current: "
  +:+ max_results +:+ ")".

(** the cap [execute] works with: [params.get("maxResults", 20)]; a null
    cannot be compared with a number *)
Definition cap (p : params) : option Z :=
  match maxResults p with
  | None => Some 20%Z
  | Some (VInt n) => Some n
  | Some (VBool b) => Some (if b then 1%Z else 0%Z)
  | Some VNone | Some (VOther _) => None
  end.

Definition cap_shown (p : params) : string :=
  match maxResults p with
  | None => "20"
  | Some v => show_pyval v
  end.

Definition filtered_files (p : params) : list string :=
  List.filter keep_file
    (files_to_search (get_or working_dir (path p)) (include p)).

(** the search of [execute], for parameters that passed the validation:
    the state of the loop when it ends, or the text of the exception that
    the first comparison with a null cap raises *)
Definition run_search (p : params) : string + scan :=
  let pat := get_or "" (pattern p) in
  match compile pat true with
  | None => inl (compile_error pat)
  | Some search =>
      match cap p, filtered_files p with
      | Some max_results, files => inr (search_files search max_results files scan0)
      | None, [] => inr scan0
      | None, _ :: _ =>
          inl "'>=' not supported between instances of 'int' and 'NoneType'"
      end
  end.

(** [GrepTool.execute] *)
Definition execute (p : params) : output :=
  match validate_params p with
  | Some error =>
      Output ("Error during grep search operation: " +:+ error) ("Error: " +:+ error)
  | None =>
      let pat := get_or "" (pattern p) in
      let search_path := get_or working_dir (path p) in
      match run_search p with
      | inr st =>
          match matches st with
          | [] =>
              Output ("No matches found for pattern " +:+ quoted pat +:+ " "
                      +:+ location search_path +:+ filter_description (include p) +:+ ".")
                     "No matches found"
          | _ :: _ =>
              let groups := fold_left (fun acc m => add_by_file m acc) (matches st) [] in
              Output
                (strip (header_text pat search_path (include p) st
                        +:+ ":" +:+ String LF "---" +:+ String LF ""
                        +:+ fold_right String.append "" (List.map show_file groups)
                        +:+ (if search_truncated st then warning (cap_shown p) else "")))
                ("Found " +:+ str_of_nat (length (matches st))
                 +:+ (if (length (matches st) =? 1)%nat then " match" else " matches")
                 +:+ (if search_truncated st
                      then " (truncated from " +:+ str_of_nat (total_matches_found st) +:+ "+)"
                      else ""))
          end
      | inl e =>
          Output ("Error during grep search operation: " +:+ e)
                 ("Error: An unexpected error occurred. " +:+ e)
      end
  end.

(** every line of the files searched that the pattern is found in *)
Definition all_matches (search : string -> bool) (filtered_files : list string)
  : list hit :=
  flat_map (fun file_path =>
              match read w file_path with
              | inl _ => []
              | inr raw => find_in_lines search file_path 1 (readlines (decode_ignore raw))
              end) filtered_files.

End Search.

End GrepTool.

(** ** [src/utils/db_watcher.py] *)

Module DBWatcher.
Import PyStr.

(** What a call of the watcher may raise. *)
Inductive failure : Type :=
| IndexError
| ValueError
| FileNotFoundError.

Inductive result (A : Type) : Type :=
| Returned (a : A)
| Raised (e : failure).
Arguments Returned {A} a.
Arguments Raised {A} e.

(** One entry returned for a log row. *)
Record entry := Entry {
  timestamp : string;
  message : string
}.

Definition _SQL_KEYWORDS : list string :=
  [ "SELECT"; "INSERT"; "UPDATE"; "DELETE"; "CREATE"; "DROP"; "ALTER";
    "TRUNCATE"; "MERGE"; "WITH"; "BEGIN"; "COMMIT"; "ROLLBACK"; "EXPLAIN";
    "VACUUM"; "COPY"; "GRANT"; "REVOKE" ].

(** The search of [_SQL_RE] on a message of ASCII characters, which the
    examples use: a character of the class [\w] (a byte above 127 is taken
    for one) *)
Definition is_word (c : ascii) : bool :=
  is_letter c || is_digit c || Ascii.eqb c (ascii_of_nat 95)
  || (128 <=? nat_of_ascii c)%nat.

(** [kw] at the head of [s], letter case ignored: the text after it *)
Fixpoint after_keyword (kw s : string) : option string :=
  match kw, s with
  | EmptyString, _ => Some s
  | String a kw', String b s' =>
      if Ascii.eqb (lower_char a) (lower_char b) then after_keyword kw' s' else None
  | String _ _, EmptyString => None
  end.

Definition starts_with_word (s : string) : bool :=
  match s with
  | String c _ => is_word c
  | EmptyString => false
  end.

(** a keyword between two word boundaries at the head of [s], the
    character before being a word character or not *)
Definition keyword_here (after_word : bool) (s : string) : bool :=
  negb after_word
  && existsb (fun kw => match after_keyword kw s with
                        | Some rest => negb (starts_with_word rest)
                        | None => false
                        end) _SQL_KEYWORDS.

Fixpoint search_from (after_word : bool) (s : string) : bool :=
  keyword_here after_word s
  || match s with
     | String c s' => search_from (is_word c) s'
     | EmptyString => false
     end.

Definition keyword_search (m : string) : bool := search_from false m.

Section Watcher.

(** [_SQL_RE.search(m)]: whether the regular expression of the module, any
    of the keywords between two word boundaries, letter case ignored, is
    found in [m] *)
Variable _SQL_RE_search : string -> bool.

(** [filter_sql_entries(entries, keep_durations=...)] *)
Definition filter_sql_entries (keep_durations : bool) (entries : list entry) : list entry :=
  List.filter
    (fun e =>
       _SQL_RE_search (message e)
       || (keep_durations && startswith "duration:" (lower (lstrip (message e)))))
    entries.

End Watcher.

(** [_looks_like_log_row(first_cell)]: the first four characters are
    digits and the fifth is a dash; a cell of one to four digits has no
    fifth character to look at *)
Definition _looks_like_log_row (first_cell : string) : result bool :=
  let cell := points first_cell in
  if isdigit (firstn 4 cell) then
    match nth_error cell 4 with
    | Some c => Returned (c =? 45)%Z
    | None => Raised IndexError
    end
  else Returned false.

(** [names.index(x)] *)
Fixpoint index_of (x : string) (names : list string) : option nat :=
  match names with
  | [] => None
  | n :: rest => if String.eqb n x then Some 0 else option_map S (index_of x rest)
  end.

(** [try: names.index(a) except ValueError: names.index(b)] *)
Definition index_either (a b : string) (names : list string) : result nat :=
  match index_of a names with
  | Some i => Returned i
  | None =>
      match index_of b names with
      | Some i => Returned i
      | None => Raised ValueError
      end
  end.

(** The columns and the data rows of a log that is not empty:
    (IDX_TS, IDX_MSG, the rows iterated). *)
Definition layout (first_row : list string) (others : list (list string))
  : result (nat * nat * list (list string)) :=
  match first_row with
  | [] => Raised IndexError
  | first_cell :: _ =>
      match _looks_like_log_row first_cell with
      | Raised e => Raised e
      | Returned true => Returned (0, 13, first_row :: others)
      | Returned false =>
          let names := List.map strip first_row in
          match index_either "ts" "log_time" names with
          | Raised e => Raised e
          | Returned idx_ts =>
              match index_either "msg" "message" names with
              | Raised e => Raised e
              | Returned idx_msg => Returned (idx_ts, idx_msg, others)
              end
          end
      end
  end.

(** [for row in data_iter: ...] with the counter [pos]; a row too short
    for the two columns is passed over, and the counter with it *)
Fixpoint read_rows (idx_ts idx_msg start_pos : nat) (pos : nat)
  (rows : list (list string)) : list entry :=
  match rows with
  | [] => []
  | row :: rest =>
      if (start_pos <=? pos)%nat then
        match nth_error row idx_ts, nth_error row idx_msg with
        | Some ts, Some msg =>
            Entry ts msg :: read_rows idx_ts idx_msg start_pos (S pos) rest
        | _, _ => read_rows idx_ts idx_msg start_pos pos rest
        end
      else read_rows idx_ts idx_msg start_pos (S pos) rest
  end.

(** The log directory as the watcher finds it: whether it exists, the
    CSV files in the order [glob] lists them, their modification times,
    and the rows [csv.reader] yields for a file ([None] when the file
    cannot be opened). *)
Record log_dir := {
  dir_exists : bool;
  csv_logs : list string;
  mtime : string -> Z;
  rows_of : string -> option (list (list string))
}.

(** [_read_from(path, start_pos)] *)
Definition _read_from (d : log_dir) (path : string) (start_pos : nat)
  : result (list entry) :=
  match rows_of d path with
  | None => Raised FileNotFoundError
  | Some [] => Returned []
  | Some (first_row :: others) =>
      match layout first_row others with
      | Raised e => Raised e
      | Returned (idx_ts, idx_msg, data) =>
          Returned (read_rows idx_ts idx_msg start_pos 0 data)
      end
  end.

(** [sorted(paths, key=mtime)[-1]]: the last of the most recent ones *)
Fixpoint latest (d : log_dir) (paths : list string) : option string :=
  match paths with
  | [] => None
  | p :: rest =>
      match latest d rest with
      | Some q => if (mtime d p <=? mtime d q)%Z then Some q else Some p
      | None => Some p
      end
  end.

(** [p.exists()] for a log file *)
Definition log_exists (d : log_dir) (p : string) : bool :=
  match rows_of d p with Some _ => true | None => false end.

(** [get_new_entries()]: the entries returned and the checkpoint after
    the call; a raise leaves the checkpoint as it was *)
Definition get_new_entries (_SQL_RE_search : string -> bool)
  (d : log_dir) (_ckpt : gmap string nat)
  : result (list entry * gmap string nat) :=
  if negb (dir_exists d) then Returned ([], _ckpt)
  else
    match latest d (csv_logs d) with
    | None => Raised IndexError
    | Some path =>
        let start := Tool.get_or 0 (_ckpt !! path) in
        match _read_from d path start with
        | Raised e => Raised e
        | Returned new_rows =>
            let _ckpt := <[path := start + length new_rows]> _ckpt in
            let _ckpt := filter (fun kv => log_exists d kv.1 = true) _ckpt in
            Returned (filter_sql_entries _SQL_RE_search false new_rows, _ckpt)
        end
    end.

(** [{p: len(self._read_from(p, 0)) for p in ...}], built from the left *)
Fixpoint count_all (d : log_dir) (paths : list string) (acc : gmap string nat)
  : result (gmap string nat) :=
  match paths with
  | [] => Returned acc
  | p :: rest =>
      match _read_from d p 0 with
      | Raised e => Raised e
      | Returned rows => count_all d rest (<[p := length rows]> acc)
      end
  end.

(** [set_ckpt()]: the new checkpoint *)
Definition set_ckpt (d : log_dir) : result (gmap string nat) :=
  if negb (dir_exists d) then Returned ∅ else count_all d (csv_logs d) ∅.

(** the entries of the rows wide enough for both columns *)
Definition entries_of (idx_ts idx_msg : nat) (rows : list (list string)) : list entry :=
  flat_map (fun row => match nth_error row idx_ts, nth_error row idx_msg with
                       | Some ts, Some msg => [Entry ts msg]
                       | _, _ => []
                       end) rows.

Definition wide (idx_ts idx_msg : nat) (row : list string) : bool :=
  (idx_ts <? length row)%nat && (idx_msg <? length row)%nat.

(** The rows a file holds for the loop: its columns and its data rows. *)
Definition table (d : log_dir) (path : string)
  : result (nat * nat * list (list string)) :=
  match rows_of d path with
  | None => Raised FileNotFoundError
  | Some [] => Returned (0, 0, [])
  | Some (first_row :: others) => layout first_row others
  end.

(** the message of a row holds an SQL keyword *)
Definition sql_row (_SQL_RE_search : string -> bool) (idx_msg : nat)
  (row : list string) : bool :=
  match nth_error row idx_msg with
  | Some m => _SQL_RE_search m
  | None => false
  end.

End DBWatcher.

(** * Part II: properties *)

(** ** [convert_windows_path_to_linux] *)

Module ConvertPathFacts.
Import PyStr ConvertPath.

Lemma startswith_one_char (a c : ascii) (s : string) :
  startswith (String a "") (String c s) = Ascii.eqb a c.
Proof. simpl. destruct (Ascii.eqb a c); reflexivity. Qed.

(** Replacing the one-character string [\] by [/] is a character map. *)
Lemma replace_backslash_map (s : string) :
  replace s (String backslash "") (String slash "") = map_chars to_slash s.
Proof.
  unfold replace.
  induction s as [|c s IH]; [reflexivity|].
  cbn [replace_from map_chars]. rewrite startswith_one_char.
  unfold to_slash. rewrite (Ascii.eqb_sym backslash c).
  destruct (Ascii.eqb c backslash); cbn; rewrite IH; reflexivity.
Qed.

Lemma map_to_slash_no_backslash (s : string) :
  all_chars (fun c => negb (Ascii.eqb c backslash)) (map_chars to_slash s) = true.
Proof.
  induction s as [|c s IH]; [reflexivity|].
  cbn. rewrite IH, andb_true_r. unfold to_slash.
  destruct (Ascii.eqb c backslash) eqn:E; [reflexivity|]. now rewrite E.
Qed.

Lemma letter_not_backslash (d : ascii) :
  is_letter d = true -> to_slash d = d.
Proof.
  intros H. unfold to_slash.
  destruct (Ascii.eqb d backslash) eqn:E; [|reflexivity].
  apply Ascii.eqb_eq in E. subst d. discriminate H.
Qed.

Lemma convert_windows (d : ascii) (rest : string) :
  is_letter d = true ->
  convert_windows_path_to_linux (String d (String colon (String backslash rest)))
  = String slash (String (lower_char d) (String slash (map_chars to_slash rest))).
Proof.
  intros Hd. unfold convert_windows_path_to_linux.
  cbn [windows_path_pattern]. rewrite Hd, !Ascii.eqb_refl. cbn [andb].
  rewrite replace_backslash_map. cbn [map_chars take drop lower].
  rewrite (letter_not_backslash d Hd). reflexivity.
Qed.

Lemma pattern_shape (path : string) :
  windows_path_pattern path = true ->
  exists d rest, is_letter d = true
    /\ path = String d (String colon (String backslash rest)).
Proof.
  destruct path as [|d [|c [|b rest]]]; try discriminate.
  cbn. intros H. apply andb_true_iff in H as [H Hb].
  apply andb_true_iff in H as [Hd Hc].
  apply Ascii.eqb_eq in Hb, Hc. subst. eauto.
Qed.

Lemma convert_other (path : string) :
  windows_path_pattern path = false ->
  convert_windows_path_to_linux path = path.
Proof. intros H. unfold convert_windows_path_to_linux. now rewrite H. Qed.

Lemma convert_idempotent (path : string) :
  convert_windows_path_to_linux (convert_windows_path_to_linux path)
  = convert_windows_path_to_linux path.
Proof.
  destruct (windows_path_pattern path) eqn:E.
  - destruct (pattern_shape _ E) as (d & rest & Hd & ->).
    rewrite (convert_windows d rest Hd). reflexivity.
  - rewrite (convert_other _ E). apply convert_other, E.
Qed.

(** C8. A path of the shape [<L>:\rest] with [L] a letter is rewritten to
    [/<lowercased L>/rest'], where [rest'] is [rest] with every backslash
    turned into a forward slash (so no backslash is left); every path not of
    that shape is returned unchanged; and converting twice is converting
    once. *)
Theorem convert_windows_path_to_linux_spec (path : string) :
  (forall d rest,
      is_letter d = true ->
      path = String d (String colon (String backslash rest)) ->
      convert_windows_path_to_linux path
      = String slash (String (lower_char d) (String slash (map_chars to_slash rest)))
      /\ all_chars (fun c => negb (Ascii.eqb c backslash))
           (convert_windows_path_to_linux path) = true)
  /\ ((forall d rest,
         is_letter d = true ->
         path <> String d (String colon (String backslash rest))) ->
      convert_windows_path_to_linux path = path)
  /\ convert_windows_path_to_linux (convert_windows_path_to_linux path)
     = convert_windows_path_to_linux path.
Proof.
  split; [|split].
  - intros d rest Hd ->. rewrite (convert_windows d rest Hd). split; [reflexivity|].
    cbn [all_chars]. rewrite map_to_slash_no_backslash.
    destruct (is_upper d) eqn:Hu.
    + unfold lower_char. rewrite Hu.
      destruct d as [[] [] [] [] [] [] [] []]; try discriminate Hu; reflexivity.
    + unfold lower_char. rewrite Hu.
      destruct d as [[] [] [] [] [] [] [] []]; try discriminate Hd; reflexivity.
  - intros Hshape. apply convert_other.
    destruct (windows_path_pattern path) eqn:E; [|reflexivity].
    destruct (pattern_shape _ E) as (d & rest & Hd & Hp).
    exfalso. exact (Hshape d rest Hd Hp).
  - apply convert_idempotent.
Qed.

(** The source's own example, [D:\research\WebGen-Plus\WebGen-Agent2]. *)
Lemma convert_windows_path_to_linux_witness :
  let path := "D:\research\WebGen-Plus\WebGen-Agent2" in
  convert_windows_path_to_linux path = "/d/research/WebGen-Plus/WebGen-Agent2"
  /\ convert_windows_path_to_linux "/home/user/projects" = "/home/user/projects".
Proof.
  split.
  - exact (proj1 (proj1 (convert_windows_path_to_linux_spec
                           "D:\research\WebGen-Plus\WebGen-Agent2")
                    "D"%char "research\WebGen-Plus\WebGen-Agent2"
                    eq_refl eq_refl)).
  - apply (proj1 (proj2 (convert_windows_path_to_linux_spec "/home/user/projects"))).
    intros d rest _ H. discriminate H.
Defined.

End ConvertPathFacts.

(** ** Facts on strings *)

Module PyStrFacts.
Import PyStr.

Lemma append_cons (c : ascii) (a b : string) :
  String c a +:+ b = String c (a +:+ b).
Proof. reflexivity. Qed.

Lemma append_nil_l (b : string) : "" +:+ b = b.
Proof. reflexivity. Qed.

Lemma length_append (a b : string) :
  String.length (a +:+ b) = String.length a + String.length b.
Proof.
  induction a as [|c a IH]; [reflexivity|].
  rewrite append_cons. cbn [String.length]. now rewrite IH.
Qed.

Lemma append_nil_r (a : string) : a +:+ "" = a.
Proof.
  induction a as [|c a IH]; [reflexivity|]. now rewrite append_cons, IH.
Qed.

Lemma append_assoc (a b c : string) : (a +:+ b) +:+ c = a +:+ (b +:+ c).
Proof.
  induction a as [|x a IH]; [reflexivity|]. now rewrite !append_cons, IH.
Qed.

Lemma append_inj_l (a b c : string) : a +:+ b = a +:+ c -> b = c.
Proof.
  induction a as [|x a IH]; [auto|].
  rewrite !append_cons. intros H. injection H. auto.
Qed.

(** No string is a proper extension of itself. *)
Lemma append_neq_self (a b : string) : a <> "" -> a +:+ b <> b.
Proof.
  intros Ha H. apply (f_equal String.length) in H. rewrite length_append in H.
  destruct a; [congruence | cbn [String.length] in H; lia].
Qed.

Lemma length_take (n : nat) (s : string) :
  n <= String.length s -> String.length (take n s) = n.
Proof.
  revert s. induction n as [|n IH]; intros [|c s] H; cbn in *; try lia.
  rewrite IH; lia.
Qed.

Lemma all_chars_append (p : ascii -> bool) (a b : string) :
  all_chars p (a +:+ b) = all_chars p a && all_chars p b.
Proof.
  induction a as [|c a IH]; [reflexivity|].
  rewrite append_cons. cbn [all_chars]. now rewrite IH, andb_assoc.
Qed.

Lemma all_chars_take (p : ascii -> bool) (n : nat) (s : string) :
  all_chars p s = true -> all_chars p (take n s) = true.
Proof.
  revert s. induction n as [|n IH]; intros [|c s] H; cbn in *; try reflexivity.
  apply andb_true_iff in H as [Hc Hs]. now rewrite Hc, IH.
Qed.

End PyStrFacts.

(** ** The digest is 64 lowercase hexadecimal characters *)

Module Sha256Facts.
Import PyStr PyStrFacts Sha256.

Definition is_hex (c : ascii) : bool :=
  is_digit c || ((97 <=? nat_of_ascii c)%nat && (nat_of_ascii c <=? 102)%nat).

Lemma hex_digit_is_hex (x : Z) : is_hex (hex_digit (Z.land x 15)) = true.
Proof.
  change 15%Z with (Z.ones 4). rewrite Z.land_ones by lia.
  pose proof (Z.mod_pos_bound x (2 ^ 4) ltac:(lia)) as Hb.
  set (d := (x mod 2 ^ 4)%Z) in *.
  assert (Hd : exists n : nat, (n < 16)%nat /\ d = Z.of_nat n).
  { exists (Z.to_nat d). split; lia. }
  destruct Hd as (n & Hn & ->).
  do 16 (destruct n as [|n]; [reflexivity|]). lia.
Qed.

Lemma hex_spec (n : nat) (x : Z) :
  String.length (hex n x) = n /\ all_chars is_hex (hex n x) = true.
Proof.
  induction n as [|n [IH1 IH2]]; [now split|].
  cbn [hex String.length all_chars]. rewrite IH1, IH2, hex_digit_is_hex. now split.
Qed.

Lemma length_compress (h block : list Z) :
  length h = 8 -> length (compress h block) = 8.
Proof.
  intros Hh. unfold compress.
  rewrite length_map, length_combine, Hh. reflexivity.
Qed.

Lemma length_fold_compress (blocks : list (list Z)) (h : list Z) :
  length h = 8 -> length (fold_left compress blocks h) = 8.
Proof.
  revert h. induction blocks as [|b bs IH]; intros h Hh; cbn; [exact Hh|].
  apply IH, length_compress, Hh.
Qed.

Lemma length_digest_words (msg : list Z) : length (digest_words msg) = 8.
Proof. apply length_fold_compress. reflexivity. Qed.

Lemma hexdigest_spec (s : string) :
  String.length (hexdigest s) = 64 /\ all_chars is_hex (hexdigest s) = true.
Proof.
  unfold hexdigest. pose proof (length_digest_words (bytes_of_string s)) as Hl.
  revert Hl. generalize (digest_words (bytes_of_string s)). intros ws Hl.
  assert (H : String.length
                (fold_right (fun w acc => hex 8 w +:+ acc) "" ws) = 8 * length ws
              /\ all_chars is_hex
                   (fold_right (fun w acc => hex 8 w +:+ acc) "" ws) = true).
  { clear Hl. induction ws as [|w ws [IH1 IH2]]; [now split|].
    cbn [fold_right]. rewrite length_append, all_chars_append, IH1, IH2.
    destruct (hex_spec 8 w) as [-> ->]. cbn [length]. split; [lia | reflexivity]. }
  rewrite Hl in H. exact H.
Qed.

End Sha256Facts.

(** ** Resource names in the compose documents *)

Module SandboxFacts.
Import PyStr PyStrFacts PosixPath Yaml Sandbox ComposeNames.

(** [_hash_name(name)] is 12 lowercase hexadecimal characters, the head of
    the SHA-256 digest of [name]. *)
Lemma hash_name_spec (name : string) :
  String.length (_hash_name name 12) = 12
  /\ all_chars Sha256Facts.is_hex (_hash_name name 12) = true
  /\ startswith (_hash_name name 12) (Sha256.hexdigest name) = true.
Proof.
  unfold _hash_name. destruct (Sha256Facts.hexdigest_spec name) as [Hl Hx].
  split; [apply length_take; lia|]. split; [now apply all_chars_take|].
  generalize (Sha256.hexdigest name). generalize 12.
  induction n as [|n IH]; intros [|c s]; cbn; try reflexivity.
  now rewrite Ascii.eqb_refl.
Qed.

(** The agent framework's sandbox names its resources by the hash alone. *)
Lemma agent_compose_names (project_root working_dir log_dir compose_path : string) :
  let h := _hash_name (basename (dirname compose_path)) 12 in
  let doc := AgentSandbox.create_docker_compose_file
               project_root working_dir log_dir compose_path in
  container_name doc = Some (YStr ("container_" +:+ h))
  /\ volume_names doc = ["postgres_data_" +:+ h]
  /\ network_names doc = ["webgen_network_" +:+ h].
Proof. repeat split. Qed.

(** The baseline's sandbox hashes nothing: one volume named after the
    sample directory, no container name, no network. *)
Lemma baseline_compose_names
  (working_dir log_dir compose_path db_dir : string) (db_port : Z) :
  let doc := BaselineSandbox.create_docker_compose_file
               working_dir log_dir compose_path db_dir db_port in
  container_name doc = None
  /\ volume_names doc = ["postgres_data_" +:+ basename log_dir]
  /\ network_names doc = [].
Proof. repeat split. Qed.

(** C1. [src/utils/sandbox.py] names its container [container_<hash>], but
    its volume and its network carry the whole container name:
    [postgres_data_container_<hash>] and [webgen_network_container_<hash>],
    which are never the [postgres_data_<hash>] and [webgen_network_<hash>]
    the module computes in [volume_prefix] and [network_name]; for the
    compose file of the directory [run_001] the hash is [a2da01cf583f]. *)
Theorem utils_compose_names
  (project_root working_dir log_dir output_dir compose_path db_dir : string) :
  let h := _hash_name (basename (dirname compose_path)) 12 in
  let doc := UtilsSandbox.create_docker_compose_file
               project_root working_dir log_dir output_dir compose_path db_dir in
  (container_name doc = Some (YStr ("container_" +:+ h))
   /\ volume_names doc = ["postgres_data_container_" +:+ h]
   /\ network_names doc = ["webgen_network_container_" +:+ h])
  /\ volume_names doc <> ["postgres_data_" +:+ h]
  /\ network_names doc <> ["webgen_network_" +:+ h]
  /\ volume_names
       (UtilsSandbox.create_docker_compose_file
          "/repo" "/work/run_001" "/logs/run_001" "/out/run_001"
          "/out/run_001/docker-compose.yml" "/db/run_001")
     = ["postgres_data_container_a2da01cf583f"].
Proof.
  cbv zeta. split; [repeat split|]. split; [|split; [|reflexivity]].
  - cbn [UtilsSandbox.create_docker_compose_file volume_names get assoc keys
           String.eqb Ascii.eqb Bool.eqb List.map fst].
    intros H. injection H as H.
    exact (append_neq_self "container_" _ ltac:(discriminate) H).
  - cbn [UtilsSandbox.create_docker_compose_file network_names get assoc keys
           String.eqb Ascii.eqb Bool.eqb List.map fst].
    intros H. injection H as H.
    exact (append_neq_self "container_" _ ltac:(discriminate) H).
Qed.

End SandboxFacts.

(** ** [free_docker_port] in [src/utils/sandbox.py] *)

Module FreePortFacts.
Import Py FreePort.
Local Open Scope Z_scope.

Lemma docker_unbound : resolves utils_sandbox_globals "docker" = false.
Proof. vm_compute. reflexivity. Qed.

Lemma docker_bound_in_baseline : resolves baseline_sandbox_globals "docker" = true.
Proof. vm_compute. reflexivity. Qed.

(** C9. In [src/utils/sandbox.py] a call with a port in [1, 65535] raises
    [NameError] for [docker] before any call on the engine; a port outside
    the range raises the documented [ValueError]; so no call returns the
    list of affected container ids. *)
Theorem free_docker_port_name_error
  (engine : list container) (port : Z) (remove : bool) (stop_timeout : Z) :
  (1 <= port <= 65535 ->
   free_docker_port utils_sandbox_globals engine port remove stop_timeout
   = (Raised (NameError "docker"), []))
  /\ (~ 1 <= port <= 65535 ->
      free_docker_port utils_sandbox_globals engine port remove stop_timeout
      = (Raised (ValueError "port must be an integer between 1 and 65535"), []))
  /\ (forall affected trace,
        free_docker_port utils_sandbox_globals engine port remove stop_timeout
        <> (Returned affected, trace)).
Proof.
  unfold free_docker_port. rewrite docker_unbound. cbn [negb].
  destruct ((1 <=? port) && (port <=? 65535)) eqn:E; cbn [negb].
  - split; [reflexivity|]. split; [|discriminate].
    intros H. exfalso. apply H. apply andb_true_iff in E as [E1 E2]. lia.
  - split; [|split; [reflexivity | discriminate]].
    intros [H1 H2]. exfalso.
    apply andb_false_iff in E as [E|E]; lia.
Qed.

Definition postgres_container : container :=
  Container "4f1c2a9be077" "pg" "running"
    (Some [("5432/tcp", Some [Binding "0.0.0.0" "5432"])]).

Lemma free_docker_port_name_error_witness :
  free_docker_port utils_sandbox_globals [postgres_container] 5432 true 5
  = (Raised (NameError "docker"), []).
Proof.
  apply (proj1 (free_docker_port_name_error [postgres_container] 5432 true 5)).
  lia.
Defined.

(** The baseline's copy of the function, whose module imports [docker],
    stops and removes the container on the same call. *)
Lemma free_docker_port_baseline :
  free_docker_port baseline_sandbox_globals [postgres_container] 5432 true 5
  = (Returned ["4f1c2a9be077"], [Stop "4f1c2a9be077" 5; Remove "4f1c2a9be077"]).
Proof. vm_compute. reflexivity. Qed.

End FreePortFacts.

(** ** Floats that need no rounding *)

Module PyFloatFacts.
Import Py PyFloat.
Local Open Scope Z_scope.

(** The exponent of the float nearest to [m * 2 ^ e]. *)
Definition cexp (m : positive) (e : Z) : Z :=
  fexp prec emax (Zpos (digits2_pos m) + e).

Lemma cexp_eq (m : positive) (e : Z) :
  cexp m e = Z.max (Zpos (digits2_pos m) + e - 53) (-1074).
Proof. reflexivity. Qed.

Lemma digits2_pos_le (m : positive) (n : Z) :
  Zpos m < 2 ^ n -> 0 <= n -> Zpos (digits2_pos m) <= n.
Proof.
  revert n. induction m as [m IH|m IH|]; intros n Hm Hn; cbn [digits2_pos].
  - assert (n <> 0) by (intros ->; cbn in Hm; lia).
    replace n with (Z.succ (n - 1)) in Hm by lia. rewrite Z.pow_succ_r in Hm by lia.
    specialize (IH (n - 1) ltac:(lia) ltac:(lia)). lia.
  - assert (n <> 0) by (intros ->; cbn in Hm; lia).
    replace n with (Z.succ (n - 1)) in Hm by lia. rewrite Z.pow_succ_r in Hm by lia.
    specialize (IH (n - 1) ltac:(lia) ltac:(lia)). lia.
  - assert (n <> 0) by (intros ->; cbn in Hm; lia). lia.
Qed.

Lemma iter_xO (m d : positive) :
  Zpos (Pos.iter xO m d) = Zpos m * 2 ^ Zpos d
  /\ digits2_pos (Pos.iter xO m d) = (digits2_pos m + d)%positive.
Proof.
  induction d as [|d IH] using Pos.peano_ind.
  - cbn [Pos.iter]. split; [lia|]. cbn. lia.
  - rewrite Pos.iter_succ. destruct IH as [IH1 IH2]. split.
    + rewrite Pos2Z.inj_xO, IH1, Pos2Z.inj_succ, Z.pow_succ_r by lia. ring.
    + cbn [digits2_pos]. rewrite IH2. lia.
Qed.

(** [m * 2 ^ d] for a [d] that is not negative *)
Definition shifted (m : positive) (d : Z) : positive :=
  match d with
  | Zpos p => Pos.iter xO m p
  | _ => m
  end.

Lemma shifted_spec (m : positive) (d : Z) :
  0 <= d ->
  Zpos (shifted m d) = Zpos m * 2 ^ d
  /\ Zpos (digits2_pos (shifted m d)) = Zpos (digits2_pos m) + d.
Proof.
  intros Hd. destruct d as [|p|p]; [cbn; lia | | lia].
  cbn [shifted]. destruct (iter_xO m p) as [H1 H2]. rewrite H1, H2. lia.
Qed.

Lemma shl_align_spec (m : positive) (e e' : Z) :
  e' <= e -> shl_align m e e' = (shifted m (e - e'), e').
Proof.
  intros H. unfold shl_align. destruct (e' - e) as [|p|p] eqn:E; try lia.
  - assert (e' = e) as -> by lia. now rewrite Z.sub_diag.
  - replace (e - e') with (Zpos p) by lia. reflexivity.
Qed.

Lemma iter_pos_peano {A} (f : A -> A) (p : positive) (x : A) :
  SpecFloat.iter_pos f p x = Pos.iter f x p.
Proof.
  revert x. induction p as [p IH|p IH|]; intros x; cbn [SpecFloat.iter_pos Pos.iter].
  - rewrite !IH. now rewrite <- !Pos.iter_swap.
  - now rewrite !IH.
  - reflexivity.
Qed.

(** Shifting out zeros loses nothing. *)
Lemma shr_exact (q p : positive) :
  SpecFloat.iter_pos shr_1 p
    {| shr_m := Zpos (Pos.iter xO q p); shr_r := false; shr_s := false |}
  = {| shr_m := Zpos q; shr_r := false; shr_s := false |}.
Proof.
  rewrite iter_pos_peano.
  induction p as [|p IH] using Pos.peano_ind.
  - reflexivity.
  - rewrite Pos.iter_succ_r, Pos.iter_succ. cbn [shr_1 orb]. exact IH.
Qed.

Lemma binary_round_aux_exact (s : bool) (m : positive) (e : Z) :
  cexp m e = e -> e <= 971 ->
  binary_round_aux prec emax s (Zpos m) e loc_Exact = S754_finite s m e.
Proof.
  intros Hc He. unfold binary_round_aux, shr_fexp.
  cbn [Zdigits2 shr_record_of_loc]. fold (cexp m e). rewrite Hc, Z.sub_diag.
  cbn [shr shr_m loc_of_shr_record round_nearest_even Zdigits2 shr_record_of_loc].
  fold (cexp m e). rewrite Hc, Z.sub_diag. cbn [shr shr_m].
  replace (e <=? emax - prec) with true; [reflexivity|].
  symmetry. apply Z.leb_le. unfold emax, prec. lia.
Qed.

Lemma binary_round_aux_shift (s : bool) (q : positive) (e : Z) (p : positive) :
  cexp q (e + Zpos p) = e + Zpos p -> e + Zpos p <= 971 ->
  binary_round_aux prec emax s (Zpos (Pos.iter xO q p)) e loc_Exact
  = S754_finite s q (e + Zpos p).
Proof.
  intros Hc He. unfold binary_round_aux, shr_fexp.
  cbn [Zdigits2 shr_record_of_loc].
  destruct (iter_xO q p) as [_ Hd]. rewrite Hd.
  replace (fexp prec emax (Zpos (digits2_pos q + p) + e) - e) with (Zpos p).
  2:{ unfold cexp in Hc. replace (Zpos (digits2_pos q + p) + e)
        with (Zpos (digits2_pos q) + (e + Zpos p)) by lia. lia. }
  cbn [shr]. rewrite shr_exact.
  cbn [shr_m loc_of_shr_record round_nearest_even Zdigits2 shr_record_of_loc].
  fold (cexp q (e + Zpos p)). rewrite Hc, Z.sub_diag. cbn [shr shr_m].
  replace (e + Zpos p <=? emax - prec) with true; [reflexivity|].
  symmetry. apply Z.leb_le. unfold emax, prec. lia.
Qed.

(** [k * 2 ^ j] at exponent [e - j] is rounded as [k] at exponent [e] is,
    when [k] has few enough digits to be kept as it is. *)
Lemma binary_round_scaled (s : bool) (k : positive) (e j : Z) :
  0 <= j -> cexp k e <= e -> cexp k e <= 971 ->
  binary_round prec emax s (shifted k j) (e - j)
  = S754_finite s (shifted k (e - cexp k e)) (cexp k e).
Proof.
  intros Hj Hsmall Hmax. unfold binary_round.
  destruct (shifted_spec k j Hj) as [Hv Hd].
  assert (Hc : fexp prec emax (Zpos (digits2_pos (shifted k j)) + (e - j)) = cexp k e).
  { unfold cexp. f_equal. lia. }
  rewrite Hc. set (c := cexp k e) in *.
  assert (Hcq : cexp (shifted k (e - c)) c = c).
  { unfold cexp. destruct (shifted_spec k (e - c) ltac:(lia)) as [_ Hd'].
    rewrite Hd'. replace (Zpos (digits2_pos k) + (e - c) + c)
      with (Zpos (digits2_pos k) + e) by lia. reflexivity. }
  destruct (Z_le_gt_dec c (e - j)) as [Hle|Hgt].
  - rewrite shl_align_spec by exact Hle.
    assert (Heq : shifted (shifted k j) (e - j - c) = shifted k (e - c)).
    { apply Pos2Z.inj.
      destruct (shifted_spec (shifted k j) (e - j - c) ltac:(lia)) as [-> _].
      destruct (shifted_spec k (e - c) ltac:(lia)) as [-> _].
      rewrite Hv, <- Z.mul_assoc, <- Z.pow_add_r by lia. f_equal. f_equal. lia. }
    rewrite Heq. apply binary_round_aux_exact; assumption.
  - unfold shl_align. destruct (c - (e - j)) as [|p|p] eqn:E; try lia.
    assert (Heq : shifted k j = Pos.iter xO (shifted k (e - c)) p).
    { apply Pos2Z.inj. destruct (iter_xO (shifted k (e - c)) p) as [-> _].
      destruct (shifted_spec k (e - c) ltac:(lia)) as [-> _].
      rewrite Hv, <- Z.mul_assoc, <- Z.pow_add_r by lia. f_equal. f_equal. lia. }
    rewrite Heq. replace c with (e - j + Zpos p) by lia.
    apply binary_round_aux_shift; replace (e - j + Zpos p) with c by lia; assumption.
Qed.

(** The float [k / 2], for a [k] below [2 ^ 53]. *)
Definition halves (k : Z) : spec_float := binary_normalize prec emax k (-1) false.

Lemma halves_pos (k : positive) :
  Zpos k < 2 ^ 53 ->
  let c := Zpos (digits2_pos k) - 54 in
  halves (Zpos k) = S754_finite false (shifted k (- 1 - c)) c.
Proof.
  intros Hk c. pose proof (digits2_pos_le k 53 Hk ltac:(lia)) as Hd.
  assert (Hc : cexp k (-1) = c) by (rewrite cexp_eq; subst c; lia).
  unfold halves, binary_normalize.
  change k with (shifted k 0) at 1. change (-1) with (-1 - 0) at 1.
  rewrite binary_round_scaled; rewrite ?Hc; subst c; try lia. reflexivity.
Qed.

Lemma halves_scaled (k : positive) (j : Z) :
  Zpos k < 2 ^ 53 -> 0 <= j ->
  binary_normalize prec emax (Zpos (shifted k j)) (-1 - j) false = halves (Zpos k).
Proof.
  intros Hk Hj. pose proof (digits2_pos_le k 53 Hk ltac:(lia)) as Hd.
  assert (Hc : cexp k (-1) = Zpos (digits2_pos k) - 54) by (rewrite cexp_eq; lia).
  rewrite halves_pos by exact Hk. cbn [binary_normalize].
  rewrite binary_round_scaled; rewrite ?Hc; try lia. reflexivity.
Qed.

(** Sums of halves are exact below [2 ^ 53]. *)
Lemma add_halves (a b : Z) :
  0 <= a -> 0 <= b -> a + b < 2 ^ 53 ->
  SFadd prec emax (halves a) (halves b) = halves (a + b).
Proof.
  intros Ha Hb Hab.
  destruct a as [|a|a]; [|clear Ha|lia].
  { destruct b as [|b|b]; try lia; [reflexivity|].
    change (0 + Z.pos b) with (Z.pos b). rewrite halves_pos by lia. reflexivity. }
  destruct b as [|b|b]; [|clear Hb|lia].
  { rewrite Z.add_0_r, halves_pos by lia. reflexivity. }
  rewrite (halves_pos a), (halves_pos b) by lia. cbv zeta.
  pose proof (digits2_pos_le a 53 ltac:(lia) ltac:(lia)) as Hda.
  pose proof (digits2_pos_le b 53 ltac:(lia) ltac:(lia)) as Hdb.
  set (ca := Zpos (digits2_pos a) - 54). set (cb := Zpos (digits2_pos b) - 54).
  unfold SFadd. set (ez := Z.min ca cb).
  rewrite !shl_align_spec by (subst ez; lia). cbn [fst cond_Zopp].
  assert (Hsum : Zpos (shifted (shifted a (-1 - ca)) (ca - ez))
                 + Zpos (shifted (shifted b (-1 - cb)) (cb - ez))
                 = Zpos (shifted (a + b) (-1 - ez))).
  { destruct (shifted_spec (shifted a (-1 - ca)) (ca - ez) ltac:(subst ez; lia)) as [-> _].
    destruct (shifted_spec (shifted b (-1 - cb)) (cb - ez) ltac:(subst ez; lia)) as [-> _].
    destruct (shifted_spec a (-1 - ca) ltac:(subst ca; lia)) as [-> _].
    destruct (shifted_spec b (-1 - cb) ltac:(subst cb; lia)) as [-> _].
    destruct (shifted_spec (a + b) (-1 - ez) ltac:(subst ez ca; lia)) as [-> _].
    rewrite <- !Z.mul_assoc, <- !Z.pow_add_r by (subst ez ca cb; lia).
    replace (-1 - ca + (ca - ez)) with (-1 - ez) by lia.
    replace (-1 - cb + (cb - ez)) with (-1 - ez) by lia. lia. }
  rewrite Hsum. change (Zpos a + Zpos b) with (Zpos (a + b)).
  replace ez with (-1 - (-1 - ez)) at 2 by lia.
  apply halves_scaled; [lia | subst ez ca; lia].
Qed.

(** An int below [2 ^ 52] is a float. *)
Lemma of_int_halves (n : Z) :
  0 <= n < 2 ^ 52 -> of_int n = halves (2 * n).
Proof.
  intros Hn. destruct n as [|n|n]; [reflexivity | | lia].
  pose proof (digits2_pos_le n 52 ltac:(lia) ltac:(lia)) as Hd.
  assert (Hc : cexp n 0 = Z.max (Zpos (digits2_pos n) - 53) (-1074))
    by (rewrite cexp_eq; f_equal; lia).
  assert (H0 := binary_round_scaled false n 0 0 ltac:(lia) ltac:(lia) ltac:(lia)).
  assert (H1 := binary_round_scaled false n 0 1 ltac:(lia) ltac:(lia) ltac:(lia)).
  change (shifted n 0) with n in H0. change (0 - 0) with 0 in H0.
  change (0 - 1) with (-1) in H1.
  unfold of_int, halves. change (2 * Zpos n) with (Zpos (shifted n 1)).
  cbn [binary_normalize]. now rewrite H0, H1.
Qed.

Lemma halves_finite (k : Z) :
  0 <= k < 2 ^ 53 ->
  match halves k with
  | S754_infinity _ | S754_nan => False
  | _ => True
  end.
Proof.
  intros Hk. destruct k as [|k|k]; [exact I | | lia].
  now rewrite halves_pos by lia.
Qed.

Lemma halves_zero (k : Z) :
  0 < k < 2 ^ 53 ->
  match halves k with
  | S754_zero _ => False
  | _ => True
  end.
Proof.
  intros Hk. destruct k as [|k|k]; try lia. now rewrite halves_pos by lia.
Qed.

(** The value of the float [k / 2]. *)
Lemma value_halves (k : Z) :
  0 <= k < 2 ^ 53 -> (value (halves k) == Qmake k 2)%Q.
Proof.
  intros Hk. destruct k as [|k|k]; [reflexivity | | lia].
  rewrite halves_pos by lia. cbv zeta.
  pose proof (digits2_pos_le k 53 ltac:(lia) ltac:(lia)) as Hd.
  destruct (Zpos (digits2_pos k) - 54) as [|c|c] eqn:E; try lia.
  unfold value, Qeq. cbn [Qnum Qden].
  destruct (shifted_spec k (-1 - Zneg c) ltac:(lia)) as [-> _].
  rewrite Pos2Z.inj_pow. change (Zpos 2) with 2.
  replace (Zpos c) with (Z.succ (-1 - Zneg c)) by lia.
  rewrite Z.pow_succ_r by lia. ring.
Qed.

(** A score: the number [k / 2], kept as an int or as a float. *)
Definition is_halves (k : Z) (s : num) : Prop :=
  (exists a, k = 2 * a /\ s = Int a) \/ s = Float (halves k).

Lemma to_float_small (n : Z) :
  0 <= n < 2 ^ 52 -> to_float n = Returned (halves (2 * n)).
Proof.
  intros Hn. unfold to_float. rewrite of_int_halves by exact Hn.
  pose proof (halves_finite (2 * n) ltac:(lia)) as H.
  destruct (halves (2 * n)); tauto.
Qed.

Lemma as_float_halves (k : Z) (s : num) :
  is_halves k s -> 0 <= k < 2 ^ 53 -> as_float s = Returned (halves k).
Proof.
  intros [(a & -> & ->)| ->] Hk; [|reflexivity].
  cbn [as_float]. apply to_float_small. lia.
Qed.

(** Adding a number of halves to a score. *)
Lemma add_float_halves (k j : Z) (s : num) :
  is_halves k s -> 0 <= k -> 0 <= j -> k + j < 2 ^ 53 ->
  add s (Float (halves j)) = Returned (Float (halves (k + j))).
Proof.
  intros Hs Hk Hj Hkj. pose proof (as_float_halves k s Hs ltac:(lia)) as Hf.
  assert (Hadd : bind (as_float s) (fun a =>
                   bind (as_float (Float (halves j)))
                        (fun b => Returned (Float (SFadd prec emax a b))))
                 = Returned (Float (halves (k + j)))).
  { rewrite Hf. cbn [bind as_float]. now rewrite add_halves by lia. }
  destruct s; exact Hadd.
Qed.

Lemma add_int_halves (k w : Z) (s : num) :
  is_halves k s -> 0 <= k -> 0 <= w < 2 ^ 52 -> k + 2 * w < 2 ^ 53 ->
  exists s', add s (Int w) = Returned s' /\ is_halves (k + 2 * w) s'.
Proof.
  intros [(a & -> & ->)| ->] Hk Hw Hkw.
  - exists (Int (a + w)). split; [reflexivity|]. left. exists (a + w). split; [lia|reflexivity].
  - exists (Float (halves (k + 2 * w))). split; [|now right].
    cbn [add as_float bind]. rewrite to_float_small by lia. cbn [bind].
    now rewrite add_halves by lia.
Qed.

Lemma half_is_halves : half = halves 1.
Proof. reflexivity. Qed.

(** [db_weight * 0.5] for a weight of 0 or 1 *)
Lemma mul_weight_half (w : Z) :
  w = 0 \/ w = 1 -> mul (Int w) (Float half) = Returned (Float (halves w)).
Proof. intros [->| ->]; reflexivity. Qed.

(** [x / total * 100] for a score [x]. *)
Lemma truediv_halves (k t : Z) (s : num) :
  is_halves k s -> 0 <= k < 2 ^ 53 -> 0 < t < 2 ^ 52 ->
  truediv s (Int t) = Returned (SFdiv prec emax (halves k) (of_int t)).
Proof.
  intros Hs Hk Ht. unfold truediv. cbn [is_zero].
  destruct (Z.eqb_spec t 0) as [->|_]; [lia|].
  destruct Hs as [(a & -> & ->)| ->].
  - replace ((Z.abs a <? 2 ^ 53) && (Z.abs t <? 2 ^ 53)) with true.
    + now rewrite (of_int_halves a) by lia.
    + symmetry. apply andb_true_iff. split; apply Z.ltb_lt; lia.
  - cbn [as_float bind]. rewrite to_float_small by lia. cbn [bind].
    now rewrite <- of_int_halves by lia.
Qed.

Lemma truediv_int (a t : Z) :
  Z.abs a < 2 ^ 53 -> 0 < t < 2 ^ 53 ->
  truediv (Int a) (Int t) = Returned (SFdiv prec emax (of_int a) (of_int t)).
Proof.
  intros Ha Ht. unfold truediv. cbn [is_zero].
  destruct (Z.eqb_spec t 0) as [->|_]; [lia|].
  replace ((Z.abs a <? 2 ^ 53) && (Z.abs t <? 2 ^ 53)) with true; [reflexivity|].
  symmetry. apply andb_true_iff. split; apply Z.ltb_lt; lia.
Qed.

Lemma mul_100 (q : spec_float) :
  mul (Float q) (Int 100) = Returned (Float (SFmul prec emax q (of_int 100))).
Proof. reflexivity. Qed.

Lemma mul_pow2 (m : positive) (p : positive) :
  (m * 2 ^ p)%positive = Pos.iter xO m p.
Proof.
  apply Pos2Z.inj. rewrite Pos2Z.inj_mul, Pos2Z.inj_pow.
  now rewrite (proj1 (iter_xO m p)).
Qed.

(** [n * 0.5] is the float [n / 2]. *)
Lemma mul_half (n : Z) :
  0 <= n < 2 ^ 52 -> mul (Int n) (Float half) = Returned (Float (halves n)).
Proof.
  intros Hn. destruct n as [|k|k]; [reflexivity | | lia].
  unfold mul. cbn [as_float]. unfold to_float.
  pose proof (digits2_pos_le k 52 ltac:(lia) ltac:(lia)) as Hd.
  assert (Hc : cexp k 0 = Zpos (digits2_pos k) - 53) by (rewrite cexp_eq; lia).
  assert (H0 := binary_round_scaled false k 0 0 ltac:(lia) ltac:(lia) ltac:(lia)).
  change (shifted k 0) with k in H0. change (0 - 0) with 0 in H0.
  assert (Hof : of_int (Zpos k)
                = S754_finite false (shifted k (0 - cexp k 0)) (cexp k 0)).
  { unfold of_int. cbn [binary_normalize]. exact H0. }
  rewrite Hof, Hc. cbn [bind]. f_equal. f_equal.
  rewrite halves_pos by lia. cbv zeta.
  set (c := Zpos (digits2_pos k) - 53).
  replace (Zpos (digits2_pos k) - 54) with (c - 1) by (subst c; lia).
  replace (-1 - (c - 1)) with (0 - c) by lia.
  set (M := shifted k (0 - c)).
  unfold half. cbn [SFmul xorb].
  change 4503599627370496%positive with (2 ^ 52)%positive.
  rewrite mul_pow2.
  replace (c + -53) with ((c - 53)) by lia.
  rewrite binary_round_aux_shift.
  - f_equal. lia.
  - rewrite cexp_eq. subst M.
    destruct (shifted_spec k (0 - c) ltac:(subst c; lia)) as [_ Hdig].
    rewrite Hdig. subst c. lia.
  - subst c. lia.
Qed.

(** [int] of the float [k / 2] *)
Lemma to_int_halves (k : Z) :
  0 <= k < 2 ^ 53 -> to_int (Float (halves k)) = Returned (k / 2).
Proof.
  intros Hk. destruct k as [|k|k]; [reflexivity | | lia].
  rewrite halves_pos by lia. cbv zeta.
  pose proof (digits2_pos_le k 53 ltac:(lia) ltac:(lia)) as Hd.
  set (c := Zpos (digits2_pos k) - 54) in *.
  destruct (shifted_spec k (-1 - c) ltac:(subst c; lia)) as [Hval _].
  cbn [to_int]. destruct c as [|p|p] eqn:Ec; try lia.
  f_equal. rewrite Z.shiftr_div_pow2 by lia. rewrite Hval.
  replace (2 ^ Zpos p) with (2 * 2 ^ (-1 - Zneg p)).
  - rewrite Z.div_mul_cancel_r; [reflexivity | lia | ].
    apply Z.pow_nonzero; lia.
  - rewrite <- Z.pow_succ_r by lia. f_equal. lia.
Qed.

End PyFloatFacts.

(** ** [_compress_history] keeps the head and cuts between groups *)

Module HistoryFacts.
Import Py PyFloat PyFloatFacts History.

Lemma opens_group_not_tool (m : message) :
  opens_group m = true -> is_tool m = false.
Proof.
  unfold opens_group, is_tool, role_is. destruct (role m) as [r|]; [|discriminate].
  intros H. apply andb_true_iff in H as [H _]. apply String.eqb_eq in H. now subst.
Qed.

Lemma collect_tools_spec (l : list message) :
  l = fst (collect_tools l) ++ snd (collect_tools l)
  /\ forallb is_tool (fst (collect_tools l)) = true
  /\ starts_with_tool (snd (collect_tools l)) = false.
Proof.
  induction l as [|m l (IH1 & IH2 & IH3)]; [now repeat split|].
  cbn [collect_tools]. destruct (is_tool m) eqn:Hm.
  - destruct (collect_tools l) as [ts rest]. cbn [fst snd forallb] in *.
    repeat split; [now rewrite IH1 at 1 | now rewrite Hm, IH2 | exact IH3].
  - repeat split. cbn. exact Hm.
Qed.

Lemma collect_tools_length (l : list message) :
  length (snd (collect_tools l)) <= length l.
Proof.
  destruct (collect_tools_spec l) as [H _].
  rewrite H at 2. rewrite length_app. lia.
Qed.

(** The groups, laid end to end, are the messages grouped. *)
Lemma group_loop_concat (fuel : nat) (l : list message) :
  length l <= fuel -> concat (group_loop fuel l) = l.
Proof.
  revert l. induction fuel as [|fuel IH]; intros [|m l] Hl; cbn in Hl; try reflexivity; [lia|].
  cbn [group_loop]. destruct (opens_group m).
  - destruct (collect_tools_spec l) as [Hsplit _].
    pose proof (collect_tools_length l) as Hlen.
    destruct (collect_tools l) as [ts rest]. cbn [fst snd] in *.
    cbn [concat]. rewrite IH by lia. cbn [app]. now rewrite <- Hsplit.
  - cbn [concat]. rewrite IH by lia. reflexivity.
Qed.

Lemma group_history_concat (h : list message) :
  concat (group_history h) = skipn 3 h.
Proof.
  apply group_loop_concat. rewrite length_skipn. lia.
Qed.

Lemma ends_open_cons (m : message) (l : list message) (b : bool) :
  ends_open b (m :: l) = ends_open (open_after b m) l.
Proof. reflexivity. Qed.

Lemma ends_open_tools (ts : list message) (b : bool) :
  forallb is_tool ts = true -> ends_open b ts = b.
Proof.
  revert b. induction ts as [|t ts IH]; intros b H; [reflexivity|].
  cbn in H. apply andb_true_iff in H as [Ht Hts].
  rewrite ends_open_cons, IH by exact Hts. unfold open_after. rewrite Ht.
  destruct (opens_group t) eqn:Ho; [|reflexivity].
  apply opens_group_not_tool in Ho. congruence.
Qed.

Lemma ends_open_app (a b : list message) (i : bool) :
  ends_open i (a ++ b) = ends_open (ends_open i a) b.
Proof. apply fold_left_app. Qed.

(** A history split right after the tool responses of an assistant message
    ends inside that message's group. *)
Lemma ends_open_group (pre ts : list message) (m : message) (b : bool) :
  opens_group m = true -> forallb is_tool ts = true ->
  ends_open b (pre ++ m :: ts) = true.
Proof.
  intros Hm Hts. rewrite ends_open_app, ends_open_cons.
  rewrite ends_open_tools by exact Hts. unfold open_after. now rewrite Hm.
Qed.

(** The heart of the grouping: whenever the messages after a cut between
    two groups start with a tool response, the messages before the cut do
    not end inside a group. *)
Lemma group_cut (fuel : nat) (l : list message) (b : bool) (k : nat) :
  length l <= fuel ->
  (b = true -> starts_with_tool l = false) ->
  starts_with_tool (concat (skipn k (group_loop fuel l))) = true ->
  ends_open b (concat (firstn k (group_loop fuel l))) = false.
Proof.
  revert l b k. induction fuel as [|fuel IH]; intros l b k Hl Hb Hk.
  - destruct k; discriminate Hk.
  - destruct l as [|m l]; [destruct k; discriminate Hk|].
    cbn in Hl. cbn [group_loop] in *. destruct (opens_group m) eqn:Hm.
    + destruct (collect_tools_spec l) as (Hsplit & Hts & Hrest).
      pose proof (collect_tools_length l) as Hlen.
      destruct (collect_tools l) as [ts rest]. cbn [fst snd] in *.
      destruct k as [|k].
      * cbn in Hk. apply opens_group_not_tool in Hm. congruence.
      * cbn [firstn skipn concat] in *. rewrite ends_open_app.
        apply IH; [lia | intros _; exact Hrest | exact Hk].
    + destruct k as [|k].
      * cbn in *. destruct b; [|reflexivity]. specialize (Hb eq_refl). congruence.
      * cbn [firstn skipn concat] in *. rewrite ends_open_app.
        apply IH; [lia | | exact Hk].
        rewrite ends_open_cons. cbn [ends_open fold_left].
        unfold open_after. rewrite Hm. intros Hopen.
        destruct (is_tool m) eqn:Ht; [|discriminate Hopen].
        subst b. specialize (Hb eq_refl). cbn in Hb. congruence.
Qed.

(** No cut between two groups falls inside an assistant/tool-response group. *)
Lemma clean_cut (h : list message) (k : nat) (pre ts : list message) (m : message) :
  concat (firstn k (group_history h)) = pre ++ m :: ts ->
  opens_group m = true -> forallb is_tool ts = true ->
  starts_with_tool (concat (skipn k (group_history h))) = false.
Proof.
  intros Hold Hm Hts.
  destruct (starts_with_tool (concat (skipn k (group_history h)))) eqn:E; [|reflexivity].
  apply (group_cut _ _ false) in E; [| rewrite length_skipn; lia | discriminate].
  fold (group_history h) in E. rewrite Hold in E.
  rewrite (ends_open_group pre ts m false Hm Hts) in E. discriminate E.
Qed.

Lemma cut_app (h : list message) (k : nat) :
  concat (firstn k (group_history h)) ++ concat (skipn k (group_history h))
  = skipn 3 h.
Proof.
  rewrite <- concat_app, firstn_skipn. apply group_history_concat.
Qed.

(** Every run of [_compress_history] keeps the first three entries, may
    add one summary, and keeps the messages after a cut between groups. *)
Lemma compress_shape
  (llm : list message -> option string) (max_len : nat) (force : bool)
  (ratio : num) (h : list message) :
  exists (k : nat) (middle : list message),
    history_after h (_compress_history llm max_len force ratio h)
    = firstn 3 h ++ middle ++ concat (skipn k (group_history h))
    /\ (middle = [] \/ exists c, middle = [compressed_history_message c])
    /\ (concat (firstn k (group_history h)) = [] -> middle = []).
Proof.
  assert (Hsame : exists (k : nat) (middle : list message),
             h = firstn 3 h ++ middle ++ concat (skipn k (group_history h))
             /\ (middle = [] \/ exists c, middle = [compressed_history_message c])
             /\ (concat (firstn k (group_history h)) = [] -> middle = [])).
  { exists 0, []. rewrite skipn_O, group_history_concat. cbn [app].
    rewrite firstn_skipn. auto. }
  unfold _compress_history.
  destruct ((max_len <? length h)%nat || force); [|exact Hsame].
  destruct ((length (group_history h) <=? max_len)%nat && negb force); [exact Hsame|].
  set (gs := group_history h).
  destruct (int_of_scaled (length gs) ratio) as [t|err]; [|exact Hsame].
  clear Hsame. cbn [bind].
  destruct (0 <? t)%Z eqn:Ht.
  - apply Z.ltb_lt in Ht.
    assert (Hto : slice_to gs (- t) = firstn (length gs - Z.to_nat t) gs).
    { unfold slice_to. destruct (0 <=? - t)%Z eqn:E; [apply Z.leb_le in E; lia|].
      now rewrite Z.opp_involutive. }
    assert (Hfrom : slice_from gs (- t) = skipn (length gs - Z.to_nat t) gs).
    { unfold slice_from. destruct (0 <=? - t)%Z eqn:E; [apply Z.leb_le in E; lia|].
      now rewrite Z.opp_involutive. }
    rewrite Hto, Hfrom. exists (length gs - Z.to_nat t).
    destruct (concat (firstn (length gs - Z.to_nat t) gs)) as [|m0 older] eqn:Hold.
    + exists []. auto.
    + destruct (llm (m0 :: older)) as [c|].
      * exists [compressed_history_message c]. split; [reflexivity|].
        split; [eauto | discriminate].
      * exists []. auto.
  - apply Z.ltb_ge in Ht.
    destruct (concat gs) as [|m0 older] eqn:Hold.
    + exists (length gs), []. cbn [history_after]. rewrite skipn_all. auto.
    + destruct (llm (m0 :: older)) as [c|].
      * exists (length gs), [compressed_history_message c]. cbn [history_after].
        rewrite skipn_all, firstn_all, Hold. split; [reflexivity|].
        split; [eauto | discriminate].
      * exists (Z.to_nat (- t)), []. cbn [history_after]. unfold slice_from.
        destruct (0 <=? - t)%Z eqn:E; [auto | apply Z.leb_gt in E; lia].
Qed.

Lemma answered_suffix (a b : list message) :
  answered (a ++ b) = true -> answered b = true.
Proof.
  induction a as [|m a IH]; [auto|].
  cbn [app answered]. intros H. apply andb_true_iff in H as [_ H]. auto.
Qed.

Lemma answered_quiet_prefix (a b : list message) :
  forallb (fun m => negb (opens_group m)) a = true ->
  answered (a ++ b) = answered b.
Proof.
  induction a as [|m a IH]; [auto|].
  cbn [app answered forallb]. intros H. apply andb_true_iff in H as [Hm Ha].
  apply negb_true_iff in Hm. rewrite Hm. cbn [andb]. auto.
Qed.

(** C2. When the history is longer than [max_history_length], or the
    compression is forced, then after [_compress_history], whatever the
    ratio and whatever the summary request answers,
    (1) the first three entries are the ones before;
    (2) the new history is these three, at most one summary message, and a
        tail [newer] of the old messages, where the old messages from index
        3 on are [older ++ newer] and the cut does not fall inside a group:
        if [older] ends with an assistant message carrying tool calls and
        tool responses only after it, [newer] does not start with a tool
        response;
    (3) if none of the first three entries carries tool calls (they are the
        system context, the acknowledgement and the first user turn) and
        every assistant message with tool calls was followed at once by its
        tool responses, this is so in the new history too. *)
Theorem compress_history_keeps_groups
  (llm : list message -> option string) (max_len : nat) (force : bool)
  (ratio : num) (h : list message) :
  length h > max_len \/ force = true ->
  let h' := history_after h (_compress_history llm max_len force ratio h) in
  firstn 3 h' = firstn 3 h
  /\ (exists older newer middle : list message,
        skipn 3 h = older ++ newer
        /\ h' = firstn 3 h ++ middle ++ newer
        /\ (middle = [] \/ exists c, middle = [compressed_history_message c])
        /\ (forall pre m ts,
              older = pre ++ m :: ts ->
              opens_group m = true -> forallb is_tool ts = true ->
              starts_with_tool newer = false))
  /\ (forallb (fun m => negb (opens_group m)) (firstn 3 h) = true ->
      answered h = true -> answered h' = true).
Proof.
  intros _ h'.
  destruct (compress_shape llm max_len force ratio h) as (k & middle & Hh' & Hmid & Hnil).
  fold h' in Hh'. pose proof (cut_app h k) as Hcut.
  split; [|split].
  - rewrite Hh'. destruct (Nat.le_gt_cases 3 (length h)) as [Hlen|Hlen].
    + rewrite firstn_app.
      replace (3 - length (firstn 3 h)) with 0 by (rewrite length_firstn; lia).
      cbn [firstn]. rewrite app_nil_r. apply firstn_firstn.
    + assert (Hskip : skipn 3 h = []) by (apply skipn_all2; lia).
      rewrite Hskip in Hcut. apply app_eq_nil in Hcut as [Hold Hnew].
      rewrite Hnew, (Hnil Hold), !app_nil_r. apply firstn_firstn.
  - exists (concat (firstn k (group_history h))),
           (concat (skipn k (group_history h))), middle.
    split; [now rewrite Hcut|]. split; [exact Hh'|]. split; [exact Hmid|].
    intros pre m ts Hold Hm Hts. exact (clean_cut h k pre ts m Hold Hm Hts).
  - intros Hquiet Hans. rewrite Hh'.
    rewrite answered_quiet_prefix by exact Hquiet.
    assert (Hnew : answered (concat (skipn k (group_history h))) = true).
    { rewrite <- (firstn_skipn 3 h), <- Hcut in Hans.
      apply answered_suffix, answered_suffix in Hans. exact Hans. }
    destruct Hmid as [->|[c ->]]; [exact Hnew|].
    cbn [app answered]. now rewrite Hnew.
Qed.

Definition plain (r c : string) : message := Message (Some r) c None None.

Definition asks (ids : list string) : message :=
  Message (Some "assistant") ""
          (Some (List.map (fun i => ToolCall i "read_file" "{}") ids)) None.

Definition reply (i : string) : message := Message (Some "tool") "ok" None (Some i).

(** A run of eleven messages with three tool-call groups, compressed at
    the default ratio against a limit of three. *)
Definition sample_history : list message :=
  [ plain "system" "context"; plain "assistant" "Got it. Thanks for the context!";
    plain "user" "instruction";
    asks ["a"; "b"]; reply "a"; reply "b"; asks ["c"]; reply "c";
    plain "user" "continue"; asks ["d"]; reply "d" ].

Lemma compress_history_keeps_groups_witness :
  let h' := history_after sample_history
              (_compress_history (fun _ => Some "summary") 3 false (Float half)
                 sample_history) in
  firstn 3 h' = firstn 3 sample_history
  /\ answered h' = true
  /\ List.map role h'
     = [ Some "system"; Some "assistant"; Some "user"; Some "system";
         Some "user"; Some "assistant"; Some "tool" ].
Proof.
  assert (Hlong : length sample_history > 3 \/ false = true) by (left; cbn; lia).
  destruct (compress_history_keeps_groups
              (fun _ => Some "summary") 3 false (Float half) sample_history Hlong)
    as (Hhead & _ & Hans).
  split; [exact Hhead|]. split; [|reflexivity].
  apply Hans; reflexivity.
Defined.

(** A history whose third entry is an assistant message with a tool call:
    the response, at index 3, is grouped on its own. *)
Definition early_call_history : list message :=
  [ plain "system" "context"; plain "user" "instruction"; asks ["a"]; reply "a";
    plain "user" "one"; plain "user" "two"; plain "user" "three" ].

(** C2 as claimed fails on [early_call_history]: seven messages against a
    limit of three, every tool call answered at once; after the
    compression the first three entries are unchanged, but the response to
    the call of the third entry has gone into the summary. *)
Lemma compress_history_claim_counterexample :
  let h := early_call_history in
  let h' := history_after h
              (_compress_history (fun _ => Some "summary") 3 false (Float half) h) in
  length h > 3
  /\ answered h = true
  /\ firstn 3 h' = firstn 3 h
  /\ h' = [ plain "system" "context"; plain "user" "instruction"; asks ["a"];
            compressed_history_message "summary";
            plain "user" "two"; plain "user" "three" ]
  /\ answered h' = false.
Proof. cbv zeta. repeat split; reflexivity || (cbn; lia). Qed.

(** the shape of a group: a message, followed by tool responses only, and
    by none unless the message is an assistant message with tool calls *)
Definition is_group (g : list message) : Prop :=
  exists m ts, g = m :: ts /\ forallb is_tool ts = true
               /\ (opens_group m = false -> ts = []).

Lemma group_loop_groups (fuel : nat) (l : list message) :
  Forall is_group (group_loop fuel l).
Proof.
  revert l. induction fuel as [|fuel IH]; intros [|m l]; cbn [group_loop];
    [constructor | constructor | constructor |].
  destruct (opens_group m) eqn:Hm.
  - destruct (collect_tools_spec l) as (_ & Hts & _).
    destruct (collect_tools l) as [ts rest]. cbn [fst] in Hts.
    constructor; [|apply IH]. exists m, ts.
    split; [reflexivity|]. split; [exact Hts | intros E; congruence].
  - constructor; [|apply IH]. exists m, []. repeat split.
Qed.

Lemma group_loop_length (fuel : nat) (l : list message) :
  length (group_loop fuel l) <= length l.
Proof.
  revert l. induction fuel as [|fuel IH]; intros [|m l]; cbn [group_loop length]; try lia.
  destruct (opens_group m).
  - pose proof (collect_tools_length l) as Hl.
    destruct (collect_tools l) as [ts rest]. cbn [snd length] in *.
    specialize (IH rest). lia.
  - cbn [length]. specialize (IH l). lia.
Qed.

Lemma group_history_length (h : list message) :
  length (group_history h) <= length h - 3.
Proof.
  unfold group_history. etransitivity; [apply group_loop_length|].
  now rewrite length_skipn.
Qed.

(** X. The grouping of [_compress_history] splits the messages after the
    first three into consecutive groups and loses none: a group is one
    message, or an assistant message with tool calls followed by the tool
    responses that come right after it. *)
Theorem group_history_partition (h : list message) :
  concat (group_history h) = skipn 3 h
  /\ Forall (fun g => exists m ts,
               g = m :: ts /\ forallb is_tool ts = true
               /\ (opens_group m = false -> ts = []))
            (group_history h)
  /\ length (group_history h) <= length h - 3.
Proof.
  split; [apply group_history_concat|]. split; [|apply group_history_length].
  apply group_loop_groups.
Qed.

Lemma concat_groups_nonempty (gs : list (list message)) (k : nat) :
  Forall is_group gs -> 0 < k -> gs <> [] -> concat (firstn k gs) <> [].
Proof.
  intros Hgs Hk Hne. destruct gs as [|g gs]; [congruence|].
  destruct k as [|k]; [lia|]. inversion Hgs as [|? ? (m & ts & -> & _) _]; subst.
  discriminate.
Qed.

Lemma int_of_scaled_half (n : nat) :
  (Z.of_nat n < 2 ^ 52)%Z -> int_of_scaled n (Float half) = Returned (Z.of_nat (n / 2)).
Proof.
  intros Hn. unfold int_of_scaled. rewrite mul_half by lia. cbn [bind].
  rewrite to_int_halves by lia. f_equal.
  now rewrite Nat2Z.inj_div.
Qed.

(** X. With the default ratio 0.5 a compression that runs on [n] groups
    keeps the newest [n // 2] groups word for word and replaces the older
    ones by one summary message.  When the summary request fails the older
    groups are dropped without a summary; with a single group the history
    is then left as it was. *)
Theorem compress_history_default_ratio
  (llm : list message -> option string) (max_len : nat) (force : bool)
  (h : list message) :
  let gs := group_history h in
  let n := length gs in
  let older := concat (firstn (n - n / 2) gs) in
  let newer := concat (skipn (n - n / 2) gs) in
  (0 < n)%nat -> (Z.of_nat n < 2 ^ 52)%Z ->
  (max_len < n)%nat \/ force = true ->
  (forall c, llm older = Some c ->
     _compress_history llm max_len force (Float half) h
     = Returned (firstn 3 h ++ compressed_history_message c :: newer))
  /\ (llm older = None ->
      _compress_history llm max_len force (Float half) h
      = Returned (if (n =? 1)%nat then h else firstn 3 h ++ newer)).
Proof.
  intros gs n older newer Hpos Hn Hrun.
  pose proof (group_history_length h) as Hlen. fold gs n in Hlen.
  assert (Hgroups : Forall is_group gs) by apply group_loop_groups.
  assert (Hne : gs <> []) by (intros E; subst n; rewrite E in Hpos; cbn in Hpos; lia).
  assert (Hhalf : n / 2 < n) by (apply Nat.div_lt; lia).
  assert (Holder : older <> []).
  { apply concat_groups_nonempty; [exact Hgroups | lia | exact Hne]. }
  assert (Hgo : (max_len <? length h)%nat || force = true).
  { destruct Hrun as [H| ->]; [|apply orb_true_r].
    apply orb_true_iff. left. apply Nat.ltb_lt. lia. }
  assert (Hstop : (n <=? max_len)%nat && negb force = false).
  { destruct Hrun as [H| ->]; [|apply andb_false_r].
    apply andb_false_iff. left. apply Nat.leb_gt. exact H. }
  unfold _compress_history. rewrite Hgo. fold gs n. rewrite Hstop.
  rewrite int_of_scaled_half by exact Hn. cbn [bind].
  destruct (n / 2) as [|t] eqn:Et.
  - (* one group: everything is compressed *)
    assert (n = 1).
    { destruct n as [|[|n']]; [lia | reflexivity |].
      exfalso. change (S (S n')) with (2 + n') in Et.
      pose proof (Nat.div_le_lower_bound (2 + n') 2 1 ltac:(lia) ltac:(lia)). lia. }
    change (Z.of_nat 0) with 0%Z. change (0 <? 0)%Z with false. cbv beta iota zeta.
    change (concat []) with (@nil message). rewrite ?app_nil_r.
    assert (Ho : older = concat gs).
    { subst older. rewrite Nat.sub_0_r. subst n. now rewrite firstn_all. }
    assert (Hnw : newer = []).
    { subst newer. rewrite Nat.sub_0_r. subst n. now rewrite skipn_all. }
    assert (Hcg : concat gs = older) by (symmetry; exact Ho).
    destruct (concat gs) as [|m0 rest] eqn:Ecg; [congruence|].
    split.
    + intros c Hc. rewrite <- Hcg in Hc. rewrite Hc, Hnw. reflexivity.
    + intros Hc. rewrite <- Hcg in Hc. rewrite Hc.
      replace (n =? 1)%nat with true by (symmetry; now apply Nat.eqb_eq).
      unfold slice_from. change (0 <=? - 0)%Z with true. cbv iota.
      change (Z.to_nat (- 0)) with 0%nat. change (skipn 0 gs) with gs.
      f_equal. unfold gs. rewrite group_history_concat.
      apply firstn_skipn.
  - replace (0 <? Z.of_nat (S t))%Z with true by (symmetry; apply Z.ltb_lt; lia).
    assert (Hto : slice_to gs (- Z.of_nat (S t)) = firstn (n - S t) gs).
    { unfold slice_to. destruct (0 <=? - Z.of_nat (S t))%Z eqn:E; [apply Z.leb_le in E; lia|].
      rewrite Z.opp_involutive, Nat2Z.id. reflexivity. }
    assert (Hfrom : slice_from gs (- Z.of_nat (S t)) = skipn (n - S t) gs).
    { unfold slice_from. destruct (0 <=? - Z.of_nat (S t))%Z eqn:E; [apply Z.leb_le in E; lia|].
      rewrite Z.opp_involutive, Nat2Z.id. reflexivity. }
    rewrite Hto, Hfrom. fold older newer.
    destruct older as [|m0 rest] eqn:Eo; [congruence|].
    split.
    + intros c Hc. rewrite Hc. reflexivity.
    + intros Hc. rewrite Hc.
      replace (n =? 1)%nat with false; [reflexivity|].
      symmetry. apply Nat.eqb_neq. intros E. rewrite E in Et. cbn in Et. discriminate.
Qed.

Lemma compress_history_default_ratio_witness :
  _compress_history (fun _ => Some "summary") 3 false (Float half) sample_history
  = Returned [ plain "system" "context"; plain "assistant" "Got it. Thanks for the context!";
               plain "user" "instruction"; compressed_history_message "summary";
               plain "user" "continue"; asks ["d"]; reply "d" ]
  /\ _compress_history (fun _ => None) 3 false (Float half) sample_history
     = Returned [ plain "system" "context"; plain "assistant" "Got it. Thanks for the context!";
                  plain "user" "instruction";
                  plain "user" "continue"; asks ["d"]; reply "d" ].
Proof.
  split.
  - exact (proj1 (compress_history_default_ratio (fun _ => Some "summary") 3 false
                    sample_history ltac:(cbn; lia) ltac:(cbn; lia) ltac:(left; cbn; lia))
             "summary" eq_refl).
  - exact (proj2 (compress_history_default_ratio (fun _ => None) 3 false
                    sample_history ltac:(cbn; lia) ltac:(cbn; lia) ltac:(left; cbn; lia))
             eq_refl).
Defined.

End HistoryFacts.

(** ** [os.path.relpath] and the working directory *)

Module PosixPathFacts.
Import PyStr PyStrFacts PosixPath.

Lemma common_prefix_le (a b : list string) : common_prefix a b <= length a.
Proof.
  revert b. induction a as [|x a IH]; intros [|y b]; cbn; try lia.
  destruct (String.eqb x y); [specialize (IH b)|]; lia.
Qed.

Lemma common_prefix_full (a b : list string) :
  common_prefix a b = length a -> exists rest, b = a ++ rest.
Proof.
  revert b. induction a as [|x a IH]; intros b H; [now exists b|].
  destruct b as [|y b]; [discriminate|]. cbn in H.
  destruct (String.eqb_spec x y) as [->|]; [|discriminate].
  injection H as H. destruct (IH b H) as [rest ->]. now exists rest.
Qed.

Lemma common_prefix_app (a rest : list string) :
  common_prefix a (a ++ rest) = length a.
Proof.
  induction a as [|x a IH]; [destruct rest; reflexivity|].
  cbn. now rewrite String.eqb_refl, IH.
Qed.

Lemma startswith_append (p s t : string) :
  startswith p s = true -> startswith p (s +:+ t) = true.
Proof.
  revert s. induction p as [|a p IH]; intros s H; [reflexivity|].
  destruct s as [|b s]; [discriminate|]. rewrite append_cons. cbn [startswith] in *.
  destruct (Ascii.eqb a b); [now apply IH | discriminate].
Qed.

Lemma join_sep_head (x : string) (l : list string) (p : string) :
  startswith p x = true -> startswith p (join_sep (x :: l)) = true.
Proof.
  intros H. destruct l as [|y l]; [exact H|].
  cbn [join_sep]. now apply startswith_append.
Qed.

(** A relative path that does not begin with two dots leads to a path
    below [start]: the components of [start] are the first components of
    [path]. *)
Lemma relpath_inside (cwd path start : string) :
  startswith ".." (relpath cwd path start) = false ->
  exists rest, abs_parts cwd path = abs_parts cwd start ++ rest.
Proof.
  unfold relpath. cbv zeta.
  pose proof (common_prefix_le (abs_parts cwd start) (abs_parts cwd path)) as Hle.
  destruct (length (abs_parts cwd start)
            - common_prefix (abs_parts cwd start) (abs_parts cwd path)) as [|k] eqn:E.
  - intros _. apply common_prefix_full. lia.
  - cbn [repeat app]. intros H. rewrite join_sep_head in H by reflexivity. discriminate H.
Qed.

(** A component that begins with two dots, right below [start], is taken
    for a step out of it. *)
Lemma relpath_dotted (cwd path start name : string) (rest : list string) :
  abs_parts cwd path = abs_parts cwd start ++ name :: rest ->
  startswith ".." name = true ->
  startswith ".." (relpath cwd path start) = true.
Proof.
  intros Hparts Hname. unfold relpath. cbv zeta. rewrite Hparts.
  rewrite common_prefix_app.
  rewrite Nat.sub_diag. cbn [repeat app].
  rewrite skipn_app, skipn_all, Nat.sub_diag. cbn [skipn app].
  now apply join_sep_head.
Qed.

End PosixPathFacts.

(** ** [str.replace] and [str.count] scan from the left without overlap *)

Module ReplaceFacts.
Import PyStr PyStrFacts.

Lemma replace_from_skip (old new : string) (k : nat) (s : string) :
  replace_from old new k s = replace_from old new 0 (drop k s).
Proof.
  revert k. induction s as [|c s IH]; intros [|k]; try reflexivity.
  cbn [replace_from drop]. apply IH.
Qed.

Lemma count_from_skip (sub : string) (k : nat) (s : string) :
  count_from sub k s = count_from sub 0 (drop k s).
Proof.
  revert k. induction s as [|c s IH]; intros [|k]; try reflexivity.
  cbn [count_from drop]. apply IH.
Qed.

(** One step of the scan: an occurrence at the head is replaced and the
    scan goes on after it; otherwise the head is kept. *)
Lemma replace_step (c : ascii) (s old new : string) :
  old <> "" ->
  replace (String c s) old new
  = if startswith old (String c s)
    then new +:+ replace (drop (String.length old) (String c s)) old new
    else String c (replace s old new).
Proof.
  destruct old as [|a old]; [congruence|]. intros _.
  unfold replace. cbn [replace_from].
  destruct (startswith (String a old) (String c s)); [|reflexivity].
  rewrite replace_from_skip. cbn [String.length].
  rewrite Nat.sub_succ, Nat.sub_0_r. reflexivity.
Qed.

Lemma count_step (c : ascii) (s sub : string) :
  sub <> "" ->
  count (String c s) sub
  = if startswith sub (String c s)
    then S (count (drop (String.length sub) (String c s)) sub)
    else count s sub.
Proof.
  destruct sub as [|a sub]; [congruence|]. intros _.
  unfold count. cbn [count_from].
  destruct (startswith (String a sub) (String c s)); [|reflexivity].
  rewrite count_from_skip. cbn [String.length].
  rewrite Nat.sub_succ, Nat.sub_0_r. reflexivity.
Qed.

Lemma startswith_split (p s : string) :
  startswith p s = true -> s = p +:+ drop (String.length p) s.
Proof.
  revert s. induction p as [|a p IH]; intros s H; [reflexivity|].
  destruct s as [|b s]; [discriminate|]. cbn [startswith] in H.
  destruct (Ascii.eqb a b) eqn:E; [|discriminate].
  apply Ascii.eqb_eq in E. subst b.
  rewrite append_cons. cbn [String.length drop]. now rewrite <- IH.
Qed.

(** Without an occurrence nothing is replaced. *)
Lemma replace_none (s old new : string) :
  old <> "" -> count s old = 0 -> replace s old new = s.
Proof.
  intros Hold. induction s as [|c s IH]; intros Hc.
  - destruct old; [congruence | reflexivity].
  - rewrite count_step in Hc by exact Hold. rewrite replace_step by exact Hold.
    destruct (startswith old (String c s)); [discriminate|]. now rewrite IH.
Qed.

(** A single occurrence: the text around it is kept as it is. *)
Lemma replace_single (s old new : string) :
  old <> "" -> count s old = 1 ->
  exists pre post,
    s = pre +:+ old +:+ post /\ replace s old new = pre +:+ new +:+ post.
Proof.
  intros Hold. induction s as [|c s IH]; intros Hc.
  - destruct old; [congruence | discriminate].
  - rewrite count_step in Hc by exact Hold. rewrite replace_step by exact Hold.
    destruct (startswith old (String c s)) eqn:E.
    + exists "", (drop (String.length old) (String c s)).
      split; [now apply startswith_split|].
      rewrite replace_none; [reflexivity | exact Hold | lia].
    + destruct (IH Hc) as (pre & post & Hs & Hr).
      exists (String c pre), post. rewrite !append_cons, <- Hs, Hr. auto.
Qed.

End ReplaceFacts.

(** ** [EditTool.execute] on an existing file *)

Module EditToolFacts.
Import PyStr PyStrFacts PosixPath PosixPathFacts World Tool EditTool.

Lemma write_ok (w : world) (fp text : string) :
  write_fault w fp = None -> isdir w fp = false ->
  exists w', write w fp text = inr w' /\ files w' = <[fp := text]> (files w).
Proof.
  intros Hf Hd. unfold write. rewrite Hf, Hd. eexists. split; reflexivity.
Qed.

(** Creating a directory that exists changes nothing a later write sees. *)
Lemma makedirs_existing (w : world) (d : string) :
  mkdir_fault w d = None -> isdir w d = true ->
  exists w', makedirs w d = inr w' /\ files w' = files w
             /\ write_fault w' = write_fault w
             /\ forall q, isdir w' q = isdir w q.
Proof.
  intros Hf Hd. unfold makedirs, isfile. rewrite Hf, Hd.
  replace (match files w !! d with Some _ => negb true | None => false end)
    with false by (destruct (files w !! d); reflexivity).
  eexists. split; [reflexivity|]. repeat split.
  intros q. unfold isdir in *. cbn [dirs]. apply bool_decide_eq_true in Hd.
  apply bool_decide_ext. rewrite elem_of_union, elem_of_singleton.
  split; [intros [->|Hq]; assumption | auto].
Qed.

Ltac enter_edit Hvalid Hpath Hold Hnew Hne Hfile Hdir Hread :=
  unfold execute; cbv zeta; rewrite Hvalid, Hpath, Hold, Hnew; cbn [get_or];
  unfold exists_, isfile, read; rewrite Hdir, Hfile, Hread; cbn [orb negb];
  rewrite (proj2 (String.eqb_neq _ _) Hne); cbn [andb negb].

(** C3, as the code has it.  For an existing, readable file and a valid
    call with a non-empty [old_string], with the occurrences counted in the
    text as read (line ends normalised to LF), the file sitting in an
    existing directory:
    no occurrence gives [edit_no_occurrence_found]; a count that is not
    zero and differs from [expected_replacements] (1 by default) gives
    [edit_expected_occurrence_mismatch]; a count equal to
    [expected_replacements] with [old_string == new_string] gives
    [edit_no_change]; the file system is untouched in these three cases;
    and when the count is not zero, equals [expected_replacements],
    [old_string] differs from [new_string] and neither the directory
    creation nor the write fails, the call succeeds and the file holds
    the normalised text with every occurrence replaced, the other files
    being as before. *)
Theorem edit_tool_execute
  (cwd working_dir : string) (w : world) (p : params) (fp old new raw : string) :
  validate_params cwd working_dir p = None ->
  path p = Some fp -> old_string p = Some old -> new_string p = Some new ->
  old <> "" ->
  files w !! fp = Some raw -> isdir w fp = false -> isdir w (dirname fp) = true ->
  read_fault w fp = None ->
  let content := normalized raw in
  let n := Z.of_nat (count content old) in
  let e := get_or 1%Z (expected_replacements p) in
  let r := execute cwd working_dir w p in
  (n = 0%Z ->
   error_type (fst r) = Some "edit_no_occurrence_found" /\ snd r = w)
  /\ (n <> 0%Z -> n <> e ->
      error_type (fst r) = Some "edit_expected_occurrence_mismatch" /\ snd r = w)
  /\ (n <> 0%Z -> n = e -> old = new ->
      error_type (fst r) = Some "edit_no_change" /\ snd r = w)
  /\ (n <> 0%Z -> n = e -> old <> new ->
      mkdir_fault w (dirname fp) = None -> write_fault w fp = None ->
      error_type (fst r) = None
      /\ files (snd r) !! fp = Some (replace content old new)
      /\ forall q, q <> fp -> files (snd r) !! q = files w !! q).
Proof.
  intros Hvalid Hpath Hold Hnew Hne Hfile Hdir Hparent Hread content n e r.
  subst r. enter_edit Hvalid Hpath Hold Hnew Hne Hfile Hdir Hread.
  fold (normalized raw). fold content. fold n. fold e.
  split; [|split; [|split]].
  - intros Hn. rewrite (proj2 (Z.eqb_eq _ _) Hn). now split.
  - intros Hn He. rewrite (proj2 (Z.eqb_neq _ _) Hn), (proj2 (Z.eqb_neq _ _) He).
    now split.
  - intros Hn He Heq. rewrite (proj2 (Z.eqb_neq _ _) Hn), (proj2 (Z.eqb_eq _ _) He).
    cbn [negb]. rewrite (proj2 (String.eqb_eq _ _) Heq). now split.
  - intros Hn He Hdiff Hmk Hwr.
    rewrite (proj2 (Z.eqb_neq _ _) Hn), (proj2 (Z.eqb_eq _ _) He).
    cbn [negb]. rewrite (proj2 (String.eqb_neq _ _) Hdiff).
    destruct (makedirs_existing w (dirname fp) Hmk Hparent)
      as (w1 & -> & Hfiles1 & Hwf1 & Hdirs1).
    destruct (write_ok w1 fp (apply_replacement content old new))
      as (w2 & -> & Hfiles2); [congruence | now rewrite Hdirs1 |].
    cbn [fst snd error_type]. rewrite Hfiles2, Hfiles1. unfold apply_replacement.
    rewrite (proj2 (String.eqb_neq _ _) Hne).
    split; [reflexivity|]. split; [apply lookup_insert_eq|].
    intros q Hq. now apply lookup_insert_ne.
Qed.

(** A working directory [/w] holding [a.txt] with the text [raw]. *)
Definition one_file (raw : string) : world :=
  {| files := {[ "/w/a.txt" := raw ]}; dirs := {[ "/w" ]};
     read_fault := fun _ => None; mkdir_fault := fun _ => None;
     write_fault := fun _ => None |}.

Definition edit (old new : string) (expected : option Z) : params :=
  Params (Some "/w/a.txt") (Some old) (Some new) expected false.

(** [old] occurs twice and one replacement is expected: the call fails and
    the file is as before; with two expected, both are replaced. *)
Lemma edit_tool_execute_witness :
  let r1 := execute "/" "/w" (one_file "let old = old;") (edit "old" "new" None) in
  let r2 := execute "/" "/w" (one_file "let old = old;") (edit "old" "new" (Some 2%Z)) in
  (error_type (fst r1) = Some "edit_expected_occurrence_mismatch"
   /\ snd r1 = one_file "let old = old;")
  /\ (error_type (fst r2) = None
      /\ files (snd r2) !! "/w/a.txt" = Some "let new = new;").
Proof.
  split.
  - refine (proj1 (proj2 (edit_tool_execute "/" "/w" (one_file "let old = old;")
                           (edit "old" "new" None) "/w/a.txt" "old" "new"
                           "let old = old;" _ _ _ _ _ _ _ _ _)) _ _);
      try reflexivity; try discriminate.
  - destruct (proj2 (proj2 (proj2
               (edit_tool_execute "/" "/w" (one_file "let old = old;")
                  (edit "old" "new" (Some 2%Z)) "/w/a.txt" "old" "new"
                  "let old = old;" eq_refl eq_refl eq_refl eq_refl
                  ltac:(discriminate) eq_refl eq_refl eq_refl eq_refl)))
               ltac:(discriminate) eq_refl ltac:(discriminate) eq_refl eq_refl)
      as (Hok & Hfile & _).
    split; [exact Hok | exact Hfile].
Defined.

(** The claim as worded fails on the code.  With [old_string ==
    new_string] occurring twice while one replacement is expected, the
    error is the count mismatch, not [edit_no_change]; and a file with a
    CR LF line end is written back with LF, which is not the stored text
    with the occurrence replaced. *)
Lemma edit_tool_claim_counterexample :
  (let p := edit "x" "x" None in
   old_string p = new_string p
   /\ error_type (fst (execute "/" "/w" (one_file "x x") p))
      = Some "edit_expected_occurrence_mismatch")
  /\ (let raw := "a" +:+ String CR (String LF "b") in
      let r := execute "/" "/w" (one_file raw) (edit "a" "c" None) in
      count raw "a" = 1
      /\ error_type (fst r) = None
      /\ files (snd r) !! "/w/a.txt" = Some ("c" +:+ String LF "b")
      /\ files (snd r) !! "/w/a.txt" <> Some (replace raw "a" "c")).
Proof.
  split; [split; reflexivity|].
  split; [reflexivity|]. split; [reflexivity|]. split; [reflexivity|].
  vm_compute. discriminate.
Qed.

Lemma makedirs_files (w w' : world) (d : string) :
  makedirs w d = inr w' -> files w' = files w.
Proof.
  unfold makedirs. destruct (mkdir_fault w d); [discriminate|].
  destruct (isfile w d); [discriminate|]. now intros [= <-].
Qed.

Lemma write_files (w w' : world) (fp text : string) :
  write w fp text = inr w' -> files w' = <[fp := text]> (files w).
Proof.
  unfold write. destruct (write_fault w fp); [discriminate|].
  destruct (isdir w fp); [discriminate|]. now intros [= <-].
Qed.

Lemma errno_branches {A} (P : A -> Prop) (errno : Z) (a b c : A) :
  P a -> P b -> P c ->
  P (match errno with 28%Z => a | 21%Z => b | _ => c end).
Proof.
  intros Ha Hb Hc. destruct errno as [|q|q]; auto.
  repeat (destruct q as [q|q|]; auto).
Qed.

(** What the call does to the files, in every case: the result and the
    world are those of a failure that wrote nothing, or of a write of one
    text to [fp]. *)
Lemma execute_files (cwd working_dir : string) (w : world) (p : params) :
  let r := execute cwd working_dir w p in
  (error_type (fst r) <> None /\ files (snd r) = files w)
  \/ (error_type (fst r) = None
      /\ exists fp text, path p = Some fp /\ files (snd r) = <[fp := text]> (files w)).
Proof.
  cbv zeta. unfold execute. cbv zeta.
  destruct (validate_params cwd working_dir p) as [error|] eqn:Hvalid.
  { left. split; [discriminate | reflexivity]. }
  assert (Hpath : exists fp, path p = Some fp).
  { unfold validate_params in Hvalid. cbn [missing_required] in Hvalid.
    destruct (path p) as [fp|]; [now exists fp | discriminate Hvalid]. }
  destruct Hpath as [fp Hpath]. rewrite Hpath. cbn [get_or].
  set (old := get_or "" (old_string p)). set (new := get_or "" (new_string p)).
  assert (Hfinish : forall content n isnew,
    let r := match makedirs w (dirname fp) with
      | inl PermissionError =>
          fail w ("Error: Permission denied creating directory for file: " +:+ fp)
                 "permission_denied"
      | inl _ => fail w "Error executing edit" "edit_preparation_failure"
      | inr w1 =>
          match write w1 fp content with
          | inl PermissionError =>
              fail w1 ("Error: Permission denied writing to file: "
                       +:+ fp +:+ " (EACCES)") "permission_denied"
          | inl (OSError 28) =>
              fail w1 ("Error: No space left on device: " +:+ fp +:+ " (ENOSPC)")
                      "no_space_left"
          | inl (OSError 21) =>
              fail w1 ("Error: Target is a directory, not a file: "
                       +:+ fp +:+ " (EISDIR)") "target_is_directory"
          | inl (OSError _) =>
              fail w1 ("Error: Failed to write file '" +:+ fp +:+ "'")
                      "file_write_failure"
          | inl OtherError => fail w1 "Error executing edit" "edit_preparation_failure"
          | inr w2 =>
              let parts :=
                (if isnew : bool
                 then "Created new file: " +:+ fp +:+ " with provided content."
                 else "Successfully modified file: " +:+ fp +:+ " ("
                      +:+ str_of_Z n +:+ " replacements).")
                +:+ (if modified_by_user p
                     then " User modified the `new_string` content to be: "
                          +:+ new +:+ "."
                     else "") in
              (Result parts None, w2)
          end
      end in
    (error_type (fst r) <> None /\ files (snd r) = files w)
    \/ (error_type (fst r) = None
        /\ exists fp' text, Some fp = Some fp' /\ files (snd r) = <[fp' := text]> (files w))).
  { intros content n isnew. cbv zeta.
    destruct (makedirs w (dirname fp)) as [e|w1] eqn:Hmk.
    - left. destruct e; split; (discriminate || reflexivity).
    - apply makedirs_files in Hmk.
      destruct (write w1 fp content) as [e|w2] eqn:Hwr.
      + left. rewrite <- Hmk.
        destruct e as [|errno|]; [split; (discriminate || reflexivity) | |
                                  split; (discriminate || reflexivity)].
        apply (errno_branches
                 (fun r : result * world =>
                    error_type (fst r) <> None /\ files (snd r) = files w1));
          split; (discriminate || reflexivity).
      + right. apply write_files in Hwr. split; [reflexivity|].
        exists fp, content. split; [reflexivity|]. cbn [snd]. now rewrite Hwr, Hmk. }
  destruct (exists_ w fp) eqn:Hex.
  - destruct (read w fp) as [e|raw].
    + left. destruct e; split; (discriminate || reflexivity).
    + cbn [negb andb]. rewrite andb_false_r, andb_true_r.
      destruct (String.eqb old ""); [left; split; (discriminate || reflexivity)|].
      destruct (_ =? 0)%Z; [left; split; (discriminate || reflexivity)|].
      destruct (negb _); [left; split; (discriminate || reflexivity)|].
      destruct (String.eqb old new); [left; split; (discriminate || reflexivity)|].
      apply (Hfinish _ _ false).
  - cbn [negb andb]. rewrite andb_true_r, andb_false_r.
    destruct (String.eqb old "") eqn:Eold; cbn [negb].
    + apply (Hfinish new 1%Z true).
    + left. split; (discriminate || reflexivity).
Qed.

(** X. [EditTool.execute] changes no file but the one named by [path]: for
    every call, whatever the parameters and whatever fails, every other
    file holds what it held; and when the call reports an error, no file
    has changed at all. *)
Theorem edit_tool_frame (cwd working_dir : string) (w : world) (p : params) :
  let r := execute cwd working_dir w p in
  (forall q, path p <> Some q -> files (snd r) !! q = files w !! q)
  /\ (error_type (fst r) <> None -> files (snd r) = files w).
Proof.
  cbv zeta.
  destruct (execute_files cwd working_dir w p) as [[Herr Hsame]|(Hok & fp & text & Hp & Hw)].
  - split; [intros q _; now rewrite Hsame | auto].
  - split; [|congruence].
    intros q Hq. rewrite Hw. apply lookup_insert_ne. congruence.
Qed.

Definition edit_in (fp old new : string) : params :=
  Params (Some fp) (Some old) (Some new) None false.

Lemma makedirs_new (w : world) (d : string) :
  mkdir_fault w d = None -> isfile w d = false ->
  exists w', makedirs w d = inr w' /\ files w' = files w
             /\ write_fault w' = write_fault w
             /\ (forall q, q <> d -> isdir w' q = isdir w q)
             /\ isdir w' d = true.
Proof.
  intros Hf Hd. unfold makedirs. rewrite Hf, Hd.
  eexists. split; [reflexivity|]. repeat split.
  - intros q Hq. unfold isdir. cbn [dirs]. apply bool_decide_ext.
    rewrite elem_of_union, elem_of_singleton. split; [intros [?|?]; congruence | auto].
  - unfold isdir. cbn [dirs]. apply bool_decide_eq_true.
    apply elem_of_union. left. now apply elem_of_singleton.
Qed.

(** X. An empty [old_string] on a path where nothing exists creates the
    file: the directory of the file is made, the file holds [new_string] as
    it is, every other file is untouched, and the model is told
    [Created new file: <path> with provided content.] *)
Theorem edit_tool_creates_file
  (cwd working_dir : string) (w : world) (p : params) (fp new : string) :
  validate_params cwd working_dir p = None ->
  path p = Some fp -> old_string p = Some "" -> new_string p = Some new ->
  modified_by_user p = false ->
  exists_ w fp = false -> dirname fp <> fp ->
  mkdir_fault w (dirname fp) = None -> isfile w (dirname fp) = false ->
  write_fault w fp = None ->
  exists w',
    execute cwd working_dir w p
    = (Result ("Created new file: " +:+ fp +:+ " with provided content.") None, w')
    /\ files w' = <[fp := new]> (files w)
    /\ isdir w' (dirname fp) = true.
Proof.
  intros Hvalid Hpath Hold Hnew Huser Hex Hne Hmk Hparent Hwr.
  unfold execute. cbv zeta. rewrite Hvalid, Hpath, Hold, Hnew, Huser. cbn [get_or].
  rewrite Hex. cbn [String.eqb negb andb].
  destruct (makedirs_new w (dirname fp) Hmk Hparent)
    as (w1 & -> & Hfiles1 & Hwf1 & Hdirs1 & Hdir1).
  assert (Hnodir : isdir w fp = false).
  { unfold exists_ in Hex. now apply orb_false_iff in Hex as [H _]. }
  destruct (write_ok w1 fp new) as (w2 & Hw2 & Hfiles2);
    [congruence | rewrite Hdirs1 by congruence; exact Hnodir |].
  rewrite Hw2. exists w2. split; [|split].
  - now rewrite append_nil_r.
  - now rewrite Hfiles2, Hfiles1.
  - unfold write in Hw2. rewrite Hwf1, Hwr in Hw2.
    destruct (isdir w1 fp); [discriminate|]. injection Hw2 as <-. exact Hdir1.
Qed.

Definition empty_dir : world :=
  {| files := ∅; dirs := {[ "/w" ]};
     read_fault := fun _ => None; mkdir_fault := fun _ => None;
     write_fault := fun _ => None |}.

Lemma edit_tool_creates_file_witness :
  exists w',
    execute "/" "/w" empty_dir (edit_in "/w/src/app.py" "" "print(1)")
    = (Result "Created new file: /w/src/app.py with provided content." None, w')
    /\ files w' = {[ "/w/src/app.py" := "print(1)" ]}
    /\ isdir w' "/w/src" = true.
Proof.
  destruct (edit_tool_creates_file "/" "/w" empty_dir (edit_in "/w/src/app.py" "" "print(1)")
              "/w/src/app.py" "print(1)" eq_refl eq_refl eq_refl eq_refl eq_refl eq_refl
              ltac:(discriminate) eq_refl eq_refl eq_refl)
    as (w' & Hrun & Hfiles & Hdir).
  exists w'. split; [exact Hrun|]. split; [|exact Hdir].
  rewrite Hfiles. apply insert_empty.
Defined.

(** X. A path that [EditTool] or [ReadFileTool] accepts is absolute and
    lies below the working directory: the components of the normalised
    working directory are the first components of the normalised path.  (The
    test is on the text of the paths; links are not followed.) *)
Theorem accepted_path_inside (cwd working_dir : string) :
  (forall p, EditTool.validate_params cwd working_dir p = None ->
     exists fp rest,
       EditTool.path p = Some fp /\ isabs fp = true
       /\ abs_parts cwd fp = abs_parts cwd working_dir ++ rest)
  /\ (forall w p, ReadFileTool.validate_params cwd working_dir w p = None ->
        exists fp rest,
          ReadFileTool.path p = Some fp /\ isabs fp = true
          /\ abs_parts cwd fp = abs_parts cwd working_dir ++ rest
          /\ exists_ w fp = true /\ isdir w fp = false).
Proof.
  split.
  - intros p H. unfold EditTool.validate_params in H. cbn [missing_required] in H.
    destruct (EditTool.path p) as [fp|]; [|discriminate H]. cbn [present get_or] in H.
    destruct (present (EditTool.old_string p)); [|discriminate H].
    destruct (present (EditTool.new_string p)); [|discriminate H].
    destruct (isabs fp) eqn:Habs; [|discriminate H]. cbn [negb] in H.
    destruct (startswith ".." (relpath cwd fp working_dir)) eqn:Hrel; [discriminate H|].
    destruct (relpath_inside cwd fp working_dir Hrel) as [rest Hrest].
    exists fp, rest. auto.
  - intros w p H. unfold ReadFileTool.validate_params in H. cbn [missing_required] in H.
    destruct (ReadFileTool.path p) as [fp|]; [|discriminate H]. cbn [get_or] in H.
    destruct (isabs fp) eqn:Habs; [|discriminate H]. cbn [negb] in H.
    destruct (startswith ".." (relpath cwd fp working_dir)) eqn:Hrel; [discriminate H|].
    destruct (exists_ w fp) eqn:Hex; [|discriminate H]. cbn [negb] in H.
    destruct (isdir w fp) eqn:Hdir; [discriminate H|].
    destruct (relpath_inside cwd fp working_dir Hrel) as [rest Hrest].
    exists fp, rest. auto.
Qed.

Lemma accepted_path_inside_witness :
  exists rest, abs_parts "/" "/w/./src/../a.txt" = abs_parts "/" "/w" ++ rest.
Proof.
  destruct (proj1 (accepted_path_inside "/" "/w") (edit_in "/w/./src/../a.txt" "x" "y") eq_refl)
    as (fp & rest & Hfp & _ & Hrest).
  injection Hfp as <-. exists rest. exact Hrest.
Defined.

(** X. The test for paths outside the working directory looks at the first
    two characters of the relative path, so a file or directory whose name
    begins with two dots, right below the working directory, is refused
    although it lies inside. *)
Theorem dotted_name_refused
  (cwd working_dir : string) (p : params) (fp name : string) (rest : list string) :
  path p = Some fp -> old_string p <> None -> new_string p <> None ->
  isabs fp = true ->
  abs_parts cwd fp = abs_parts cwd working_dir ++ name :: rest ->
  startswith ".." name = true ->
  validate_params cwd working_dir p
  = Some ("File path must be within the working directory ("
          +:+ working_dir +:+ "): " +:+ fp).
Proof.
  intros Hpath Hold Hnew Habs Hparts Hname.
  unfold validate_params. cbn [missing_required]. rewrite Hpath. cbn [present get_or].
  destruct (old_string p); [|congruence]. destruct (new_string p); [|congruence].
  cbn [present]. rewrite Habs. cbn [negb].
  now rewrite (relpath_dotted cwd fp working_dir name rest Hparts Hname).
Qed.

Lemma dotted_name_refused_witness :
  validate_params "/" "/w" (edit_in "/w/..cache/notes.txt" "" "text")
  = Some "File path must be within the working directory (/w): /w/..cache/notes.txt".
Proof.
  exact (dotted_name_refused "/" "/w" (edit_in "/w/..cache/notes.txt" "" "text")
           "/w/..cache/notes.txt" "..cache" ["notes.txt"]
           eq_refl ltac:(discriminate) ltac:(discriminate) eq_refl eq_refl eq_refl).
Defined.

End EditToolFacts.

(** ** [_prepare_payload] *)

Module BackendTestFacts.
Import PyStr Json BackendTest.

(** The test on the lower-cased keys, in terms of the headers. *)
Lemma has_content_type_spec (headers : gmap string string) :
  has_content_type headers = true
  <-> exists k v, headers !! k = Some v /\ lower k = "content-type".
Proof.
  unfold has_content_type. rewrite bool_decide_eq_true, Exists_exists. split.
  - intros (k & Hin & Hk).
    apply list_elem_of_fmap in Hin as ([k' v] & -> & Hin).
    apply elem_of_map_to_list in Hin. eauto.
  - intros (k & v & Hkv & Hk). exists k. split; [|exact Hk].
    apply list_elem_of_fmap. exists (k, v).
    split; [reflexivity|]. now apply elem_of_map_to_list.
Qed.

(** C4, as the code has it.  A mapping or a sequence is sent as a JSON
    body; a string that parses as JSON is sent, parsed, as a JSON body; any
    other string is sent as a raw body, and then a [Content-Type:
    application/json] header is added exactly when none of the headers
    given is named [content-type] in any letter case, whatever other
    headers were given; in every other case the headers are as given. *)
Theorem prepare_payload_spec (raw : json) (headers : gmap string string) :
  (forall members, raw = JObj members ->
     _prepare_payload raw headers = (JsonBody raw, headers))
  /\ (forall items, raw = JArr items ->
        _prepare_payload raw headers = (JsonBody raw, headers))
  /\ (forall text obj, raw = JStr text -> loads text = Some obj ->
        _prepare_payload raw headers = (JsonBody obj, headers))
  /\ (forall text, raw = JStr text -> loads text = None ->
        fst (_prepare_payload raw headers) = DataBody raw
        /\ ((forall k v, headers !! k = Some v -> lower k <> "content-type") ->
            snd (_prepare_payload raw headers)
            = <["Content-Type" := "application/json"]> headers)
        /\ ((exists k v, headers !! k = Some v /\ lower k = "content-type") ->
            snd (_prepare_payload raw headers) = headers)).
Proof.
  split; [|split; [|split]].
  - now intros members ->.
  - now intros items ->.
  - intros text obj -> Hload. cbn. now rewrite Hload.
  - intros text -> Hload. cbn. rewrite Hload. cbn [fst snd].
    split; [reflexivity|]. split.
    + intros Hnone. destruct (has_content_type headers) eqn:E; [|reflexivity].
      apply has_content_type_spec in E as (k & v & Hkv & Hk).
      exfalso. exact (Hnone k v Hkv Hk).
    + intros Hsome. apply has_content_type_spec in Hsome. now rewrite Hsome.
Qed.

(** A JSON-looking string is parsed; plain text goes out raw, with the
    content type added to an empty set of headers. *)
Lemma prepare_payload_spec_witness :
  _prepare_payload (JStr ("{" +:+ String quote ("a" +:+ String quote ":1}"))) ∅
  = (JsonBody (JObj [("a", JNum "1")]), ∅)
  /\ _prepare_payload (JStr "plain text") ∅
     = (DataBody (JStr "plain text"), {[ "Content-Type" := "application/json" ]}).
Proof.
  split.
  - apply (proj1 (proj2 (proj2 (prepare_payload_spec
             (JStr ("{" +:+ String quote ("a" +:+ String quote ":1}"))) ∅)))
             _ _ eq_refl).
    reflexivity.
  - destruct (proj2 (proj2 (proj2 (prepare_payload_spec (JStr "plain text") ∅)))
               "plain text" eq_refl eq_refl) as (Hbody & Hadd & _).
    rewrite (surjective_pairing (_prepare_payload (JStr "plain text") ∅)).
    rewrite Hbody, Hadd; [reflexivity|].
    intros k v Hkv. rewrite lookup_empty in Hkv. discriminate Hkv.
Defined.

(** The claim as worded fails on the code: a caller who supplies an
    [Authorization] header, and so not "no headers at all", still gets the
    content type added to a raw body. *)
Lemma prepare_payload_claim_counterexample :
  let headers : gmap string string := {[ "Authorization" := "Bearer t" ]} in
  let r := _prepare_payload (JStr "plain text") headers in
  headers <> ∅
  /\ loads "plain text" = None
  /\ fst r = DataBody (JStr "plain text")
  /\ snd r !! "Content-Type" = Some "application/json"
  /\ headers !! "Content-Type" = None.
Proof.
  cbv zeta. split; [|repeat split; vm_compute; reflexivity].
  intros H. apply (f_equal (fun m : gmap string string => m !! "Authorization")) in H.
  rewrite lookup_singleton_eq, lookup_empty in H. discriminate H.
Qed.

End BackendTestFacts.

(** ** [compute_acc] *)

Module ComputeAccFacts.
Import PyStr Py PyFloat PosixPath World ComputeAcc PyFloatFacts.
Local Open Scope Z_scope.

(** The counters of a category stay small: its score is a number of halves
    and its total a number of tasks, both at most [b]. *)
Definition good_cat (b : Z) (c : category) : Prop :=
  (exists k, is_halves k (c_score c) /\ 0 <= k <= b) /\ 0 <= c_total c <= b.

Definition good_dict (b : Z) (d : gmap string category) : Prop :=
  forall cat, known cat = true -> exists c, d !! cat = Some c /\ good_cat b c.

Lemma good_cat_le (b b' : Z) (c : category) :
  b <= b' -> good_cat b c -> good_cat b' c.
Proof.
  intros Hb ((k & Hk & Hkb) & Ht). split; [exists k; split; [exact Hk | lia] | lia].
Qed.

Lemma good_dict_le (b b' : Z) (d : gmap string category) :
  b <= b' -> good_dict b d -> good_dict b' d.
Proof.
  intros Hb Hd cat Hcat. destruct (Hd cat Hcat) as (c & Hc & Hg).
  exists c. split; [exact Hc | exact (good_cat_le b b' c Hb Hg)].
Qed.

Lemma categories0_good : good_dict 0 categories0.
Proof.
  intros cat Hcat. exists category0. split.
  - unfold known, all_categories in Hcat. cbn [existsb app PRIMARY_CATEGORIES
      INST_PRIMARY_CATEGORIES] in Hcat.
    repeat (apply orb_true_iff in Hcat as [Hcat|Hcat];
            [apply String.eqb_eq in Hcat; subst cat; reflexivity|]).
    discriminate Hcat.
  - split; [exists 0; split; [left; exists 0; split; reflexivity | lia] | cbn; lia].
Qed.

Lemma at_key_good (b b' : Z) (f : category -> outcome category) (cat : string)
  (d : gmap string category) :
  good_dict b d -> known cat = true -> b <= b' ->
  (forall c, good_cat b c -> exists c', f c = Returned c' /\ good_cat b' c') ->
  exists d', at_key cat f d = Returned d' /\ good_dict b' d'.
Proof.
  intros Hd Hcat Hb Hf. destruct (Hd cat Hcat) as (c & Hc & Hgood).
  destruct (Hf c Hgood) as (c' & Hfc & Hgood').
  exists (<[cat := c']> d). split.
  - unfold at_key. rewrite Hc, Hfc. reflexivity.
  - intros cat2 H2. destruct (decide (cat = cat2)) as [->|Hne].
    + exists c'. rewrite lookup_insert_eq. auto.
    + destruct (Hd cat2 H2) as (c2 & Hc2 & Hg2). exists c2.
      rewrite lookup_insert_ne by exact Hne.
      split; [exact Hc2 | exact (good_cat_le b b' c2 Hb Hg2)].
Qed.

Lemma add_total_good (b n : Z) (c : category) :
  0 <= n -> good_cat b c ->
  exists c', add_total n c = Returned c' /\ good_cat (b + n) c'.
Proof.
  intros Hn ((k & Hk & Hkb) & Ht). eexists. split; [reflexivity|].
  split; [exists k; split; [exact Hk | lia] | cbn [c_total]; lia].
Qed.

Lemma add_yes_good (b w : Z) (c : category) :
  w = 0 \/ w = 1 -> b + 2 < 2 ^ 53 -> good_cat b c ->
  exists c', add_yes w c = Returned c' /\ good_cat (b + 2) c'.
Proof.
  intros Hw Hb ((k & Hk & Hkb) & Ht).
  destruct (add_int_halves k w (c_score c) Hk ltac:(lia) ltac:(lia) ltac:(lia))
    as (s' & Hadd & Hs').
  eexists. split; [unfold add_yes; rewrite Hadd; reflexivity|].
  split; [exists (k + 2 * w); split; [exact Hs' | lia] | cbn [c_total]; lia].
Qed.

Lemma add_partial_good (b n j : Z) (points : outcome num) (c : category) :
  points = Returned (Float (halves j)) -> j = 0 \/ j = 1 -> b + 2 < 2 ^ 53 ->
  good_cat b c ->
  exists c', add_partial n points c = Returned c' /\ good_cat (b + 2) c'.
Proof.
  intros -> Hj Hb ((k & Hk & Hkb) & Ht).
  pose proof (add_float_halves k j (c_score c) Hk ltac:(lia) ltac:(lia) ltac:(lia)) as Hadd.
  eexists. split; [unfold add_partial; cbn [bind]; rewrite Hadd; reflexivity|].
  split; [exists (k + j); split; [now right | lia] | cbn [c_total]; lia].
Qed.

Lemma add_no_good (b : Z) (c : category) :
  good_cat b c -> exists c', add_no c = Returned c' /\ good_cat b c'.
Proof. intros Hc. eexists. split; [reflexivity|exact Hc]. Qed.

(** *** The loop over the test file *)

Lemma count_instructs (b : Z) (l : list string) (cats db : gmap string category) :
  good_dict b cats -> good_dict b db -> forallb known l = true ->
  exists cats' db',
    foldM (fun '(cats, db) task_cat =>
             let* cats := at_key task_cat (add_total 1) cats in
             let* db := at_key task_cat (add_total 1) db in
             Returned (cats, db)) l (cats, db)
    = Returned (cats', db')
    /\ good_dict (b + Z.of_nat (length l)) cats'
    /\ good_dict (b + Z.of_nat (length l)) db'.
Proof.
  revert b cats db. induction l as [|task_cat l IH]; intros b cats db Hc Hd Hl.
  - exists cats, db. cbn [foldM length]. rewrite Z.add_0_r. auto.
  - cbn [forallb] in Hl. apply andb_true_iff in Hl as [Hk Hl].
    destruct (at_key_good b (b + 1) (add_total 1) task_cat cats Hc Hk ltac:(lia))
      as (cats1 & Hrun1 & Hc1); [intros c; apply add_total_good; lia|].
    destruct (at_key_good b (b + 1) (add_total 1) task_cat db Hd Hk ltac:(lia))
      as (db1 & Hrun2 & Hd1); [intros c; apply add_total_good; lia|].
    destruct (IH (b + 1) cats1 db1 Hc1 Hd1 Hl) as (cats' & db' & Hrun & Hc' & Hd').
    exists cats', db'. cbn [foldM]. rewrite Hrun1. cbn [bind]. rewrite Hrun2. cbn [bind].
    rewrite Hrun. replace (b + Z.of_nat (length (task_cat :: l)))
      with (b + 1 + Z.of_nat (length l)) by (cbn [length]; lia). auto.
Qed.

Definition corpus_size (test_datas : list test_data) : Z :=
  Z.of_nat (list_sum (List.map (fun d => length (ui_instruct d)) test_datas)).

Lemma corpus_size_cons (data : test_data) (test_datas : list test_data) :
  corpus_size (data :: test_datas)
  = Z.of_nat (length (ui_instruct data)) + corpus_size test_datas.
Proof.
  unfold corpus_size. cbn [List.map].
  change (list_sum (?x :: ?l)) with (x + list_sum l)%nat. lia.
Qed.

Lemma count_datas (b : Z) (test_datas : list test_data) (st : state) :
  good_dict b (categories st) -> good_dict b (db_categories st) ->
  forallb known_data test_datas = true ->
  exists cats db,
    foldM count_data test_datas st
    = Returned (State (total st + corpus_size test_datas) (score st) (yes_num st)
                      (partial_num st) (no_num st) (db_score st) (db_yes_num st)
                      (db_partial_num st) cats db (printed st))
    /\ good_dict (b + 2 * corpus_size test_datas) cats
    /\ good_dict (b + 2 * corpus_size test_datas) db.
Proof.
  revert b st. induction test_datas as [|data test_datas IH]; intros b st Hc Hd Hl.
  - exists (categories st), (db_categories st). cbn [foldM].
    change (corpus_size []) with 0. rewrite Z.add_0_r, Z.mul_0_r, Z.add_0_r.
    destruct st; auto.
  - cbn [forallb] in Hl. apply andb_true_iff in Hl as [Hk Hl].
    apply andb_true_iff in Hk as [Hcat Hui].
    set (n := Z.of_nat (length (ui_instruct data))).
    destruct (at_key_good b (b + n) (add_total n) (primary_category data) (categories st)
                Hc Hcat ltac:(lia)) as (cats1 & Hrun1 & Hc1);
      [intros c; apply add_total_good; lia|].
    destruct (at_key_good b (b + n) (add_total n) (primary_category data)
                (db_categories st) Hd Hcat ltac:(lia)) as (db1 & Hrun2 & Hd1);
      [intros c; apply add_total_good; lia|].
    destruct (count_instructs (b + n) (ui_instruct data) cats1 db1 Hc1 Hd1 Hui)
      as (cats2 & db2 & Hrun3 & Hc2 & Hd2). fold n in Hc2, Hd2.
    destruct (IH (b + n + n)
                (State (total st + n) (score st) (yes_num st) (partial_num st)
                       (no_num st) (db_score st) (db_yes_num st) (db_partial_num st)
                       cats2 db2 (printed st)) Hc2 Hd2 Hl)
      as (cats & db & Hrun & Hc' & Hd').
    exists cats, db. cbn [foldM]. unfold count_data at 1. fold n.
    rewrite Hrun1. cbn [bind]. rewrite Hrun2. cbn [bind]. rewrite Hrun3. cbn [bind].
    rewrite Hrun. cbn [total score yes_num partial_num no_num db_score db_yes_num
      db_partial_num printed]. rewrite corpus_size_cons. fold n.
    replace (total st + n + corpus_size test_datas)
      with (total st + (n + corpus_size test_datas)) by lia.
    replace (b + 2 * (n + corpus_size test_datas))
      with (b + n + n + 2 * corpus_size test_datas) by lia.
    auto.
Qed.

(** *** The loop over the result directories *)

Definition inv (b : Z) (st : state) : Prop :=
  good_dict b (categories st) /\ good_dict b (db_categories st)
  /\ is_halves (2 * yes_num st + partial_num st) (score st)
  /\ (exists k, is_halves k (db_score st) /\ 0 <= k <= b)
  /\ 0 <= yes_num st /\ 0 <= partial_num st /\ 0 <= no_num st
  /\ 0 <= db_yes_num st <= yes_num st /\ 0 <= db_partial_num st <= partial_num st
  /\ 2 * yes_num st + partial_num st + no_num st <= b.

Lemma inv_le (b b' : Z) (st : state) : b <= b' -> inv b st -> inv b' st.
Proof.
  intros Hb (Hc & Hd & Hs & (kd & Hds & Hkd) & H). unfold inv.
  split; [exact (good_dict_le b b' _ Hb Hc)|].
  split; [exact (good_dict_le b b' _ Hb Hd)|].
  split; [exact Hs|]. split; [exists kd; split; [exact Hds | lia]|]. lia.
Qed.

Ltac split_all := repeat match goal with |- _ /\ _ => split end.

Lemma number_cons (p : verdict -> bool) (x : task) (tasks : list task) :
  number p (x :: tasks) = number p [x] + number p tasks.
Proof.
  unfold number, verdicts. cbn [flat_map]. rewrite app_nil_r, List.filter_app, length_app.
  lia.
Qed.

Lemma number_one (p : verdict -> bool) (x : task) :
  number p [x]
  = match interact_messages x with
    | Some data => if p (verdict_of (last_assistant_text data)) then 1 else 0
    | None => 0
    end.
Proof.
  unfold number, verdicts. cbn [flat_map]. rewrite app_nil_r.
  destruct (interact_messages x) as [data|]; [|reflexivity].
  cbn [List.filter]. now destruct (p _).
Qed.

Lemma skipped_cons (x : task) (tasks : list task) :
  skipped (x :: tasks) = skipped [x] ++ skipped tasks.
Proof. unfold skipped. cbn [flat_map]. now rewrite app_nil_r. Qed.

Lemma count_task_step (b : Z) (st : state) (x : task) :
  inv b st -> known_task x = true -> b + 4 < 2 ^ 52 ->
  exists st',
    count_task st x = Returned st' /\ inv (b + 4) st'
    /\ total st' = total st
    /\ yes_num st' = yes_num st + number is_yes [x]
    /\ partial_num st' = partial_num st + number is_partial [x]
    /\ no_num st' = no_num st + number is_no [x]
    /\ printed st' = printed st ++ skipped [x].
Proof.
  intros Hinv Hx Hsmall.
  rewrite !number_one. unfold count_task, known_task, skipped in *. cbn [flat_map].
  destruct (interact_messages x) as [data|].
  2:{ eexists. split; [reflexivity|].
      split; [exact (inv_le b (b + 4) st ltac:(lia) Hinv)|].
      cbn [total yes_num partial_num no_num printed]. rewrite app_nil_r, !Z.add_0_r.
      split_all; reflexivity. }
  destruct Hinv as (Hc & Hd & Hs & (kd & Hds & Hkd) & Hy & Hp & Hn & Hdy & Hdp & Hb).
  destruct (task_categories x) as [[cat task_cat]|]; [|discriminate Hx].
  apply andb_true_iff in Hx as [Hcat Htc]. cbn [bind app]. rewrite app_nil_r.
  set (w := match db_judgement x with
            | Some j => if (j =? "YES")%string then 1 else 0
            | None => 0
            end).
  assert (Hw : w = 0 \/ w = 1).
  { subst w. destruct (db_judgement x) as [j|]; [destruct (j =? "YES")%string|]; auto. }
  destruct (verdict_of (last_assistant_text data)); cbn [is_yes is_partial is_no].
  - (* YES *)
    destruct (add_int_halves _ 1 (score st) Hs ltac:(lia) ltac:(lia) ltac:(lia))
      as (s' & Hadd & Hs').
    destruct (add_int_halves kd w (db_score st) Hds ltac:(lia) ltac:(lia) ltac:(lia))
      as (ds' & Hdadd & Hds').
    destruct (at_key_good b (b + 2) (add_yes 1) cat (categories st) Hc Hcat ltac:(lia))
      as (c1 & Hr1 & Hc1); [intros c; apply add_yes_good; auto; lia|].
    destruct (at_key_good (b + 2) (b + 4) (add_yes 1) task_cat c1 Hc1 Htc ltac:(lia))
      as (c2 & Hr2 & Hc2).
    { intros c Hgc. destruct (add_yes_good (b + 2) 1 c) as (c' & ? & ?); auto; try lia.
      exists c'. split; [assumption|]. now replace (b + 4) with (b + 2 + 2) by lia. }
    destruct (at_key_good b (b + 2) (add_yes w) cat (db_categories st) Hd Hcat ltac:(lia))
      as (d1 & Hr3 & Hd1); [intros c; apply add_yes_good; auto; lia|].
    destruct (at_key_good (b + 2) (b + 4) (add_yes w) task_cat d1 Hd1 Htc ltac:(lia))
      as (d2 & Hr4 & Hd2).
    { intros c Hgc. destruct (add_yes_good (b + 2) w c) as (c' & ? & ?); auto; try lia.
      exists c'. split; [assumption|]. now replace (b + 4) with (b + 2 + 2) by lia. }
    rewrite Hadd. cbn [bind]. rewrite Hdadd. cbn [bind]. rewrite Hr1. cbn [bind].
    rewrite Hr2. cbn [bind]. rewrite Hr3. cbn [bind]. rewrite Hr4. cbn [bind].
    eexists. split; [reflexivity|].
    cbn [total yes_num partial_num no_num printed score db_score db_yes_num
      db_partial_num categories db_categories].
    unfold inv. cbn [total yes_num partial_num no_num printed score db_score db_yes_num
      db_partial_num categories db_categories].
    split_all; try lia; try assumption; try reflexivity.
    + now replace (2 * (yes_num st + 1) + partial_num st)
        with (2 * yes_num st + partial_num st + 2 * 1) by lia.
    + exists (kd + 2 * w). split; [exact Hds' | lia].
  - (* PARTIAL *)
    rewrite !(mul_weight_half w Hw). change (Float half) with (Float (halves 1)).
    pose proof (add_float_halves _ 1 (score st) Hs ltac:(lia) ltac:(lia) ltac:(lia)) as Hadd.
    pose proof (add_float_halves kd w (db_score st) Hds ltac:(lia) ltac:(lia) ltac:(lia))
      as Hdadd.
    destruct (at_key_good b (b + 2) (add_partial 1 (Returned (Float (halves 1)))) cat
                (categories st) Hc Hcat ltac:(lia)) as (c1 & Hr1 & Hc1).
    { intros c. apply (add_partial_good b 1 1); auto; lia. }
    destruct (at_key_good (b + 2) (b + 4) (add_partial 1 (Returned (Float (halves 1))))
                task_cat c1 Hc1 Htc ltac:(lia)) as (c2 & Hr2 & Hc2).
    { intros c Hgc.
      destruct (add_partial_good (b + 2) 1 1 (Returned (Float (halves 1))) c)
        as (c' & ? & ?); auto; try lia.
      exists c'. split; [assumption|]. now replace (b + 4) with (b + 2 + 2) by lia. }
    destruct (at_key_good b (b + 2) (add_partial w (Returned (Float (halves w)))) cat
                (db_categories st) Hd Hcat ltac:(lia)) as (d1 & Hr3 & Hd1).
    { intros c. apply (add_partial_good b w w); auto; lia. }
    destruct (at_key_good (b + 2) (b + 4) (add_partial w (Returned (Float (halves w))))
                task_cat d1 Hd1 Htc ltac:(lia)) as (d2 & Hr4 & Hd2).
    { intros c Hgc.
      destruct (add_partial_good (b + 2) w w (Returned (Float (halves w))) c)
        as (c' & ? & ?); auto; try lia.
      exists c'. split; [assumption|]. now replace (b + 4) with (b + 2 + 2) by lia. }
    rewrite Hadd. cbn [bind]. rewrite Hdadd. cbn [bind]. rewrite Hr1. cbn [bind].
    rewrite Hr2. cbn [bind]. rewrite Hr3. cbn [bind]. rewrite Hr4. cbn [bind].
    eexists. split; [reflexivity|].
    unfold inv. cbn [total yes_num partial_num no_num printed score db_score db_yes_num
      db_partial_num categories db_categories].
    split_all; try lia; try assumption; try reflexivity.
    + right. f_equal. f_equal. lia.
    + exists (kd + w). split; [now right | lia].
  - (* NO *)
    destruct (at_key_good b (b + 2) add_no cat (categories st) Hc Hcat ltac:(lia))
      as (c1 & Hr1 & Hc1).
    { intros c Hgc. destruct (add_no_good b c Hgc) as (c' & Hrun & Hgc').
      exists c'. split; [exact Hrun | exact (good_cat_le b (b + 2) _ ltac:(lia) Hgc')]. }
    destruct (at_key_good (b + 2) (b + 4) add_no task_cat c1 Hc1 Htc ltac:(lia))
      as (c2 & Hr2 & Hc2).
    { intros c Hgc. destruct (add_no_good (b + 2) c Hgc) as (c' & Hrun & Hgc').
      exists c'. split; [exact Hrun | exact (good_cat_le (b + 2) (b + 4) _ ltac:(lia) Hgc')]. }
    rewrite Hr1. cbn [bind]. rewrite Hr2. cbn [bind].
    eexists. split; [reflexivity|].
    cbn [total yes_num partial_num no_num printed score db_score db_yes_num
      db_partial_num categories db_categories].
    unfold inv. cbn [total yes_num partial_num no_num printed score db_score db_yes_num
      db_partial_num categories db_categories].
    split_all; try lia; try assumption; try reflexivity.
    + exact (good_dict_le b (b + 4) _ ltac:(lia) Hd).
    + exists kd. split; [exact Hds | lia].
Qed.

Lemma count_tasks (tasks : list task) (b : Z) (st : state) :
  inv b st -> forallb known_task tasks = true ->
  b + 4 * Z.of_nat (length tasks) < 2 ^ 52 ->
  exists st',
    foldM count_task tasks st = Returned st'
    /\ inv (b + 4 * Z.of_nat (length tasks)) st'
    /\ total st' = total st
    /\ yes_num st' = yes_num st + number is_yes tasks
    /\ partial_num st' = partial_num st + number is_partial tasks
    /\ no_num st' = no_num st + number is_no tasks
    /\ printed st' = printed st ++ skipped tasks.
Proof.
  revert b st. induction tasks as [|x tasks IH]; intros b st Hinv Hknown Hsmall.
  - exists st. cbn [foldM]. change (skipped []) with (@nil string).
    change (number is_yes []) with 0. change (number is_partial []) with 0.
    change (number is_no []) with 0.
    replace (b + 4 * Z.of_nat (length (@nil task))) with b by (cbn [length]; lia).
    rewrite app_nil_r, !Z.add_0_r. split_all; auto.
  - cbn [forallb] in Hknown. apply andb_true_iff in Hknown as [Hx Hknown].
    cbn [length] in Hsmall.
    destruct (count_task_step b st x Hinv Hx ltac:(lia))
      as (st1 & Hrun1 & Hinv1 & Ht1 & Hy1 & Hp1 & Hn1 & Hpr1).
    destruct (IH (b + 4) st1 Hinv1 Hknown ltac:(lia))
      as (st' & Hrun & Hinv' & Ht & Hy & Hp & Hn & Hpr).
    exists st'. cbn [foldM]. rewrite Hrun1. cbn [bind].
    rewrite (number_cons is_yes), (number_cons is_partial), (number_cons is_no),
      skipped_cons.
    split_all; try lia; try congruence.
    + replace (b + 4 * Z.of_nat (length (x :: tasks)))
        with (b + 4 + 4 * Z.of_nat (length tasks)) by (cbn [length]; lia).
      exact Hinv'.
    + rewrite Hpr, Hpr1. now rewrite app_assoc.
Qed.

(** *** The figures of the table *)

Lemma percent_int (n t : Z) :
  Z.abs n < 2 ^ 53 -> 0 < t < 2 ^ 53 ->
  percent (Int n) t
  = Returned (format_1f (SFmul prec emax (SFdiv prec emax (of_int n) (of_int t))
                                         (of_int 100))).
Proof.
  intros Hn Ht. unfold percent, rate. rewrite truediv_int by assumption.
  cbn [bind]. rewrite mul_100. reflexivity.
Qed.

Lemma percent_halves (k t : Z) (s : num) :
  is_halves k s -> 0 <= k < 2 ^ 53 -> 0 < t < 2 ^ 52 ->
  percent s t
  = Returned (format_1f (SFmul prec emax (SFdiv prec emax (halves k) (of_int t))
                                         (of_int 100))).
Proof.
  intros Hs Hk Ht. unfold percent, rate. rewrite (truediv_halves k t s) by assumption.
  cbn [bind]. rewrite mul_100. reflexivity.
Qed.

Lemma accuracy_cell_returns (b : Z) (d : gmap string category) (cat : string) :
  good_dict b d -> b < 2 ^ 52 -> known cat = true ->
  exists cell, accuracy_cell d cat = Returned cell.
Proof.
  intros Hd Hb Hcat. destruct (Hd cat Hcat) as (c & Hc & (k & Hk & Hkb) & Ht).
  unfold accuracy_cell. rewrite Hc. destruct (0 <? c_total c) eqn:E.
  - apply Z.ltb_lt in E. unfold rate.
    rewrite (truediv_halves k (c_total c) (c_score c)) by (assumption || lia).
    cbn [bind]. rewrite mul_100. cbn [bind]. eexists. reflexivity.
  - eexists. reflexivity.
Qed.

Lemma mapM_returns {A B} (f : A -> outcome B) (l : list A) :
  (forall a, In a l -> exists b, f a = Returned b) ->
  exists bs, mapM f l = Returned bs.
Proof.
  induction l as [|a l IH]; intros Hf; [now exists []|].
  destruct (Hf a (or_introl eq_refl)) as (b & Hb).
  destruct IH as (bs & Hbs); [intros a' Ha'; apply Hf; now right|].
  exists (b :: bs). cbn [mapM]. rewrite Hb. cbn [bind]. rewrite Hbs. reflexivity.
Qed.

Lemma all_categories_known (cat : string) : In cat all_categories -> known cat = true.
Proof.
  intros H. assert (Hall : forallb known all_categories = true) by reflexivity.
  rewrite forallb_forall in Hall. exact (Hall cat H).
Qed.

(** C6. For a test file of [total] tasks, [0 < total], whose categories
    are among the six of the module, and result directories that resolve
    to such categories (both numbers below [2 ^ 48]): with [yes], [partial]
    and [no] the numbers of YES, PARTIAL and other verdicts, the score that
    [compute_acc] accumulates is the float [yes * 1 + partial * 0.5],
    exactly; the call returns, having printed the notices of the
    directories it skipped, [start_failed: total - yes - partial - no], the
    path of [table.md] and the table, and having written the table, whose
    first row of figures shows the four numbers, [total], and, each with
    one digit after the point, the four rates [n / total * 100] and the
    accuracy [score / total * 100], all of them computed on floats. *)
Theorem compute_acc_spec
  (in_dir : string) (test_datas : list test_data) (tasks : list task) :
  let total := corpus_size test_datas in
  let yes := number is_yes tasks in
  let partial := number is_partial tasks in
  let no := number is_no tasks in
  let start_failed := total - yes - partial - no in
  let score := halves (2 * yes + partial) in
  let shown (x : spec_float) : string :=
    format_1f (SFmul prec emax (SFdiv prec emax x (of_int total)) (of_int 100)) in
  0 < total < 2 ^ 48 -> Z.of_nat (length tasks) < 2 ^ 48 ->
  forallb known_data test_datas = true -> forallb known_task tasks = true ->
  (value score == inject_Z yes * 1 + inject_Z partial * (1 # 2))%Q
  /\ exists (cells db_row : string),
       let table :=
         table_header +:+ table_rule
         +:+ ("| " +:+ basename in_dir +:+ " | " +:+ str_of_Z yes
              +:+ " | " +:+ str_of_Z partial +:+ " | " +:+ str_of_Z no
              +:+ "  | " +:+ str_of_Z start_failed +:+ " | " +:+ str_of_Z total
              +:+ " | " +:+ shown (of_int yes) +:+ " | " +:+ shown (of_int partial)
              +:+ " | " +:+ shown (of_int no) +:+ " | " +:+ shown (of_int start_failed)
              +:+ " | " +:+ shown score
              +:+ " |" +:+ cells +:+ " |" +:+ String LF "")
         +:+ db_row in
       compute_acc in_dir test_datas tasks
       = Returned
           (Effects (skipped tasks
                     ++ [ "start_failed: " +:+ str_of_Z start_failed;
                          "Saving detailed results to " +:+ join in_dir "table.md"
                          +:+ "...";
                          table ])
                    table).
Proof.
  intros total yes partial no start_failed score shown Htotal Hlen Hdatas Htasks.
  destruct (count_datas 0 test_datas state0 categories0_good categories0_good Hdatas)
    as (cats & db & Hrun1 & Hcats & Hdb).
  fold total in Hrun1, Hcats, Hdb.
  cbn [ComputeAcc.total ComputeAcc.score yes_num partial_num no_num
    db_score db_yes_num db_partial_num printed state0] in Hrun1.
  rewrite Z.add_0_l in Hrun1, Hcats, Hdb.
  set (st1 := State total (Int 0) 0 0 0 (Int 0) 0 0 cats db []) in Hrun1.
  assert (Hinv1 : inv (2 * total) st1).
  { unfold inv, st1. cbn [categories db_categories ComputeAcc.score yes_num partial_num
      no_num db_score db_yes_num db_partial_num].
    split_all; try lia; try assumption.
    - left. exists 0. split; reflexivity.
    - exists 0. split; [left; exists 0; split; reflexivity | lia]. }
  destruct (count_tasks tasks (2 * total) st1 Hinv1 Htasks ltac:(lia))
    as (st & Hrun2 & Hinv & Ht & Hy & Hp & Hn & Hpr).
  cbn [ComputeAcc.total yes_num partial_num no_num printed st1] in Ht, Hy, Hp, Hn, Hpr.
  rewrite Z.add_0_l in Hy, Hp, Hn. cbn [app] in Hpr.
  fold yes in Hy. fold partial in Hp. fold no in Hn.
  set (B := 2 * total + 4 * Z.of_nat (length tasks)) in Hinv.
  assert (HB : B < 2 ^ 51) by (subst B; lia).
  destruct Hinv as (Hc & Hd & Hs & (kd & Hds & Hkd) & Hy0 & Hp0 & Hn0 & Hdy & Hdp & Hb).
  rewrite Hy, Hp in Hs. rewrite Hy, Hp, Hn in Hb. rewrite Hy in Hy0, Hdy.
  rewrite Hp in Hp0, Hdp. rewrite Hn in Hn0.
  split.
  { subst score. rewrite value_halves by lia. unfold Qeq. cbn. lia. }
  destruct (mapM_returns
              (fun cat =>
                 let* a := accuracy_cell (categories st) cat in
                 let* b := accuracy_cell (db_categories st) cat in
                 Returned (a, b)) all_categories) as (cells & Hcells).
  { intros cat Hin. apply all_categories_known in Hin.
    destruct (accuracy_cell_returns B _ cat Hc ltac:(lia) Hin) as (a & Ha).
    destruct (accuracy_cell_returns B _ cat Hd ltac:(lia) Hin) as (b' & Hb').
    exists (a, b'). rewrite Ha. cbn [bind]. rewrite Hb'. reflexivity. }
  unfold compute_acc. rewrite Hrun1. cbn [bind]. rewrite Hrun2. cbn [bind].
  rewrite Hcells. cbn [bind]. rewrite Ht, Hy, Hp, Hn, Hpr. fold start_failed.
  rewrite (percent_int yes total), (percent_int partial total), (percent_int no total),
    (percent_int start_failed total) by (subst start_failed; lia).
  cbn [bind]. rewrite (percent_halves (2 * yes + partial) total (ComputeAcc.score st))
    by (assumption || lia). cbn [bind].
  rewrite (percent_int (db_yes_num st) total), (percent_int (db_partial_num st) total),
    (percent_int (total - db_yes_num st - db_partial_num st - start_failed) total)
    by (subst start_failed; lia).
  cbn [bind]. rewrite (percent_halves kd total (db_score st)) by (assumption || lia).
  cbn [bind]. eexists _, _. cbv zeta. unfold table_row at 1. reflexivity.
Qed.

Definition says (name text : string) : task :=
  Task name (Returned ("User Interaction", "Functional Testing"))
       (Some [("user", "task"); ("assistant", text)]) None.

(** The run of the specification: 3 YES, 2 PARTIAL, 1 other and 4 tasks
    that never started, out of 10. *)
Definition sample_corpus : list test_data :=
  [ TestData "User Interaction" (repeat "Functional Testing" 4);
    TestData "Data Management" (repeat "Data Display Testing" 6) ].

Definition sample_tasks : list task :=
  [ says "task1_0" "YES"; says "task1_1" "The answer is YES."; says "task1_2" "YES";
    says "task1_3" "PARTIAL"; says "task2_0" "PARTIAL success"; says "task2_1" "NO";
    Task "task2_2" (Raised IndexError) None None ].

Lemma compute_acc_spec_witness :
  (value (halves 8) == inject_Z 3 * 1 + inject_Z 2 * (1 # 2))%Q
  /\ exists cells db_row : string,
       let table :=
         table_header +:+ table_rule
         +:+ ("| demo | 3 | 2 | 1  | 4 | 10 | 30.0 | 20.0 | 10.0 | 40.0 | 40.0 |"
              +:+ cells +:+ " |" +:+ String LF "")
         +:+ db_row in
       compute_acc "/runs/demo" sample_corpus sample_tasks
       = Returned
           (Effects [ "interact_messages.json not found in task2_2, skipping...";
                      "start_failed: 4";
                      "Saving detailed results to /runs/demo/table.md...";
                      table ]
                    table).
Proof.
  exact (compute_acc_spec "/runs/demo" sample_corpus sample_tasks
           ltac:(split; reflexivity) eq_refl eq_refl eq_refl).
Defined.

(** C6 as claimed fails on a run with one YES out of three tasks: the
    table shows an accuracy of 33.3 and no score; the float behind it is
    not a third of a hundred either.  On 57 points out of 100 the float is
    not 57, and is shown as 57.0. *)
Lemma compute_acc_claim_counterexample :
  let third := SFmul prec emax (SFdiv prec emax (of_int 1) (of_int 3)) (of_int 100) in
  let table :=
    table_header +:+ table_rule
    +:+ "| demo | 1 | 0 | 0  | 2 | 3 | 33.3 | 0.0 | 0.0 | 66.7 | 33.3 |0.0 | 33.3 | 0.0 | 33.3 | 0.0 | 0.0 |"
    +:+ String LF
          "| demo (db) | 0 | 0 | 1  | 2 | 3 | 0.0 | 0.0 | 33.3 | 66.7 | 0.0 |0.0 | 0.0 | 0.0 | 0.0 | 0.0 | 0.0 |"
    +:+ String LF "" in
  compute_acc "/runs/demo" [ TestData "User Interaction" (repeat "Functional Testing" 3) ]
              [ says "task1_0" "YES" ]
  = Returned
      (Effects [ "start_failed: 2";
                 "Saving detailed results to /runs/demo/table.md...";
                 table ]
               table)
  /\ third = S754_finite false 4691249611844266 (-47)
  /\ ~ (value third == 100 # 3)%Q
  /\ SFmul prec emax (SFdiv prec emax (of_int 57) (of_int 100)) (of_int 100)
     <> of_int 57
  /\ format_1f (SFmul prec emax (SFdiv prec emax (of_int 57) (of_int 100)) (of_int 100))
     = "57.0".
Proof.
  cbv zeta. split; [vm_compute; reflexivity|]. split; [vm_compute; reflexivity|].
  split; [vm_compute; discriminate|]. split; [vm_compute; discriminate|].
  vm_compute. reflexivity.
Qed.

End ComputeAccFacts.

(** ** [read_file] with an explicit limit *)

Module ReadFileFacts.
Import PyStr PosixPath World Tool ReadFileTool.

(** With a limit below the number of lines every page is flagged. *)
Lemma paginate_truncated (lines : list string) (o L : nat) :
  0 < L < length lines ->
  paginate lines o (Some L)
  = (fold_right String.append "" (firstn L (skipn o lines)), true,
     (Z.of_nat o + 1)%Z,
     Z.min (Z.of_nat o + Z.of_nat (length (firstn L (skipn o lines))))
           (Z.of_nat (length lines)),
     Z.of_nat (length lines)).
Proof.
  intros [HL Hlong]. unfold paginate.
  destruct (L =? 0)%nat eqn:E; [apply Nat.eqb_eq in E; lia|].
  cbn [negb andb]. rewrite (proj2 (Nat.ltb_lt _ _) Hlong), orb_true_r. reflexivity.
Qed.

Section Execute.

Variable strerror : io_error -> string.

Lemma execute_text
  (cwd working_dir : string) (w : world) (p : params) (fp raw : string) (L : Z) :
  validate_params cwd working_dir w p = None ->
  path p = Some fp -> limit p = Some L ->
  files w !! fp = Some raw -> isdir w fp = false -> read_fault w fp = None ->
  is_binary raw = false ->
  (0 < L < Z.of_nat (length (readlines (decode_ignore raw))))%Z ->
  let o := get_or 0%Z (offset p) in
  let lines := readlines (decode_ignore raw) in
  let page := firstn (Z.to_nat L) (skipn (Z.to_nat o) lines) in
  let end_line := Z.min (Z.of_nat (Z.to_nat o) + Z.of_nat (length page))
                        (Z.of_nat (length lines)) in
  execute strerror cwd working_dir w p
  = TextOutput
      (String LF "IMPORTANT: The file content has been truncated."
       +:+ String LF "Status: Showing lines " +:+ str_of_Z (Z.of_nat (Z.to_nat o) + 1)
       +:+ "-" +:+ str_of_Z end_line +:+ " of " +:+ str_of_Z (Z.of_nat (length lines))
       +:+ " total lines."
       +:+ String LF "Action: To read more of the file, you can use the 'offset' and 'limit' parameters in a subsequent 'read_file' call. For example, to read the next section of the file, use offset: "
       +:+ str_of_Z (Z.of_nat (Z.to_nat o)
                     + (end_line - (Z.of_nat (Z.to_nat o) + 1) + 1)) +:+ "."
       +:+ String LF (String LF "--- FILE CONTENT (truncated) ---")
       +:+ String LF (fold_right String.append "" page))
      (fold_right String.append "" page).
Proof.
  intros Hvalid Hpath Hlim Hfile Hdir Hread Hbin HL o lines page end_line.
  unfold execute, _read_text_file_with_pagination, read.
  rewrite Hvalid, Hpath, Hlim. cbn [get_or option_map].
  rewrite Hread, Hdir, Hfile, Hbin. fold o. fold lines.
  rewrite (paginate_truncated lines (Z.to_nat o) (Z.to_nat L)) by (subst lines; lia).
  reflexivity.
Qed.

(** C10. For a text file with more lines than an explicit [limit], every
    page, whatever its offset (none given is 0), is returned as truncated:
    [llmContent] is the notice "IMPORTANT: The file content has been
    truncated. ... Showing lines o+1-end of total ... use offset: next ..."
    followed by the lines of the page, which are [returnDisplay]; on a
    page that ends with the last line of the file the next offset is the
    number of lines of the file; and a read at that offset returns the
    notice (lines total+1-total, next offset total again) with an empty
    content. *)
Theorem read_file_pages_truncated
  (cwd working_dir : string) (w : world) (p : params) (fp raw : string)
  (oo : option Z) (L : Z) :
  validate_params cwd working_dir w p = None ->
  path p = Some fp -> offset p = oo -> limit p = Some L ->
  files w !! fp = Some raw -> isdir w fp = false -> read_fault w fp = None ->
  is_binary raw = false ->
  (0 <= get_or 0 oo)%Z ->
  (0 < L < Z.of_nat (length (readlines (decode_ignore raw))))%Z ->
  let o := get_or 0%Z oo in
  let lines := readlines (decode_ignore raw) in
  let total := Z.of_nat (length lines) in
  let page := firstn (Z.to_nat L) (skipn (Z.to_nat o) lines) in
  let end_line := Z.min (o + Z.of_nat (length page)) total in
  let next_offset := (o + (end_line - (o + 1) + 1))%Z in
  let notice (start_line end_line next_offset : Z) : string :=
    String LF "IMPORTANT: The file content has been truncated."
    +:+ String LF "Status: Showing lines " +:+ str_of_Z start_line
    +:+ "-" +:+ str_of_Z end_line +:+ " of " +:+ str_of_Z total +:+ " total lines."
    +:+ String LF "Action: To read more of the file, you can use the 'offset' and 'limit' parameters in a subsequent 'read_file' call. For example, to read the next section of the file, use offset: "
    +:+ str_of_Z next_offset +:+ "."
    +:+ String LF (String LF "--- FILE CONTENT (truncated) ---") +:+ String LF "" in
  execute strerror cwd working_dir w p
  = TextOutput (notice (o + 1)%Z end_line next_offset +:+ fold_right String.append "" page)
               (fold_right String.append "" page)
  /\ ((o < total <= o + L)%Z -> end_line = total /\ next_offset = total)
  /\ (forall p',
        validate_params cwd working_dir w p' = None ->
        path p' = Some fp -> offset p' = Some total -> limit p' = Some L ->
        execute strerror cwd working_dir w p'
        = TextOutput (notice (total + 1)%Z total total) "").
Proof.
  intros Hvalid Hpath Hoff Hlim Hfile Hdir Hread Hbin Ho HL o lines total page
    end_line next_offset notice.
  split; [|split].
  - rewrite (execute_text cwd working_dir w p fp raw L) by assumption.
    rewrite Hoff. fold o. fold lines. fold page. rewrite Z2Nat.id by exact Ho.
    fold total. fold end_line. fold next_offset. unfold notice.
    rewrite !PyStrFacts.append_assoc. reflexivity.
  - intros [Hlow Hhigh].
    assert (Hpage : Z.of_nat (length page) = (total - o)%Z).
    { subst page total. rewrite length_firstn, length_skipn. lia. }
    subst next_offset end_line. rewrite Hpage. lia.
  - intros p' Hvalid' Hpath' Hoff' Hlim'.
    rewrite (execute_text cwd working_dir w p' fp raw L) by assumption.
    rewrite Hoff'. cbn [get_or]. fold lines. fold total. rewrite Z2Nat.id by lia.
    assert (Hempty : firstn (Z.to_nat L) (skipn (Z.to_nat total) lines) = []).
    { subst total. rewrite Nat2Z.id, skipn_all. apply firstn_nil. }
    rewrite Hempty. cbn [length fold_right].
    replace (Z.min (total + Z.of_nat 0) total) with total by lia.
    replace (total + (total - (total + 1) + 1))%Z with total by lia.
    reflexivity.
Qed.

End Execute.

(** A file of five lines read two lines at a time. *)
Definition five_lines : string :=
  "l1" +:+ String LF ("l2" +:+ String LF ("l3" +:+ String LF
    ("l4" +:+ String LF ("l5" +:+ String LF "")))).

Definition five_lines_world : world :=
  {| files := {[ "/w/a.txt" := five_lines ]}; dirs := {[ "/w" ]};
     read_fault := fun _ => None; mkdir_fault := fun _ => None;
     write_fault := fun _ => None |}.

Definition page_at (o : Z) : params := Params (Some "/w/a.txt") (Some o) (Some 2%Z).

Definition five_lines_notice (shown next_offset : string) : string :=
  String LF "IMPORTANT: The file content has been truncated."
  +:+ String LF "Status: Showing lines " +:+ shown +:+ " of 5 total lines."
  +:+ String LF "Action: To read more of the file, you can use the 'offset' and 'limit' parameters in a subsequent 'read_file' call. For example, to read the next section of the file, use offset: "
  +:+ next_offset +:+ "."
  +:+ String LF (String LF "--- FILE CONTENT (truncated) ---") +:+ String LF "".

Lemma read_file_pages_truncated_witness :
  execute (fun _ => "") "/" "/w" five_lines_world (page_at 4)
  = TextOutput (five_lines_notice "5-5" "5" +:+ "l5" +:+ String LF "")
               ("l5" +:+ String LF "")
  /\ execute (fun _ => "") "/" "/w" five_lines_world (page_at 5)
     = TextOutput (five_lines_notice "6-5" "5") "".
Proof.
  destruct (read_file_pages_truncated (fun _ => "") "/" "/w" five_lines_world (page_at 4)
              "/w/a.txt" five_lines (Some 4%Z) 2
              eq_refl eq_refl eq_refl eq_refl
              ltac:(apply lookup_singleton_eq) eq_refl eq_refl eq_refl
              ltac:(cbn; lia) ltac:(split; reflexivity))
    as (Hpage & _ & Hnext).
  split; [exact Hpage|].
  exact (Hnext (page_at 5) eq_refl eq_refl eq_refl eq_refl).
Defined.

End ReadFileFacts.

(** ** [search_file_content]: the cap on the matches *)

Module GrepToolFacts.
Import PyStr PosixPath World Tool GrepTool.

Section Search.
Variable compile : string -> bool -> option (string -> bool).
Variable compile_error : string -> string.
Variable glob : string -> list string.
Variable tree_at : string -> dir_tree.
Variable cwd working_dir : string.
Variable w : world.

Local Abbreviation validate := (validate_params compile compile_error cwd working_dir w).
Local Abbreviation search_in := (search_files w).
Local Abbreviation found_in := (all_matches w).
Local Abbreviation files_of := (filtered_files glob tree_at cwd working_dir w).
Local Abbreviation run := (run_search compile compile_error glob tree_at cwd working_dir w).
Local Abbreviation exec := (execute compile compile_error glob tree_at cwd working_dir w).

Lemma firstn_app_short {A} (n : nat) (l1 l2 : list A) :
  length l1 <= n -> firstn n (l1 ++ l2) = l1 ++ firstn (n - length l1) l2.
Proof.
  intros H. rewrite firstn_app, firstn_all2 by exact H. reflexivity.
Qed.

(** The loop returns the first [max_results] matches of the files, counts
    the matches of the files it read, and flags the search as truncated
    whenever there are more matches than the cap. *)
Lemma search_files_spec (search : string -> bool) (max_results : Z)
  (files : list string) (st : scan) :
  (0 <= max_results)%Z ->
  search_truncated st = false ->
  total_matches_found st = length (matches st) ->
  (Z.of_nat (length (matches st)) <= max_results)%Z ->
  let r := search_in search max_results files st in
  let every := matches st ++ found_in search files in
  matches r = firstn (Z.to_nat max_results) every
  /\ length (matches r) <= total_matches_found r <= length every
  /\ (search_truncated r = false -> matches r = every)
  /\ ((max_results < Z.of_nat (length every))%Z -> search_truncated r = true).
Proof.
  intros Hcap. revert st.
  induction files as [|file_path rest IH]; intros st Hflag Htotal Hlen; cbv zeta.
  - cbn [search_files all_matches flat_map]. rewrite app_nil_r.
    rewrite firstn_all2 by lia.
    split; [reflexivity|]. split; [lia|]. split; [reflexivity|]. lia.
  - cbn [search_files all_matches flat_map]. fold (found_in search rest).
    destruct (max_results <=? Z.of_nat (length (matches st)))%Z eqn:Efull.
    + apply Z.leb_le in Efull. cbn [matches total_matches_found search_truncated].
      rewrite firstn_app_short by lia.
      replace (Z.to_nat max_results - length (matches st)) with 0 by lia.
      cbn [firstn]. rewrite app_nil_r, length_app.
      split; [reflexivity|]. split; [lia|]. split; [discriminate | reflexivity].
    + apply Z.leb_gt in Efull. destruct (read w file_path) as [e|raw].
      * cbn [app].
        exact (IH (Scan (matches st) (S (files_searched st))
                     (total_matches_found st) (search_truncated st))
                  Hflag Htotal Hlen).
      * cbv zeta.
        set (file_matches :=
               find_in_lines search file_path 1 (readlines (decode_ignore raw))).
        destruct (max_results - Z.of_nat (length (matches st)) <=? 0)%Z eqn:E0;
          [apply Z.leb_le in E0; lia|].
        destruct (max_results - Z.of_nat (length (matches st))
                  <? Z.of_nat (length file_matches))%Z eqn:Ecut.
        -- apply Z.ltb_lt in Ecut.
           cbn [matches total_matches_found search_truncated].
           rewrite firstn_app_short by lia.
           replace (Z.to_nat max_results - length (matches st))
             with (Z.to_nat (max_results - Z.of_nat (length (matches st)))) by lia.
           rewrite firstn_app.
           replace (Z.to_nat (max_results - Z.of_nat (length (matches st)))
                    - length file_matches) with 0 by lia.
           cbn [firstn]. rewrite app_nil_r, !length_app, length_firstn.
           split; [reflexivity|]. split; [lia|]. split; [discriminate | reflexivity].
        -- apply Z.ltb_ge in Ecut.
           specialize (IH (Scan (matches st ++ file_matches) (S (files_searched st))
                             (total_matches_found st + length file_matches)
                             (search_truncated st))).
           cbn [matches total_matches_found search_truncated] in IH.
           rewrite <- app_assoc in IH. apply IH.
           ++ exact Hflag.
           ++ rewrite length_app. lia.
           ++ rewrite length_app. lia.
Qed.

(** Parameters that pass the validation give a cap from 1 to 100. *)
Lemma validated_cap (p : params) (n : Z) :
  validate p = None -> cap p = Some n -> (1 <= n <= 100)%Z.
Proof.
  unfold validate_params, cap.
  destruct (missing_required _); [discriminate|].
  destruct (_ || _); [discriminate|].
  destruct (compile _ false); [|discriminate].
  destruct (match path p with Some _ => _ | None => _ end); [discriminate|].
  destruct (maxResults p) as [[z|[]| |shown]|]; try discriminate.
  - destruct ((z <? 1)%Z || (100 <? z)%Z) eqn:E; [discriminate|].
    apply orb_false_iff in E as [E1 E2]. apply Z.ltb_ge in E1, E2.
    intros _ H. injection H as <-. lia.
  - intros _ H. injection H as <-. lia.
  - intros _ H. injection H as <-. lia.
Qed.

Lemma validated_compiles (p : params) :
  validate p = None -> exists search, compile (get_or "" (pattern p)) false = Some search.
Proof.
  unfold validate_params.
  destruct (missing_required _); [discriminate|].
  destruct (_ || _); [discriminate|].
  destruct (compile _ false) as [search|]; [eauto | discriminate].
Qed.


End Search.

(** Two files below [/w]: twenty lines with a TODO in [a.txt] and five in
    [b.txt]; the pattern is searched as plain text. *)
Definition todo_lines (n : nat) : string :=
  fold_right String.append "" (repeat ("x = 1  # TODO" +:+ String LF "") n).

Definition todo_world : world :=
  {| files := {[ "/w/a.txt" := todo_lines 20; "/w/b.txt" := todo_lines 5 ]};
     dirs := {[ "/w" ]};
     read_fault := fun _ => None; mkdir_fault := fun _ => None;
     write_fault := fun _ => None |}.

Definition plain_search (pat : string) (ignore_case : bool) : option (string -> bool) :=
  Some (contains pat).

Definition todo_tree (search_path : string) : dir_tree :=
  DirTree [] ["a.txt"; "b.txt"].

Definition todo_search : params := Params (Some "TODO") None None None.

Definition todo_run (p : params) : output :=
  execute plain_search (fun _ => "") (fun _ => []) todo_tree "/" "/w" todo_world p.



End GrepToolFacts.

(** ** [DBWatcher]: what a call reads and where the checkpoint lands *)

Module DBWatcherFacts.
Import PyStr DBWatcher.

Section Watcher.
Variable _SQL_RE_search : string -> bool.

Local Abbreviation get_new_entries := (DBWatcher.get_new_entries _SQL_RE_search).
Local Abbreviation filter_sql_entries := (DBWatcher.filter_sql_entries _SQL_RE_search).
Local Abbreviation sql_row := (DBWatcher.sql_row _SQL_RE_search).

(** The loop passes over the first [start_pos] rows, whatever they hold,
    and returns an entry for every later row that has both columns. *)
Lemma read_rows_spec (idx_ts idx_msg start_pos pos : nat) (rows : list (list string)) :
  read_rows idx_ts idx_msg start_pos pos rows
  = entries_of idx_ts idx_msg (skipn (start_pos - pos) rows).
Proof.
  revert pos. induction rows as [|row rest IH]; intros pos.
  - now rewrite skipn_nil.
  - cbn [read_rows]. destruct (start_pos <=? pos)%nat eqn:E.
    + apply Nat.leb_le in E. replace (start_pos - pos) with 0 by lia.
      cbn [skipn entries_of flat_map].
      destruct (nth_error row idx_ts), (nth_error row idx_msg);
        rewrite IH; cbn [app];
        (replace (start_pos - S pos) with 0 by lia) || (replace (start_pos - pos) with 0 by lia);
        reflexivity.
    + apply Nat.leb_gt in E. rewrite IH.
      replace (start_pos - pos) with (S (start_pos - S pos)) by lia. reflexivity.
Qed.

Lemma entries_of_app (idx_ts idx_msg : nat) (a b : list (list string)) :
  entries_of idx_ts idx_msg (a ++ b)
  = entries_of idx_ts idx_msg a ++ entries_of idx_ts idx_msg b.
Proof. unfold entries_of. apply flat_map_app. Qed.

Lemma entries_of_length (idx_ts idx_msg : nat) (rows : list (list string)) :
  length (entries_of idx_ts idx_msg rows)
  = length (List.filter (wide idx_ts idx_msg) rows).
Proof.
  induction rows as [|row rest IH]; [reflexivity|].
  cbn [entries_of flat_map List.filter]. fold (entries_of idx_ts idx_msg rest).
  unfold wide at 1.
  destruct (nth_error row idx_ts) as [ts|] eqn:Ets.
  - assert (Hts : idx_ts < length row) by (apply nth_error_Some; congruence).
    rewrite (proj2 (Nat.ltb_lt _ _) Hts).
    destruct (nth_error row idx_msg) as [msg|] eqn:Emsg.
    + assert (Hm : idx_msg < length row) by (apply nth_error_Some; congruence).
      rewrite (proj2 (Nat.ltb_lt _ _) Hm). cbn. now rewrite IH.
    + apply nth_error_None in Emsg.
      rewrite (proj2 (Nat.ltb_ge _ _) Emsg). cbn. exact IH.
  - apply nth_error_None in Ets.
    rewrite (proj2 (Nat.ltb_ge _ _) Ets). cbn. exact IH.
Qed.

Lemma entries_of_wide (idx_ts idx_msg : nat) (rows : list (list string)) :
  forallb (wide idx_ts idx_msg) rows = true ->
  length (entries_of idx_ts idx_msg rows) = length rows.
Proof.
  intros H. rewrite entries_of_length.
  induction rows as [|row rest IH]; [reflexivity|].
  cbn in *. apply andb_true_iff in H as [Hrow Hrest].
  rewrite Hrow. cbn. now rewrite IH.
Qed.

Lemma filter_length_le {A} (f : A -> bool) (l : list A) :
  length (List.filter f l) <= length l.
Proof.
  induction l as [|x l IH]; [reflexivity|].
  cbn. destruct (f x); cbn; lia.
Qed.

Lemma read_from_table (d : log_dir) (path : string) (start_pos : nat) :
  _read_from d path start_pos
  = match table d path with
    | Raised e => Raised e
    | Returned (idx_ts, idx_msg, data) =>
        Returned (entries_of idx_ts idx_msg (skipn start_pos data))
    end.
Proof.
  unfold _read_from, table. destruct (rows_of d path) as [[|first_row others]|].
  - now rewrite skipn_nil.
  - destruct (layout first_row others) as [[[idx_ts idx_msg] data]|e]; [|reflexivity].
    now rewrite read_rows_spec, Nat.sub_0_r.
  - reflexivity.
Qed.

(** X21. [_read_from(path, start_pos)] returns one entry for each data
    row from index [start_pos] on that has the timestamp and the message
    column, in order; so it returns at most [len(data) - start_pos]
    entries, and exactly that many when these rows all have both columns. *)
Theorem read_from_spec (d : log_dir) (path : string) (start_pos : nat)
  (idx_ts idx_msg : nat) (data : list (list string)) :
  table d path = Returned (idx_ts, idx_msg, data) ->
  exists out,
    _read_from d path start_pos = Returned out
    /\ out = entries_of idx_ts idx_msg (skipn start_pos data)
    /\ length out <= length data - start_pos
    /\ (forallb (wide idx_ts idx_msg) (skipn start_pos data) = true ->
        length out = length data - start_pos).
Proof.
  intros Ht. rewrite read_from_table, Ht. eexists. split; [reflexivity|].
  split; [reflexivity|]. split.
  - rewrite entries_of_length.
    etransitivity; [apply filter_length_le|]. now rewrite length_skipn.
  - intros Hwide. now rewrite entries_of_wide, length_skipn.
Qed.

Lemma table_exists (d : log_dir) (path : string) t :
  table d path = Returned t -> log_exists d path = true.
Proof.
  unfold table, log_exists. destruct (rows_of d path); [reflexivity | discriminate].
Qed.

(** What one call does to the checkpoint. *)
Lemma get_new_entries_step (d : log_dir) (ck : gmap string nat) (path : string)
  (idx_ts idx_msg : nat) (data : list (list string)) :
  dir_exists d = true ->
  latest d (csv_logs d) = Some path ->
  table d path = Returned (idx_ts, idx_msg, data) ->
  let start := Tool.get_or 0 (ck !! path) in
  let out := entries_of idx_ts idx_msg (skipn start data) in
  get_new_entries d ck
  = Returned (filter_sql_entries false out,
              filter (fun kv => log_exists d kv.1 = true)
                     (<[path := start + length out]> ck)).
Proof.
  intros Hdir Hlatest Ht. unfold get_new_entries.
  rewrite Hdir, Hlatest. cbn [negb]. rewrite read_from_table, Ht. reflexivity.
Qed.

(** X22. After a call of [get_new_entries()] the checkpoint of the file
    read is its old value plus the number of rows returned by
    [_read_from]; the checkpoint of every other file that still exists is
    as before; so no checkpoint of an existing file decreases. *)
Theorem get_new_entries_checkpoint (d : log_dir) (ck : gmap string nat) (path : string)
  (idx_ts idx_msg : nat) (data : list (list string)) :
  dir_exists d = true ->
  latest d (csv_logs d) = Some path ->
  table d path = Returned (idx_ts, idx_msg, data) ->
  exists es ck',
    get_new_entries d ck = Returned (es, ck')
    /\ ck' !! path
       = Some (Tool.get_or 0 (ck !! path)
               + length (entries_of idx_ts idx_msg
                           (skipn (Tool.get_or 0 (ck !! path)) data)))
    /\ (forall q, q <> path -> log_exists d q = true -> ck' !! q = ck !! q)
    /\ (forall q v, ck !! q = Some v -> log_exists d q = true ->
          exists v', ck' !! q = Some v' /\ v <= v').
Proof.
  intros Hdir Hlatest Ht.
  rewrite (get_new_entries_step d ck path idx_ts idx_msg data Hdir Hlatest Ht).
  pose proof (table_exists d path _ Ht) as Hex.
  set (start := Tool.get_or 0 (ck !! path)).
  set (out := entries_of idx_ts idx_msg (skipn start data)).
  eexists _, _. split; [reflexivity|].
  assert (Hpath : filter (fun kv : string * nat => log_exists d kv.1 = true)
                    (<[path := start + length out]> ck) !! path
                  = Some (start + length out)).
  { apply map_lookup_filter_Some. split; [apply lookup_insert_eq | exact Hex]. }
  assert (Hother : forall q, q <> path -> log_exists d q = true ->
            filter (fun kv : string * nat => log_exists d kv.1 = true)
              (<[path := start + length out]> ck) !! q = ck !! q).
  { intros q Hq Hqex. destruct (ck !! q) as [v|] eqn:E.
    - apply map_lookup_filter_Some. split; [|exact Hqex].
      now rewrite lookup_insert_ne.
    - apply map_lookup_filter_None. left. now rewrite lookup_insert_ne. }
  split; [exact Hpath|]. split; [exact Hother|].
  intros q v Hv Hqex. destruct (decide (q = path)) as [->|Hq].
  - exists (start + length out). split; [exact Hpath|].
    subst start. rewrite Hv. cbn. lia.
  - exists v. rewrite (Hother q Hq Hqex). auto.
Qed.

(** X23. On a log whose data rows all have the two columns, a second
    [get_new_entries()] with nothing written in between returns no entry
    and leaves the checkpoint as the first call left it. *)
Theorem get_new_entries_settles (d : log_dir) (ck : gmap string nat) (path : string)
  (idx_ts idx_msg : nat) (data : list (list string)) :
  dir_exists d = true ->
  latest d (csv_logs d) = Some path ->
  table d path = Returned (idx_ts, idx_msg, data) ->
  forallb (wide idx_ts idx_msg) data = true ->
  exists es ck',
    get_new_entries d ck = Returned (es, ck')
    /\ get_new_entries d ck' = Returned ([], ck').
Proof.
  intros Hdir Hlatest Ht Hwide.
  rewrite (get_new_entries_step d ck path idx_ts idx_msg data Hdir Hlatest Ht).
  pose proof (table_exists d path _ Ht) as Hex.
  set (start := Tool.get_or 0 (ck !! path)).
  set (out := entries_of idx_ts idx_msg (skipn start data)).
  set (ck' := filter (fun kv : string * nat => log_exists d kv.1 = true)
                (<[path := start + length out]> ck)).
  exists (filter_sql_entries false out), ck'. split; [reflexivity|].
  rewrite (get_new_entries_step d ck' path idx_ts idx_msg data Hdir Hlatest Ht).
  assert (Hpath : ck' !! path = Some (start + length out)).
  { apply map_lookup_filter_Some. split; [apply lookup_insert_eq | exact Hex]. }
  rewrite Hpath. cbn [Tool.get_or].
  assert (Hlen : length out = length data - start).
  { subst out. rewrite entries_of_wide, length_skipn; [reflexivity|].
    rewrite <- (firstn_skipn start data), forallb_app in Hwide.
    now apply andb_true_iff in Hwide as [_ H]. }
  assert (Hnone : skipn (start + length out) data = []).
  { apply skipn_all2. lia. }
  rewrite Hnone. cbn [entries_of flat_map length filter_sql_entries List.filter].
  rewrite Nat.add_0_r. f_equal. f_equal.
  rewrite insert_id by exact Hpath.
  apply map_filter_id. intros q v Hq.
  apply map_lookup_filter_Some in Hq as [_ Hq]. exact Hq.
Qed.

Lemma layout_app (first_row : list string) (others new : list (list string))
  (idx_ts idx_msg : nat) (data : list (list string)) :
  layout first_row others = Returned (idx_ts, idx_msg, data) ->
  layout first_row (others ++ new) = Returned (idx_ts, idx_msg, data ++ new).
Proof.
  unfold layout. destruct first_row as [|first_cell cells]; [discriminate|].
  destruct (_looks_like_log_row first_cell) as [[|]|e]; try discriminate.
  - intros H. injection H as <- <- <-. reflexivity.
  - destruct (index_either "ts" "log_time" _) as [i|e]; [|discriminate].
    destruct (index_either "msg" "message" _) as [j|e]; [|discriminate].
    intros H. injection H as <- <- <-. reflexivity.
Qed.

Lemma filter_sql_all (idx_ts idx_msg : nat) (rows : list (list string)) :
  forallb (wide idx_ts idx_msg) rows = true ->
  forallb (sql_row idx_msg) rows = true ->
  filter_sql_entries false (entries_of idx_ts idx_msg rows)
  = entries_of idx_ts idx_msg rows.
Proof.
  induction rows as [|row rest IH]; [reflexivity|].
  cbn [forallb]. intros Hw Hs.
  apply andb_true_iff in Hw as [Hw Hwr]. apply andb_true_iff in Hs as [Hs Hsr].
  cbn [entries_of flat_map]. fold (entries_of idx_ts idx_msg rest).
  unfold sql_row in Hs.
  destruct (nth_error row idx_ts) as [ts|]; [|exact (IH Hwr Hsr)].
  destruct (nth_error row idx_msg) as [msg|]; [|discriminate].
  cbn [app]. unfold filter_sql_entries in *. cbn [List.filter message].
  rewrite Hs. cbn [orb]. f_equal. exact (IH Hwr Hsr).
Qed.

(** X24. When the checkpoint of the most recent log equals its number of
    data rows and [N] rows with both columns are appended to that log, one
    [get_new_entries()] reads exactly these rows and advances the
    checkpoint by [N]; it returns those of them whose message holds an
    SQL keyword, all [N] when every one does. *)
Theorem get_new_entries_appended (d d' : log_dir) (ck : gmap string nat) (path : string)
  (first_row : list string) (others new : list (list string))
  (idx_ts idx_msg : nat) (data : list (list string)) :
  dir_exists d' = true ->
  latest d' (csv_logs d') = Some path ->
  rows_of d path = Some (first_row :: others) ->
  rows_of d' path = Some (first_row :: others ++ new) ->
  table d path = Returned (idx_ts, idx_msg, data) ->
  ck !! path = Some (length data) ->
  forallb (wide idx_ts idx_msg) new = true ->
  exists es ck',
    get_new_entries d' ck = Returned (es, ck')
    /\ es = filter_sql_entries false (entries_of idx_ts idx_msg new)
    /\ ck' !! path = Some (length data + length new)
    /\ (forallb (sql_row idx_msg) new = true -> length es = length new).
Proof.
  intros Hdir Hlatest Hrows Hrows' Ht Hck Hwide.
  assert (Ht' : table d' path = Returned (idx_ts, idx_msg, data ++ new)).
  { unfold table in *. rewrite Hrows in Ht. rewrite Hrows'. now apply layout_app. }
  rewrite (get_new_entries_step d' ck path idx_ts idx_msg (data ++ new) Hdir Hlatest Ht').
  rewrite Hck. cbn [Tool.get_or].
  rewrite skipn_app, skipn_all, Nat.sub_diag. cbn [app skipn].
  eexists _, _. split; [reflexivity|]. split; [reflexivity|]. split.
  - apply map_lookup_filter_Some. split; [|exact (table_exists d' path _ Ht')].
    rewrite lookup_insert_eq, entries_of_wide by exact Hwide. reflexivity.
  - intros Hsql. rewrite filter_sql_all by assumption.
    now apply entries_of_wide.
Qed.

(** X25. A data row that lacks one of the two columns, at or after the
    checkpoint, is passed over without being counted: the new checkpoint
    stays below the number of rows of the log, so the next call reads the
    last rows again. *)
Theorem get_new_entries_short_row (d : log_dir) (ck : gmap string nat) (path : string)
  (idx_ts idx_msg : nat) (data : list (list string)) :
  dir_exists d = true ->
  latest d (csv_logs d) = Some path ->
  table d path = Returned (idx_ts, idx_msg, data) ->
  forallb (wide idx_ts idx_msg) (skipn (Tool.get_or 0 (ck !! path)) data) = false ->
  exists es ck' v,
    get_new_entries d ck = Returned (es, ck')
    /\ ck' !! path = Some v
    /\ v < length data
    /\ get_new_entries d ck'
       = Returned (filter_sql_entries false (entries_of idx_ts idx_msg (skipn v data)),
                   <[path := v + length (entries_of idx_ts idx_msg (skipn v data))]> ck').
Proof.
  intros Hdir Hlatest Ht Hshort.
  destruct (get_new_entries_checkpoint d ck path idx_ts idx_msg data Hdir Hlatest Ht)
    as (es & ck' & Hrun & Hpath & _ & _).
  set (start := Tool.get_or 0 (ck !! path)) in *.
  exists es, ck', (start + length (entries_of idx_ts idx_msg (skipn start data))).
  split; [exact Hrun|]. split; [exact Hpath|].
  assert (Hlt : length (List.filter (wide idx_ts idx_msg) (skipn start data))
                < length (skipn start data)).
  { clear -Hshort. induction (skipn start data) as [|row rest IH]; [discriminate|].
    cbn in *. destruct (wide idx_ts idx_msg row); cbn in *.
    - specialize (IH Hshort). lia.
    - pose proof (filter_length_le (wide idx_ts idx_msg) rest). lia. }
  split.
  - rewrite entries_of_length. rewrite length_skipn in Hlt. lia.
  - rewrite (get_new_entries_step d ck' path idx_ts idx_msg data Hdir Hlatest Ht).
    rewrite Hpath. cbn [Tool.get_or]. f_equal. f_equal.
    assert (Hck' : ck' = filter (fun kv : string * nat => log_exists d kv.1 = true)
                           (<[path := start + length
                                (entries_of idx_ts idx_msg (skipn start data))]> ck)).
    { rewrite (get_new_entries_step d ck path idx_ts idx_msg data Hdir Hlatest Ht) in Hrun.
      now injection Hrun. }
    apply map_filter_id. intros q v Hq.
    destruct (decide (q = path)) as [->|Hne].
    + exact (table_exists d path _ Ht).
    + rewrite lookup_insert_ne in Hq by congruence. rewrite Hck' in Hq.
      apply map_lookup_filter_Some in Hq as [_ Hq]. exact Hq.
Qed.

Lemma entries_of_one_wide (idx_ts idx_msg : nat) (row : list string) :
  wide idx_ts idx_msg row = true ->
  exists ts msg, nth_error row idx_ts = Some ts /\ nth_error row idx_msg = Some msg
                 /\ entries_of idx_ts idx_msg [row] = [Entry ts msg].
Proof.
  unfold wide. intros H. apply andb_true_iff in H as [Hts Hmsg].
  apply Nat.ltb_lt in Hts, Hmsg.
  destruct (nth_error row idx_ts) as [ts|] eqn:Ets;
    [|apply nth_error_None in Ets; lia].
  destruct (nth_error row idx_msg) as [msg|] eqn:Emsg;
    [|apply nth_error_None in Emsg; lia].
  exists ts, msg. unfold entries_of. cbn [flat_map]. rewrite Ets, Emsg. auto.
Qed.

Lemma entries_of_short (idx_ts idx_msg : nat) (row : list string) :
  wide idx_ts idx_msg row = false -> entries_of idx_ts idx_msg [row] = [].
Proof.
  unfold wide, entries_of. cbn [flat_map]. intros H.
  destruct (nth_error row idx_ts) as [ts|] eqn:Ets; [|reflexivity].
  destruct (nth_error row idx_msg) as [msg|] eqn:Emsg; [|reflexivity].
  assert (idx_ts < length row) by (apply nth_error_Some; congruence).
  assert (idx_msg < length row) by (apply nth_error_Some; congruence).
  apply andb_false_iff in H as [H|H]; apply Nat.ltb_ge in H; lia.
Qed.

Lemma checkpoint_kept (d : log_dir) (ck : gmap string nat) (path : string) (v : nat) t :
  table d path = Returned t ->
  filter (fun kv : string * nat => log_exists d kv.1 = true) (<[path := v]> ck) !! path
  = Some v.
Proof.
  intros Ht. apply map_lookup_filter_Some. split; [apply lookup_insert_eq|].
  exact (table_exists d path t Ht).
Qed.


End Watcher.

Local Abbreviation get_new_entries := (DBWatcher.get_new_entries keyword_search).
Local Abbreviation filter_sql_entries := (DBWatcher.filter_sql_entries keyword_search).

(** A log with a header, a statement and a duration line. *)
Definition sample_log (rows : list (list string)) : log_dir :=
  {| dir_exists := true;
     csv_logs := ["/pg/log/a.csv"];
     mtime := fun _ => 0%Z;
     rows_of := fun p => if String.eqb p "/pg/log/a.csv"
                         then Some (["ts"; "msg"] :: rows) else None |}.

Definition row1 : list string := ["2024-05-01 10:00:00"; "statement: SELECT 1"].
Definition row2 : list string := ["2024-05-01 10:00:01"; "duration: 0.2 ms"].
Definition row3 : list string := ["2024-05-01 10:00:02"; "statement: insert into t values (1)"].
Definition short_row : list string := ["2024-05-01 10:00:03"].

Lemma read_from_spec_witness :
  _read_from (sample_log [row1; row2; row3]) "/pg/log/a.csv" 1
  = Returned [ Entry "2024-05-01 10:00:01" "duration: 0.2 ms";
               Entry "2024-05-01 10:00:02" "statement: insert into t values (1)" ].
Proof.
  destruct (read_from_spec (sample_log [row1; row2; row3]) "/pg/log/a.csv" 1
              0 1 [row1; row2; row3] eq_refl) as (out & Hrun & Hout & _).
  rewrite Hrun, Hout. reflexivity.
Defined.

Lemma get_new_entries_checkpoint_witness :
  exists es ck',
    get_new_entries (sample_log [row1; row2; row3]) {[ "/pg/log/a.csv" := 1 ]}
    = Returned (es, ck')
    /\ ck' !! "/pg/log/a.csv" = Some 3.
Proof.
  destruct (get_new_entries_checkpoint keyword_search (sample_log [row1; row2; row3])
              {[ "/pg/log/a.csv" := 1 ]} "/pg/log/a.csv" 0 1 [row1; row2; row3]
              eq_refl eq_refl eq_refl) as (es & ck' & Hrun & Hpath & _).
  exists es, ck'. split; [exact Hrun|]. rewrite Hpath. reflexivity.
Defined.

Lemma get_new_entries_settles_witness :
  exists es ck',
    get_new_entries (sample_log [row1; row2; row3]) ∅ = Returned (es, ck')
    /\ get_new_entries (sample_log [row1; row2; row3]) ck' = Returned ([], ck').
Proof.
  exact (get_new_entries_settles keyword_search (sample_log [row1; row2; row3]) ∅ "/pg/log/a.csv"
           0 1 [row1; row2; row3] eq_refl eq_refl eq_refl eq_refl).
Defined.

Lemma get_new_entries_appended_witness :
  exists es ck',
    get_new_entries (sample_log [row1; row2; row3]) {[ "/pg/log/a.csv" := 1 ]}
    = Returned (es, ck')
    /\ es = [ Entry "2024-05-01 10:00:02" "statement: insert into t values (1)" ]
    /\ ck' !! "/pg/log/a.csv" = Some 3.
Proof.
  destruct (get_new_entries_appended keyword_search (sample_log [row1]) (sample_log [row1; row2; row3])
              {[ "/pg/log/a.csv" := 1 ]} "/pg/log/a.csv" ["ts"; "msg"] [row1] [row2; row3]
              0 1 [row1] eq_refl eq_refl eq_refl eq_refl eq_refl
              ltac:(apply lookup_singleton_eq) eq_refl)
    as (es & ck' & Hrun & Hes & Hpath & _).
  exists es, ck'. split; [exact Hrun|]. split; [rewrite Hes; reflexivity | exact Hpath].
Defined.

(** After a short row the checkpoint is behind the log. *)
Lemma get_new_entries_short_row_witness :
  let d := sample_log [short_row; row1] in
  exists es ck' v,
    get_new_entries d ∅ = Returned (es, ck')
    /\ ck' !! "/pg/log/a.csv" = Some v
    /\ v < 2
    /\ get_new_entries d ck'
       = Returned (filter_sql_entries false (entries_of 0 1 (skipn v [short_row; row1])),
                   <["/pg/log/a.csv" :=
                       v + length (entries_of 0 1 (skipn v [short_row; row1]))]> ck').
Proof.
  exact (get_new_entries_short_row keyword_search (sample_log [short_row; row1]) ∅ "/pg/log/a.csv"
           0 1 [short_row; row1] eq_refl eq_refl eq_refl
           ltac:(rewrite lookup_empty; reflexivity)).
Defined.


End DBWatcherFacts.
